(** * PCIe topology resolver of [tests/test_gpu_pcie.py]

    A shallow embedding of the GPU/PCIe link check: address translation,
    firmware slot catalogue, chassis placement tables, link classification
    and the per-GPU loop of the test, followed by the properties proved
    about them.

    Text is modelled as [string], read as a sequence of code points below
    256 (the tools whose output is scraped print ASCII).  A Python [dict] is
    a [gmap], a Python [set] is a [gset], an exception is a value of [exc]. *)

From Stdlib Require Import ZArith NArith Ascii String List Lia Bool SpecFloat.
From stdpp Require Import gmap strings list sorting.

Set Warnings "-clear-no-such-hyp".

(** ** Characters *)

Definition LF : ascii := "010"%char.
Definition nl : string := String LF "".

Definition code (c : ascii) : N := N_of_ascii c.

Definition in_range (lo hi c : ascii) : bool :=
  ((code lo <=? code c) && (code c <=? code hi))%N.

(** [[0-9]].  Python's [\d] matches every Unicode decimal digit; among the
    code points below 256 these are [0] to [9], so [\d] is [is_digit] on the
    texts of this model and on no others. *)
Definition is_digit (c : ascii) : bool := in_range "0" "9" c.

(** [[0-9a-fA-F]] *)
Definition is_hex (c : ascii) : bool :=
  is_digit c || in_range "a" "f" c || in_range "A" "F" c.

(** [[0-7]] *)
Definition is_oct (c : ascii) : bool := in_range "0" "7" c.

(** [[0-9.]] *)
Definition is_digit_or_dot (c : ascii) : bool := is_digit c || Ascii.eqb c ".".

(** [\s] of a str pattern, and the characters [str.strip()] removes:
    TAB LF VT FF CR, FS GS RS US, space, NEL, NBSP. *)
Definition is_space (c : ascii) : bool :=
  in_range "009" "013" c || in_range "028" "031" c || Ascii.eqb c " "
  || Ascii.eqb c "133" || Ascii.eqb c "160".

(** [.] without DOTALL: anything but a line feed. *)
Definition not_nl (c : ascii) : bool := negb (Ascii.eqb c LF).

Definition any_char (_ : ascii) : bool := true.

(** [str.lower()] on one code point below 256. *)
Definition lower_char (c : ascii) : ascii :=
  if in_range "A" "Z" c
     || (in_range "192" "222" c && negb (Ascii.eqb c "215"))
  then ascii_of_N (code c + 32) else c.

(** ** Strings *)

Fixpoint lower (s : string) : string :=
  match s with
  | "" => ""
  | String c s' => String (lower_char c) (lower s')
  end.

Fixpoint starts_with (p s : string) : bool :=
  match p, s with
  | "", _ => true
  | String a p', String b s' => Ascii.eqb a b && starts_with p' s'
  | String _ _, "" => false
  end.

(** [needle in hay] *)
Fixpoint contains (needle hay : string) : bool :=
  starts_with needle hay ||
  match hay with
  | "" => false
  | String _ hay' => contains needle hay'
  end.

Fixpoint lstrip_with (p : ascii → bool) (s : string) : string :=
  match s with
  | String c s' => if p c then lstrip_with p s' else s
  | "" => ""
  end.

Definition strip_with (p : ascii → bool) (s : string) : string :=
  String.rev (lstrip_with p (String.rev (lstrip_with p s))).

(** [s.strip()] *)
Definition strip (s : string) : string := strip_with is_space s.

(** Truthiness of a str: non-empty. *)
Definition truthy (s : string) : bool :=
  match s with "" => false | _ => true end.

(** [a or b] on strings. *)
Definition str_or (a b : string) : string := if truthy a then a else b.

(** [f"{s:<n}"]: pad with spaces on the right up to width [n]. *)
Fixpoint ljust (n : nat) (s : string) : string :=
  match n, s with
  | 0, _ => s
  | S n', "" => String " " (ljust n' "")
  | S n', String c s' => String c (ljust n' s')
  end.

Fixpoint join (sep : string) (l : list string) : string :=
  match l with
  | [] => ""
  | [x] => x
  | x :: l' => x +:+ sep +:+ join sep l'
  end.

(** ** Numbers in text *)

Definition hex_digit_value (c : ascii) : N :=
  if is_digit c then code c - code "0"
  else if in_range "a" "f" c then code c - code "a" + 10
  else if in_range "A" "F" c then code c - code "A" + 10
  else 0.

Fixpoint int16_go (acc : N) (s : string) : N :=
  match s with
  | "" => acc
  | String c s' => int16_go (16 * acc + hex_digit_value c) s'
  end.

(** [int(s, 16)] on a string of hexadecimal digits; the program only calls it
    on regex groups of that shape. *)
Definition int16 (s : string) : N := int16_go 0 s.

Definition hex_char (d : N) : ascii :=
  if (d <? 10)%N then ascii_of_N (code "0" + d)
  else ascii_of_N (code "a" + (d - 10)).

Fixpoint hex_digits (fuel : nat) (n : N) (acc : string) : string :=
  match fuel with
  | 0 => acc
  | S f =>
      let acc' := String (hex_char (n mod 16)) acc in
      if (n / 16 =? 0)%N then acc' else hex_digits f (n / 16) acc'
  end.

Fixpoint zfill (w : nat) (s : string) : string :=
  match w - String.length s with
  | 0 => s
  | S _ => match w with 0 => s | S w' => String "0" (zfill w' s) end
  end.

(** [f"{n:0wx}"]: lower-case hexadecimal, zero-padded to width [w]. *)
Definition format_x (w : nat) (n : N) : string :=
  zfill w (hex_digits (S (N.to_nat (N.log2 n))) n "").

(** [f"{n}"] for a one-digit number, the only case the program prints. *)
Definition format_d1 (n : N) : string := String (ascii_of_N (code "0" + n)) "".


(** ** Exceptions

    A computation that may raise returns [exc A]: [Ret] is normal completion,
    [Raise] an exception that propagates.  [pytest.skip] raises [Skipped],
    a failed [assert] raises [AssertionError]. *)

Inductive exn : Type :=
| ValueError
| AttributeError
| IndexError
| KeyError
| AssertionError (msg : string)
| Skipped (msg : string).

Inductive exc (A : Type) : Type :=
| Ret (a : A)
| Raise (e : exn).
Arguments Ret {A} a.
Arguments Raise {A} e.

#[global] Instance exc_ret : MRet exc := fun A a => Ret a.
#[global] Instance exc_bind : MBind exc := fun A B f m =>
  match m with
  | Ret a => f a
  | Raise e => Raise e
  end.

(** [try: body / except Exception: handler].  [Skipped] derives from
    [BaseException] in pytest and is not caught. *)
Definition try_except {A} (body : exc A) (handler : exc A) : exc A :=
  match body with
  | Ret a => Ret a
  | Raise (Skipped m) => Raise (Skipped m)
  | Raise _ => handler
  end.

Fixpoint mapM {A B} (f : A → exc B) (l : list A) : exc (list B) :=
  match l with
  | [] => Ret []
  | x :: l' => y ← f x; ys ← mapM f l'; Ret (y :: ys)
  end.

(** ** Regular expressions

    The fragment of Python's [re] the program uses: literals, character
    classes, greedy bounded or unbounded repetition of a class, alternatives,
    capturing groups, and the anchors [^] and [$].  Matching is by backtracking, the
    longest repetition first, as in [re]. *)

Inductive re : Type :=
| Lit (s : string)
| Chr (p : ascii → bool)
| Rep (p : ascii → bool) (lo : nat) (hi : option nat)
| Cat (r1 r2 : re)
| Alt (r1 r2 : re)
| Grp (n : nat) (r : re)
| Bol
| Eol.

Infix "⋅" := Cat (at level 41, right associativity).

Definition star (p : ascii → bool) : re := Rep p 0 None.
Definition plus (p : ascii → bool) : re := Rep p 1 None.
Definition times (p : ascii → bool) (n : nat) : re := Rep p n (Some n).

(** The state of a match in progress: the character before the current
    position, the text still to read, the text consumed so far (reversed) in
    the innermost open group or else in the whole match, and the groups closed
    so far. *)
Record mstate : Type := MState {
  prev : option ascii;
  rest : string;
  acc : string;
  caps : list (nat * string)
}.

Definition step_char (c : ascii) (s' : string) (st : mstate) : mstate :=
  MState (Some c) s' (String c (acc st)) (caps st).

Fixpoint lit_go (l : string) (st : mstate) : option mstate :=
  match l with
  | "" => Some st
  | String a l' =>
      match rest st with
      | String c s' =>
          if Ascii.eqb a c then lit_go l' (step_char c s' st) else None
      | "" => None
      end
  end.

Definition more (hi : option nat) : bool :=
  match hi with Some 0 => false | _ => true end.

Fixpoint rep_go {R} (p : ascii → bool) (lo : nat) (hi : option nat)
    (s : string) (st : mstate) (k : mstate → option R) : option R :=
  let stop := match lo with 0 => k st | S _ => None end in
  match s with
  | String c s' =>
      if more hi && p c then
        match rep_go p (pred lo) (pred <$> hi) s' (step_char c s' st) k with
        | Some r => Some r
        | None => stop
        end
      else stop
  | "" => stop
  end.

(** [^]: start of text, and with MULTILINE also after a line feed. *)
Definition at_bol (ml : bool) (st : mstate) : bool :=
  match prev st with
  | None => true
  | Some c => ml && Ascii.eqb c LF
  end.

(** [$]: end of text or just before a final line feed, and with MULTILINE
    before any line feed. *)
Definition at_eol (ml : bool) (st : mstate) : bool :=
  match rest st with
  | "" => true
  | String c s' =>
      Ascii.eqb c LF && (ml || match s' with "" => true | _ => false end)
  end.

Fixpoint exec {R} (ml : bool) (r : re) (st : mstate)
    (k : mstate → option R) : option R :=
  match r with
  | Lit l => match lit_go l st with Some st' => k st' | None => None end
  | Chr p =>
      match rest st with
      | String c s' => if p c then k (step_char c s' st) else None
      | "" => None
      end
  | Rep p lo hi => rep_go p lo hi (rest st) st k
  | Cat r1 r2 => exec ml r1 st (fun st' => exec ml r2 st' k)
  | Alt r1 r2 =>
      match exec ml r1 st k with
      | Some r => Some r
      | None => exec ml r2 st k
      end
  | Grp n r =>
      exec ml r (MState (prev st) (rest st) "" (caps st))
        (fun st' =>
           k (MState (prev st') (rest st') (acc st' +:+ acc st)
                     ((n, String.rev (acc st')) :: caps st')))
  | Bol => if at_bol ml st then k st else None
  | Eol => if at_eol ml st then k st else None
  end.

(** A match object: the matched text ([group(0)]), the groups, and the
    text after the match. *)
Record rmatch : Type := RMatch {
  m_text : string;
  m_caps : list (nat * string);
  m_rest : string
}.

Definition match_at (ml : bool) (r : re) (before : option ascii) (s : string)
    : option rmatch :=
  exec ml r (MState before s "" [])
    (fun st => Some (RMatch (String.rev (acc st)) (caps st) (rest st))).

(** [m.group(n)] for a group that took part in the match. *)
Fixpoint lookup_cap (n : nat) (l : list (nat * string)) : string :=
  match l with
  | [] => ""
  | (i, s) :: l' => if Nat.eqb i n then s else lookup_cap n l'
  end.

Definition group (m : rmatch) (n : nat) : string := lookup_cap n (m_caps m).

(** [re.match(r, s)] *)
Definition re_match (ml : bool) (r : re) (s : string) : option rmatch :=
  match_at ml r None s.

(** [re.search(r, s)]: the first position, from the left, where [r] matches. *)
Fixpoint search_from (ml : bool) (r : re) (before : option ascii) (s : string)
    : option rmatch :=
  match match_at ml r before s with
  | Some m => Some m
  | None =>
      match s with
      | "" => None
      | String c s' => search_from ml r (Some c) s'
      end
  end.

Definition re_search (ml : bool) (r : re) (s : string) : option rmatch :=
  search_from ml r None s.

(** [re.findall(r, s)] for a pattern without groups: the texts of the
    successive non-overlapping matches.  [skip] counts the characters of the
    last match that are still to be passed over. *)
Fixpoint findall_from (r : re) (before : option ascii) (s : string)
    (skip : nat) : list string :=
  match skip, s with
  | S n, String c s' => findall_from r (Some c) s' n
  | S _, "" => []
  | 0, _ =>
      match match_at false r before s, s with
      | Some m, String c s' =>
          m_text m :: findall_from r (Some c) s' (pred (String.length (m_text m)))
      | Some m, "" => [m_text m]
      | None, String c s' => findall_from r (Some c) s' 0
      | None, "" => []
      end
  end.

Definition re_findall (r : re) (s : string) : list string :=
  findall_from r None s 0.

(** [re.split(r, s)] for a pattern without groups that never matches the
    empty string: the pieces between the successive matches.  [cur] is the
    current piece, reversed. *)
Fixpoint split_from (r : re) (before : option ascii) (s : string)
    (skip : nat) (cur : string) : list string :=
  match skip, s with
  | S n, String c s' => split_from r (Some c) s' n cur
  | S _, "" => [String.rev cur]
  | 0, "" => [String.rev cur]
  | 0, String c s' =>
      match match_at false r before s with
      | Some m =>
          match String.length (m_text m) with
          | 0 => split_from r (Some c) s' 0 (String c cur)
          | S n => String.rev cur :: split_from r (Some c) s' n ""
          end
      | None => split_from r (Some c) s' 0 (String c cur)
      end
  end.

Definition re_split (r : re) (s : string) : list string :=
  split_from r None s 0 "".

Fixpoint concat_str (l : list string) : string :=
  match l with
  | [] => ""
  | x :: l' => x +:+ concat_str l'
  end.

(** [re.sub(r, "", s)] for a pattern that never matches the empty string:
    what is left of [s] between the matches. *)
Definition re_sub_empty (r : re) (s : string) : string :=
  concat_str (split_from r None s 0 "").

(** [s.splitlines()]; the line boundaries below 256 are LF, CR, CR LF, VT,
    FF, FS, GS, RS and NEL. *)
Definition is_linebreak (c : ascii) : bool :=
  in_range "010" "013" c || in_range "028" "030" c || Ascii.eqb c "133".

Fixpoint splitlines_go (s : string) (cur : string) : list string :=
  match s with
  | "" => match cur with "" => [] | _ => [String.rev cur] end
  | String c s' =>
      if is_linebreak c then
        String.rev cur ::
        match c, s' with
        | "013"%char, String "010"%char s'' => splitlines_go s'' ""
        | _, _ => splitlines_go s' ""
        end
      else splitlines_go s' (String c cur)
  end.

Definition splitlines (s : string) : list string := splitlines_go s "".

(** ** The host

    What the program reads from the machine it runs on.  [try_run] turns a
    failing command into the empty output, so each command is a text. *)

Record host : Type := Host {
  (** [shutil.which("lspci") is not None] *)
  lspci_installed : bool;
  (** [try_run(["lspci", "-Dnns", "10de:"])] *)
  lspci_Dnns : string;
  (** [try_run(["lspci", "-Dnn"])] *)
  lspci_Dnn : string;
  (** [shutil.which("dmidecode") is not None] *)
  dmidecode_installed : bool;
  (** [try_run(["sudo", "dmidecode", "-t", "9"])] *)
  dmidecode_t9 : string;
  (** [os.path.realpath] *)
  realpath : string → string;
  (** [try_run] of [lspci -s DEV -vv | grep -E 'Lnk(Cap|Sta):'] *)
  lspci_lnk : string → string;
  (** [try_run] of [lspci -s DEV -nn | head -n1] *)
  lspci_nn_head : string → string
}.

(** The built-in conversions [int(s)] and [float(s)] ([None] is the
    [ValueError] they raise) and the order of floats. *)
Class Numerals : Type := {
  float : Type;
  py_int : string → option Z;
  py_float : string → option float;
  float_lt : float → float → bool
}.

Definition int `{Numerals} (s : string) : exc Z :=
  match py_int s with Some z => Ret z | None => Raise ValueError end.

Definition to_float `{Numerals} (s : string) : exc float :=
  match py_float s with Some x => Ret x | None => Raise ValueError end.

(** ** The built-in conversions

    [int(s)] and [float(s)] on texts of code points below 256, for the
    instance of [Numerals] the examples are evaluated with.  Blanks around
    the number are dropped, a sign may come first, and an underscore may
    separate two digits. *)

Definition digit_value (c : ascii) : Z := Z.of_N (code c - code "0").

(** The blanks the conversions drop around a number: TAB LF VT FF CR, space,
    NEL, NBSP. *)
Definition is_number_blank (c : ascii) : bool :=
  in_range "009" "013" c || Ascii.eqb c " " || Ascii.eqb c "133"
  || Ascii.eqb c "160".

(** Digits, with single underscores between them: the value and the number
    of digits. *)
Fixpoint digits_go (s : string) (acc : Z) (count : nat) (after_digit : bool)
    : option (Z * nat * string) :=
  match s with
  | "" => if after_digit then Some (acc, count, "") else None
  | String c s' =>
      if is_digit c then
        digits_go s' (10 * acc + digit_value c)%Z (S count) true
      else if Ascii.eqb c "_" then
        if after_digit then
          match s' with
          | String d _ =>
              if is_digit d then digits_go s' acc count false else None
          | "" => None
          end
        else None
      else if after_digit then Some (acc, count, s) else None
  end.

(** A run of at least one digit at the head of [s], and what follows it. *)
Definition digits (s : string) : option (Z * nat * string) :=
  digits_go s 0%Z 0 false.

Definition sign_of (s : string) : bool * string :=
  match s with
  | String c s' =>
      if Ascii.eqb c "-" then (true, s')
      else if Ascii.eqb c "+" then (false, s')
      else (false, s)
  | "" => (false, s)
  end.

(** [sys.get_int_max_str_digits()], by default. *)
Definition int_max_str_digits : nat := 4300.

Definition python_int (s : string) : option Z :=
  let '(neg, body) := sign_of (strip_with is_number_blank s) in
  match digits body with
  | Some (n, count, "") =>
      if (int_max_str_digits <? count)%nat then None
      else Some (if neg then (- n)%Z else n)
  | _ => None
  end.

(** Floats are binary64 numbers: precision 53, maximal exponent 1024. *)
Definition binary64 : Type := spec_float.

(** [m * 10 ^ e], rounded to the nearest binary64 number. *)
Definition decimal_to_binary64 (neg : bool) (m e : Z) : binary64 :=
  match m with
  | Z0 => S754_zero neg
  | Zpos p =>
      match e with
      | Zneg k =>
          SFdiv 53 1024 (S754_finite neg p 0)
                (S754_finite false (Pos.pow 10 k) 0)
      | _ =>
          let n := (p * Z.to_pos (10 ^ e))%positive in
          binary_normalize 53 1024 (if neg then Zneg n else Zpos n) 0 false
      end
  | Zneg _ => S754_nan
  end.

(** The exponent part of a float literal, if any. *)
Definition exponent (s : string) : option Z :=
  match s with
  | "" => Some 0%Z
  | String c s' =>
      if Ascii.eqb (lower_char c) "e" then
        let '(neg, body) := sign_of s' in
        match digits body with
        | Some (n, _, "") => Some (if neg then (- n)%Z else n)
        | _ => None
        end
      else None
  end.

(** The digits after the point: the mantissa grows, the exponent drops. *)
Definition fraction (int_part : Z) (s : string) : option (Z * Z * string) :=
  match digits_go s int_part 0 false with
  | Some (m, count, s') => Some (m, (- Z.of_nat count)%Z, s')
  | None => None
  end.

Definition python_float (s : string) : option binary64 :=
  let '(neg, body) := sign_of (strip_with is_number_blank s) in
  let word := lower body in
  if String.eqb word "inf" || String.eqb word "infinity" then
    Some (S754_infinity neg)
  else if String.eqb word "nan" then Some S754_nan
  else
    let number :=
      match body with
      | String "." s' => fraction 0 s'
      | _ =>
          match digits body with
          | Some (n, _, String "." s') =>
              match s' with
              | "" => Some (n, 0%Z, "")
              | String c _ =>
                  if is_digit c then fraction n s' else Some (n, 0%Z, s')
              end
          | Some (n, _, s') => Some (n, 0%Z, s')
          | None => None
          end
      end in
    match number with
    | Some (m, shift, tail) =>
        match exponent tail with
        | Some e => Some (decimal_to_binary64 neg m (e + shift))
        | None => None
        end
    | None => None
    end.

#[global] Instance python_numerals : Numerals := {|
  float := binary64;
  py_int := python_int;
  py_float := python_float;
  float_lt := SFltb
|}.

(** [l[i]], with Python's negative indices. *)
Definition py_index {A} (l : list A) (i : Z) : exc A :=
  let j := if (i <? 0)%Z then (i + Z.of_nat (length l))%Z else i in
  if (j <? 0)%Z then Raise IndexError
  else match l !! Z.to_nat j with
       | Some x => Ret x
       | None => Raise IndexError
       end.

(** ** Address translation *)

(** [^([0-9a-fA-F]{4}):([0-9a-fA-F]{2}):([0-9a-fA-F]{2})\.([0-7])$] *)
Definition bdf_re : re :=
  Bol ⋅ Grp 1 (times is_hex 4) ⋅ Lit ":" ⋅ Grp 2 (times is_hex 2) ⋅ Lit ":"
      ⋅ Grp 3 (times is_hex 2) ⋅ Lit "." ⋅ Grp 4 (Chr is_oct) ⋅ Eol.

Definition dmi_key_from_bdf (bdf : string) : string :=
  match re_match false bdf_re bdf with
  | None => ""
  | Some m =>
      let bus := group m 2 in
      let dev := group m 3 in
      let fn := group m 4 in
      format_x 4 (int16 bus) +:+ ":" +:+ format_x 2 (int16 dev) +:+ ":"
        +:+ format_x 2 0 +:+ "." +:+ format_d1 (int16 fn)
  end.

(** The fields of an address. *)
Record pci_address : Type := PciAddress {
  domain : N;
  bus : N;
  device : N;
  function : N
}.

(** An address text read into its fields, with the pattern and the
    conversions [dmi_key_from_bdf] applies. *)
Definition parse_address (s : string) : option pci_address :=
  match re_match false bdf_re s with
  | Some m =>
      Some (PciAddress (int16 (group m 1)) (int16 (group m 2))
                       (int16 (group m 3)) (int16 (group m 4)))
  | None => None
  end.

(** The canonical form [DDDD:BB:DD.F] in the words of the specification:
    four hexadecimal digits, a colon, two hexadecimal digits, a colon, two
    hexadecimal digits, a point and one digit from 0 to 7, and nothing else.
    The result is the four fields as texts. *)
Definition canonical_fields (s : string)
    : option (string * string * string * string) :=
  match s with
  | String d1 (String d2 (String d3 (String d4 (String c1
      (String b1 (String b2 (String c2
        (String v1 (String v2 (String c3 (String f ""))))))))))) =>
      if is_hex d1 && is_hex d2 && is_hex d3 && is_hex d4 && Ascii.eqb c1 ":"
         && is_hex b1 && is_hex b2 && Ascii.eqb c2 ":"
         && is_hex v1 && is_hex v2 && Ascii.eqb c3 "." && is_oct f
      then Some (String d1 (String d2 (String d3 (String d4 ""))),
                 String b1 (String b2 ""), String v1 (String v2 ""),
                 String f "")
      else None
  | _ => None
  end.

Definition is_canonical (s : string) : bool :=
  match canonical_fields s with Some _ => true | None => false end.

(** [s] without its last character when that is a line feed. *)
Fixpoint drop_final_lf (s : string) : string :=
  match s with
  | "" => ""
  | String c "" => if Ascii.eqb c LF then "" else s
  | String c s' => String c (drop_final_lf s')
  end.

(** [0000:[0-9a-fA-F]{2}:[0-9a-fA-F]{2}\.[0-7]] *)
Definition chain_re : re :=
  Lit "0000:" ⋅ times is_hex 2 ⋅ Lit ":" ⋅ times is_hex 2 ⋅ Lit "." ⋅ Chr is_oct.

Definition get_chain_for_device (h : host) (dev_nodom : string) : list string :=
  let p := realpath h ("/sys/bus/pci/devices/0000:" +:+ dev_nodom) in
  re_findall chain_re p.

(** ** Link fields and their classification *)

(** [Speed\s+([0-9.]+)GT/s] *)
Definition speed_re : re :=
  Lit "Speed" ⋅ plus is_space ⋅ Grp 1 (plus is_digit_or_dot) ⋅ Lit "GT/s".

(** [Width x(\d+)], with [\d] as [is_digit]: exact for an output of code
    points below 256; a decimal digit beyond them, which [\d] also matches,
    is not a text of this model. *)
Definition width_re : re := Lit "Width x" ⋅ Grp 1 (plus is_digit).

Record link_fields : Type := LinkFields {
  cap_speed : string;
  cap_width : string;
  sta_speed : string;
  sta_width : string
}.

Definition search_group1 (r : re) (line : string) (old : string) : string :=
  match re_search false r line with
  | Some m => group m 1
  | None => old
  end.

Definition link_line (f : link_fields) (line : string) : link_fields :=
  if contains "LnkCap:" line then
    LinkFields (search_group1 speed_re line (cap_speed f))
               (search_group1 width_re line (cap_width f))
               (sta_speed f) (sta_width f)
  else if contains "LnkSta:" line then
    LinkFields (cap_speed f) (cap_width f)
               (search_group1 speed_re line (sta_speed f))
               (search_group1 width_re line (sta_width f))
  else f.

Definition get_link_fields (h : host) (dev_nodom : string) : link_fields :=
  fold_left link_line (splitlines (lspci_lnk h dev_nodom))
            (LinkFields "" "" "" "").

Definition link_status_tag `{Numerals} (cap_s cap_w sta_s sta_w : string)
    : exc string :=
  let lane_down := false in
  let idle := false in
  lane_down ← try_except
    (if truthy cap_w && truthy sta_w then
       a ← int sta_w; b ← int cap_w;
       Ret (if (a <? b)%Z then true else lane_down)
     else Ret lane_down)
    (Ret lane_down);
  idle ← try_except
    (if truthy cap_s && truthy sta_s then
       a ← to_float sta_s; b ← to_float cap_s;
       Ret (if float_lt a b then true else idle)
     else Ret idle)
    (Ret idle);
  if (lane_down : bool) then Ret "DOWNGRADED"
  else if (idle : bool) then Ret "IDLE"
  else Ret "OK".

(** ** Short device name *)

Definition not_colon (c : ascii) : bool := negb (Ascii.eqb c ":").
Definition not_lbracket (c : ascii) : bool := negb (Ascii.eqb c "[").
Definition not_rbracket (c : ascii) : bool := negb (Ascii.eqb c "]").

(** [^[^:]*:\s*] *)
Definition name_prefix_re : re := Bol ⋅ star not_colon ⋅ Lit ":" ⋅ star is_space.

(** [\s\((rev|prog-if).*$] *)
Definition revision_re : re :=
  Chr is_space ⋅ Lit "(" ⋅ Grp 1 (Alt (Lit "rev") (Lit "prog-if"))
    ⋅ star not_nl ⋅ Eol.

(** [\[[^\]]+\]] *)
Definition token_re : re := Lit "[" ⋅ plus not_rbracket ⋅ Lit "]".

(** [^\[[0-9a-fA-F]{4}:[0-9a-fA-F]{4}\]$] *)
Definition id_token_re : re :=
  Bol ⋅ Lit "[" ⋅ times is_hex 4 ⋅ Lit ":" ⋅ times is_hex 4 ⋅ Lit "]" ⋅ Eol.

(** [^[^\[]*] followed by group 1, [.] repeated zero or more times, and
    [$]. *)
Definition bracket_tail_re : re :=
  Bol ⋅ star not_lbracket ⋅ Grp 1 (star not_nl) ⋅ Eol.

(** The loop over the bracketed tokens: the first vendor:device token, with
    the token before it when there is one. *)
Fixpoint name_from_tokens (previous : option string) (tokens : list string)
    : option string :=
  match tokens with
  | [] => None
  | t :: tokens' =>
      match re_match false id_token_re t with
      | Some _ =>
          Some (match previous with
                | Some p => p +:+ " " +:+ t
                | None => t
                end)
      | None => name_from_tokens (Some t) tokens'
      end
  end.

Definition get_gpu_short_name (h : host) (dev_nodom : string) : string :=
  let line := lspci_nn_head h dev_nodom in
  let line :=
    strip (match re_match false name_prefix_re line with
           | Some m => m_rest m
           | None => line
           end) in
  let line := re_sub_empty revision_re line in
  let tokens := re_findall token_re line in
  match name_from_tokens None tokens with
  | Some name => name
  | None =>
      match re_match false bracket_tail_re line with
      | Some m => group m 1 +:+ m_rest m
      | None => line
      end
  end.

(** Both widths are present and parse, and the negotiated one is smaller. *)
Definition lane_regression `{Numerals} (cap_w sta_w : string) : Prop :=
  cap_w ≠ "" ∧ sta_w ≠ "" ∧
  ∃ a b, py_int sta_w = Some a ∧ py_int cap_w = Some b ∧ (a < b)%Z.

(** Both speeds are present and parse, and the negotiated one is smaller. *)
Definition speed_regression `{Numerals} (cap_s sta_s : string) : Prop :=
  cap_s ≠ "" ∧ sta_s ≠ "" ∧
  ∃ x y, py_float sta_s = Some x ∧ py_float cap_s = Some y
         ∧ float_lt x y = true.

(** ** Firmware slot catalogue *)

(** [^\s*Designation:\s*(.+)$] *)
Definition desig_re : re :=
  Bol ⋅ star is_space ⋅ Lit "Designation:" ⋅ star is_space
      ⋅ Grp 1 (plus not_nl) ⋅ Eol.

(** [^\s*Type:\s*(.+)$] *)
Definition type_re : re :=
  Bol ⋅ star is_space ⋅ Lit "Type:" ⋅ star is_space ⋅ Grp 1 (plus not_nl) ⋅ Eol.

(** [^\s*Bus Address:\s*([0-9a-fA-F]{4}:[0-9a-fA-F]{2}:[0-9a-fA-F]{2}\.[0-9a-fA-F])$] *)
Definition busaddr_re : re :=
  Bol ⋅ star is_space ⋅ Lit "Bus Address:" ⋅ star is_space
      ⋅ Grp 1 (times is_hex 4 ⋅ Lit ":" ⋅ times is_hex 2 ⋅ Lit ":"
                 ⋅ times is_hex 2 ⋅ Lit "." ⋅ Chr is_hex)
      ⋅ Eol.

(** [\n\s*\n] *)
Definition block_sep_re : re := Lit nl ⋅ star is_space ⋅ Lit nl.

(** The loop state of [parse_dmi_slots]: the two dictionaries and the
    carried designation and type. *)
Record dmi_state : Type := DmiState {
  DMI_DESIG : gmap string string;
  DMI_TYPE : gmap string string;
  current_designation : string;
  current_type : string
}.

Definition dmi_init : dmi_state := DmiState ∅ ∅ "" "".

(** The three [re.search] calls on one block, with MULTILINE. *)
Definition block_designation (block : string) : option string :=
  (λ m, strip (group m 1)) <$> re_search true desig_re block.
Definition block_type (block : string) : option string :=
  (λ m, strip (group m 1)) <$> re_search true type_re block.
Definition block_bus_address (block : string) : option string :=
  (λ m, group m 1) <$> re_search true busaddr_re block.

(** One iteration of the loop over blocks. *)
Definition dmi_block (st : dmi_state) (block : string) : dmi_state :=
  if negb (truthy (strip block)) then st
  else
    let cd := default (current_designation st) (block_designation block) in
    let ct := default (current_type st) (block_type block) in
    match block_bus_address block with
    | Some bus_addr =>
        if truthy cd then
          DmiState (<[bus_addr := cd]> (DMI_DESIG st))
                   (<[bus_addr := str_or ct "Unknown"]> (DMI_TYPE st)) cd ct
        else DmiState (DMI_DESIG st) (DMI_TYPE st) cd ct
    | None => DmiState (DMI_DESIG st) (DMI_TYPE st) cd ct
    end.

Definition dmi_blocks (out : string) : list string := re_split block_sep_re out.

(** The loop over the blocks of the table, from a given state. *)
Definition dmi_scan (blocks : list string) (st : dmi_state) : dmi_state :=
  fold_left dmi_block blocks st.

Definition parse_dmi_slots (h : host)
    : gmap string string * gmap string string :=
  if negb (dmidecode_installed h) then (∅, ∅)
  else
    let st := dmi_scan (dmi_blocks (dmidecode_t9 h)) dmi_init in
    (DMI_DESIG st, DMI_TYPE st).



(** ** Location and slot heuristics *)

Definition riser_side (group : string) : string :=
  if bool_decide (group ∈ ["PCIE_3"; "PCIE_4"]) then "Front"
  else if bool_decide (group ∈ ["PCIE_1"; "PCIE_2"]) then "Rear"
  else "ERROR".

Definition riser_lr_table : gmap string string :=
  list_to_map [("PCIE_1", "Right"); ("PCIE_2", "Left");
               ("PCIE_3", "Right"); ("PCIE_4", "Left")].

Definition riser_lr (group : string) : string :=
  default "ERROR" (riser_lr_table !! group).

(** [^(PCIE_\d+)_.*], with [\d] as [is_digit] as in [width_re]. *)
Definition riser_re : re :=
  Bol ⋅ Grp 1 (Lit "PCIE_" ⋅ plus is_digit) ⋅ Lit "_" ⋅ star not_nl.

Definition riser_group_from_desig (desig : string) : string :=
  match re_match false riser_re (str_or desig "") with
  | Some m => group m 1
  | None => ""
  end.

Definition inner_slot_table : gmap string (gmap string string) :=
  list_to_map
    [("PCIE_3", list_to_map [("00", "Bottom"); ("01", "Top")]);
     ("PCIE_2", list_to_map [("00", "Bottom"); ("01", "Top")]);
     ("PCIE_1", list_to_map [("00", "Top"); ("01", "Bottom")]);
     ("PCIE_4", list_to_map [("00", "Top"); ("01", "Bottom")])].

Definition inner_slot_from_dev_with_group (group dev_hex : string) : string :=
  default "ERROR" (default ∅ (inner_slot_table !! group) !! dev_hex).

Definition gpu_label_table : gmap string string :=
  list_to_map
    [("PCIE_1_PCIE_1", "GPU1"); ("PCIE_1_PCIE_2", "GPU2");
     ("PCIE_2_PCIE_1", "GPU5"); ("PCIE_2_PCIE_2", "GPU6");
     ("PCIE_3_PCIE_1", "GPU3"); ("PCIE_3_PCIE_2", "GPU4");
     ("PCIE_4_PCIE_1", "GPU7"); ("PCIE_4_PCIE_2", "GPU8")].

Definition gpu_label_from_key (key : string) : string :=
  default "ERROR" (gpu_label_table !! key).

(** The key the test builds from the group and the inner position:
    [f"{group}_PCIE_{'1' if inner=='Top' else '2'}"]. *)
Definition slot_key (group inner : string) : string :=
  group +:+ "_PCIE_" +:+ (if bool_decide (inner = "Top") then "1" else "2").

(** ** GPU discovery *)

(** [^([0-9a-fA-F]{4}):([0-9a-fA-F]{2}:[0-9a-fA-F]{2}\.[0-7])\s+] followed by
    group 3, [.] repeated zero or more times, and [$]. *)
Definition lspci_line_re : re :=
  Bol ⋅ Grp 1 (times is_hex 4) ⋅ Lit ":"
      ⋅ Grp 2 (times is_hex 2 ⋅ Lit ":" ⋅ times is_hex 2 ⋅ Lit "." ⋅ Chr is_oct)
      ⋅ plus is_space ⋅ Grp 3 (star not_nl) ⋅ Eol.

(** One iteration of the loop over the lines of the listing: the address
    appended to [bdfs], if any. *)
Definition gpu_line (line : string) : option string :=
  if negb (contains "[10de:" (lower line)) then None
  else
    match re_match false lspci_line_re line with
    | None => None
    | Some m =>
        let nodom := group m 2 in
        let rest := group m 3 in
        let ok := contains "[0300]" rest || contains "[0302]" rest
                  || contains "VGA compatible controller" rest
                  || contains "3D controller" rest in
        if ok then Some nodom else None
    end.

(** [s.split(c)] for a one-character separator. *)
Fixpoint split_on_go (c : ascii) (s : string) (cur : string) : list string :=
  match s with
  | "" => [String.rev cur]
  | String a s' =>
      if Ascii.eqb a c then String.rev cur :: split_on_go c s' ""
      else split_on_go c s' (String a cur)
  end.

Definition split_on (c : ascii) (s : string) : list string := split_on_go c s "".

Fixpoint int10_go (acc : N) (s : string) : N :=
  match s with
  | "" => acc
  | String c s' => int10_go (10 * acc + (code c - code "0")) s'
  end.

(** [int(s)] on a string of decimal digits (here always one regex-checked
    digit). *)
Definition int10 (s : string) : N := int10_go 0 s.

Definition sort_key : Type := N * N * N.

(** The sort key of [discover_gpu_bdfs]; unpacking a list that does not
    have exactly two items raises [ValueError]. *)
Definition keyfn (s : string) : exc sort_key :=
  match split_on ":" s with
  | [bus; devfn] =>
      match split_on "." devfn with
      | [dev; fn] => Ret (int16 bus, int16 dev, int10 fn)
      | _ => Raise ValueError
      end
  | _ => Raise ValueError
  end.

(** The order of Python tuples of three integers. *)
Definition key_le (k1 k2 : sort_key) : Prop :=
  let '(b1, d1, f1) := k1 in
  let '(b2, d2, f2) := k2 in
  (b1 < b2 ∨ (b1 = b2 ∧ (d1 < d2 ∨ (d1 = d2 ∧ f1 ≤ f2))))%N.

#[global] Instance key_le_dec : RelDecision key_le.
Proof. intros [[b1 d1] f1] [[b2 d2] f2]. unfold key_le. apply _. Defined.

(** Comparing decorated items by their key. *)
Definition by_key {A K} (le : relation K) : relation (K * A) :=
  λ a b, le a.1 b.1.

#[global] Instance by_key_dec {A K} (le : relation K) `{!RelDecision le}
  : RelDecision (by_key (A:=A) le).
Proof. intros a b. unfold by_key. apply _. Defined.

(** [sorted(xs, key=f)]: the keys are computed first, then the items are
    sorted by key. *)
Definition sorted_by {A K} (le : relation K) `{!RelDecision le}
    (f : A → exc K) (xs : list A) : exc (list A) :=
  decorated ← mapM (λ x, k ← f x; Ret (k, x)) xs;
  Ret ((merge_sort (by_key le) decorated).*2).

(** The addresses the loop over the listing collects. *)
Definition gpu_lines (txt : string) : list string :=
  omap gpu_line (splitlines txt).

(** [discover_gpu_bdfs], with [sorted(set(bdfs), key=keyfn)] at its end.
    Python iterates a set of strings in an order that changes from run to
    run, and [sorted] is stable: two addresses with equal keys, as [3B:00.0]
    and [3b:00.0], come out in either order.  [elements] fixes one; the
    properties below state the order of the keys only, never the order of
    two addresses with equal keys. *)
Definition discover_gpu_bdfs (h : host) : exc (list string) :=
  if negb (lspci_installed h) then
    Raise (Skipped "pciutils not installed (sudo apt-get install -y pciutils)")
  else
    let txt := str_or (lspci_Dnns h) (lspci_Dnn h) in
    if negb (truthy txt) then Raise (Skipped "lspci returned no output")
    else
      let bdfs := gpu_lines txt in
      sorted_by key_le keyfn (elements (list_to_set bdfs : gset string)).

(** ** The test *)

Fixpoint foldM {A B} (f : B → A → exc B) (b : B) (l : list A) : exc B :=
  match l with
  | [] => Ret b
  | x :: l' => b' ← f b x; foldM f b' l'
  end.

(** [d[k]] *)
Definition py_getitem (d : gmap string string) (k : string) : exc string :=
  match d !! k with
  | Some v => Ret v
  | None => Raise KeyError
  end.

Fixpoint repeat_str (n : nat) (s : string) : string :=
  match n with
  | 0 => ""
  | S n' => s +:+ repeat_str n' s
  end.

Definition ESC : ascii := "027"%char.
Definition RED : string := String ESC "[31m".
Definition GREEN : string := String ESC "[32m".
Definition RESET : string := String ESC "[0m".

Definition color_line (status line : string) : string :=
  if contains "DOWNGRADED" status then RED +:+ line +:+ RESET
  else GREEN +:+ line +:+ RESET.

(** One entry of [rows]. *)
Record report_row : Type := Row {
  bdf : string;
  name : string;
  slot_name : string;
  location : string;
  status : string;
  cap_s : string;
  sta_s : string;
  cap_w : string;
  sta_w : string
}.

(** What the loop over the GPUs updates: the printed lines, [rows] and
    [downgraded]. *)
Record loop_state : Type := LoopState {
  stdout : list string;
  rows : list report_row;
  downgraded : list string
}.

Definition print (line : string) (st : loop_state) : loop_state :=
  LoopState (stdout st ++ [line]) (rows st) (downgraded st).

(** The body of [for g in gpus]. *)
Definition gpu_step `{Numerals} (h : host) (dmi_desig : gmap string string)
    (st : loop_state) (g : string) : exc loop_state :=
  let chain := get_chain_for_device h g in
  if (length chain <? 2)%nat then
    Ret (print (g +:+ " | (no bridges found)") st)
  else
    root_bdf ← py_index chain 0;
    let dmikey := dmi_key_from_bdf root_bdf in
    let slot := default "-" (dmi_desig !! dmikey) in
    let verdict := if bool_decide (slot ≠ "-") then "[OK]" else "[MISS]" in
    let rev := reverse chain in
    let chain_text :=
      g +:+ " <- " +:+ join " " rev +:+ " | Root Port " +:+ dmikey
        +:+ " -> " +:+ slot +:+ " " +:+ verdict in
    let st := print chain_text st in
    last_bridge ← py_index chain (-2);
    m ← match re_match false bdf_re last_bridge with
        | Some m => Ret m
        | None => Raise AttributeError
        end;
    let dev := group m 3 in
    let group := riser_group_from_desig slot in
    let side := riser_side group in
    let lr := riser_lr group in
    let inner := inner_slot_from_dev_with_group group dev in
    let key := slot_key group inner in
    let gpulabel := gpu_label_from_key key in
    let f := get_link_fields h g in
    status ← link_status_tag (cap_speed f) (cap_width f)
                             (sta_speed f) (sta_width f);
    let name := get_gpu_short_name h g in
    let row :=
      Row g name (gpulabel +:+ " (" +:+ key +:+ ")")
          (side +:+ "-" +:+ lr +:+ "-" +:+ inner) status
          (str_or (cap_speed f) "?") (str_or (sta_speed f) "?")
          (str_or (cap_width f) "?") (str_or (sta_width f) "?") in
    Ret (LoopState (stdout st) (rows st ++ [row])
           (if bool_decide (status = "DOWNGRADED")
            then downgraded st ++ [g] else downgraded st)).

Definition dmi_table_header : list string :=
  [ljust 15 "BusAddr" +:+ "  " +:+ ljust 12 "Designation" +:+ "  Type";
   ljust 15 "-------" +:+ "  " +:+ ljust 12 "-----------" +:+ "  " +:+ "----"].

Definition dmi_table_line (dmi_desig dmi_type : gmap string string)
    (addr : string) : exc string :=
  d ← py_getitem dmi_desig addr;
  Ret (ljust 15 addr +:+ "  " +:+ ljust 12 d +:+ "  "
         +:+ default "" (dmi_type !! addr)).

Definition link_table_header : list string :=
  [ljust 11 "BUS:DEV:FN" +:+ " " +:+ ljust 34 "Name" +:+ " "
     +:+ ljust 24 "Slot" +:+ " " +:+ ljust 18 "Location" +:+ " "
     +:+ ljust 12 "Status" +:+ " " +:+ ljust 8 "CapGT/s" +:+ " "
     +:+ ljust 8 "StaGT/s" +:+ " " +:+ ljust 9 "CapWidth" +:+ " "
     +:+ ljust 9 "StaWidth";
   ljust 11 (repeat_str 11 "-") +:+ " " +:+ ljust 34 (repeat_str 4 "-") +:+ " "
     +:+ ljust 24 (repeat_str 4 "-") +:+ " " +:+ ljust 18 (repeat_str 9 "-")
     +:+ " " +:+ ljust 12 (repeat_str 6 "-") +:+ " "
     +:+ ljust 8 (repeat_str 7 "-") +:+ " " +:+ ljust 8 (repeat_str 7 "-")
     +:+ " " +:+ ljust 9 (repeat_str 8 "-") +:+ " "
     +:+ ljust 9 (repeat_str 8 "-")].

Definition link_table_line (r : report_row) : string :=
  color_line (status r)
    (ljust 11 (bdf r) +:+ " " +:+ ljust 34 (name r) +:+ " "
       +:+ ljust 24 (slot_name r) +:+ " " +:+ ljust 18 (location r) +:+ " "
       +:+ ljust 12 (status r) +:+ " " +:+ ljust 8 (cap_s r) +:+ " "
       +:+ ljust 8 (sta_s r) +:+ " " +:+ ljust 9 (cap_w r) +:+ " "
       +:+ ljust 9 (sta_w r)).

(** The test up to, and without, its final assertion: the state after the
    loop over the GPUs, with the link table printed. *)
Definition test_body `{Numerals} (h : host) : exc loop_state :=
  gpus ← discover_gpu_bdfs h;
  if bool_decide (gpus = []) then
    Raise (Skipped "No NVIDIA GPUs detected by lspci")
  else
    let '(dmi_desig, dmi_type) := parse_dmi_slots h in
    dmi_lines ← mapM (dmi_table_line dmi_desig dmi_type)
                     (merge_sort String.le (elements (dom dmi_desig)));
    let st0 := LoopState (dmi_table_header ++ dmi_lines ++ [""]) [] [] in
    st ← foldM (gpu_step h dmi_desig) st0 gpus;
    Ret (LoopState
           (stdout st ++ [""] ++ link_table_header
              ++ (link_table_line <$> rows st))
           (rows st) (downgraded st)).

(** The test: it passes when it returns, is skipped when it raises
    [Skipped], and fails when it raises anything else. *)
Definition test_gpu_pcie_topology_and_links `{Numerals} (h : host) : exc unit :=
  st ← test_body h;
  if bool_decide (downgraded st = []) then Ret ()
  else
    Raise (AssertionError
             ("Some GPUs are lane-DOWNGRADED: " +:+ join ", " (downgraded st))).

Definition passes {A} (r : exc A) : Prop := ∃ a, r = Ret a.

Definition skipped {A} (r : exc A) : Prop := ∃ msg, r = Raise (Skipped msg).

Definition fails {A} (r : exc A) : Prop :=
  ∃ e, r = Raise e ∧ ∀ msg, e ≠ Skipped msg.

(** A GPU whose chain has a bridge: at least two addresses. *)
Definition has_bridge (h : host) (g : string) : bool :=
  negb (length (get_chain_for_device h g) <? 2)%nat.

(** The verdict of a GPU: the result of [link_status_tag] on its link
    fields. *)
Definition gpu_verdict `{Numerals} (h : host) (g : string) : exc string :=
  let f := get_link_fields h g in
  link_status_tag (cap_speed f) (cap_width f) (sta_speed f) (sta_width f).

(** The firmware key of the root port of a GPU. *)
Definition root_key (h : host) (g : string) : option string :=
  dmi_key_from_bdf <$> head (get_chain_for_device h g).

(** [r] is the row of GPU [g]: its address, its verdict, and an unresolved
    slot label and location when the catalogue has no record for its root
    port. *)
Definition row_of `{Numerals} (h : host) (dmi_desig : gmap string string)
    (g : string) (r : report_row) : Prop :=
  bdf r = g
  ∧ gpu_verdict h g = Ret (status r)
  ∧ ∃ key, root_key h g = Some key
      ∧ (dmi_desig !! key = None →
         slot_name r = "ERROR (_PCIE_2)" ∧ location r = "ERROR-ERROR-ERROR").

(** The host with another firmware table. *)
Definition with_dmidecode (h : host) (installed : bool) (out : string) : host :=
  Host (lspci_installed h) (lspci_Dnns h) (lspci_Dnn h) installed out
       (realpath h) (lspci_lnk h) (lspci_nn_head h).

(** ** A sample machine

    Three NVIDIA GPUs among other devices.  The first sits behind root port
    [0000:3a:00.0], which the firmware table knows as [PCIE_3_SLOT2]; the
    second behind [0000:5d:02.0], which the table does not list; the third
    has no resolvable path.  Used to evaluate the examples. *)

Definition sample_listing : string :=
  join nl
    ["0000:00:1f.0 ISA bridge [0601]: Intel Corporation C621 Series Chipset LPC/eSPI Controller [8086:a1c1] (rev 09)";
     "0000:86:00.0 3D controller [0302]: NVIDIA Corporation GA100 [A100 PCIe 40GB] [10de:20f1] (rev a1)";
     "0000:5e:00.0 VGA compatible controller [0300]: NVIDIA Corporation TU102 [GeForce RTX 2080 Ti] [10de:1e04] (rev a1)";
     "0000:5e:00.1 Audio device [0403]: NVIDIA Corporation TU102 High Definition Audio Controller [10de:10f7] (rev a1)";
     "0000:3b:00.0 3D controller [0302]: NVIDIA Corporation GA100 [A100 PCIe 40GB] [10de:20f1] (rev a1)";
     ""].

Definition sample_slots : string :=
  join nl
    ["# dmidecode 3.3";
     "";
     "Handle 0x0040, DMI type 9, 17 bytes";
     "System Slot Information";
     "    Designation: PCIE_3_SLOT2";
     "    Type: x16 PCI Express 4 x16";
     "    Current Usage: In Use";
     "    Bus Address: 003a:00:00.0";
     "";
     "Handle 0x0041, DMI type 9, 17 bytes";
     "System Slot Information";
     "    Designation: PCIE_1_SLOT1";
     "    Current Usage: Available";
     "    Bus Address: 0017:00:00.0";
     ""].

Definition sample_realpath (path : string) : string :=
  if String.eqb path "/sys/bus/pci/devices/0000:3b:00.0" then
    "/sys/devices/pci0000:3a/0000:3a:00.0/0000:3b:00.0"
  else if String.eqb path "/sys/bus/pci/devices/0000:5e:00.0" then
    "/sys/devices/pci0000:5d/0000:5d:02.0/0000:5e:00.0"
  else path.

Definition sample_lnk (width_3b : string) (dev : string) : string :=
  if String.eqb dev "3b:00.0" then
    join nl
      ["        LnkCap: Port #0, Speed 16GT/s, Width x16, ASPM not supported";
       "        LnkSta: Speed 16GT/s (ok), Width x" +:+ width_3b +:+ " (ok)";
       ""]
  else if String.eqb dev "5e:00.0" then
    join nl
      ["        LnkCap: Port #0, Speed 8GT/s, Width x16, ASPM L0s L1";
       "        LnkSta: Speed 2.5GT/s (downgraded), Width x16 (ok)";
       ""]
  else "".

Definition sample_nn_head (dev : string) : string :=
  if String.eqb dev "5e:00.0" then
    "5e:00.0 VGA compatible controller [0300]: NVIDIA Corporation TU102 [GeForce RTX 2080 Ti] [10de:1e04] (rev a1)"
      +:+ nl
  else
    dev +:+ " 3D controller [0302]: NVIDIA Corporation GA100 [A100 PCIe 40GB] [10de:20f1] (rev a1)"
      +:+ nl.

(** The sample machine with all links at full width. *)
Definition sample_host : host :=
  Host true sample_listing "" true sample_slots sample_realpath
       (sample_lnk "16") sample_nn_head.

(** The same machine with the first GPU trained to eight lanes. *)
Definition degraded_host : host :=
  Host true sample_listing "" true sample_slots sample_realpath
       (sample_lnk "8") sample_nn_head.

(** ** The parts of a row

    The values the loop body computes from the designation of the slot and
    from the device text of the last bridge, named for the properties that
    follow. *)

(** The four riser groups of the chassis tables. *)
Definition riser_groups : list string := ["PCIE_1"; "PCIE_2"; "PCIE_3"; "PCIE_4"].

(** [f"{gpulabel} ({key})"] *)
Definition slot_name_of (slot dev : string) : string :=
  let group := riser_group_from_desig slot in
  let inner := inner_slot_from_dev_with_group group dev in
  let key := slot_key group inner in
  gpu_label_from_key key +:+ " (" +:+ key +:+ ")".

(** [f"{side}-{lr}-{inner}"] *)
Definition location_of (slot dev : string) : string :=
  let group := riser_group_from_desig slot in
  riser_side group +:+ "-" +:+ riser_lr group +:+ "-"
    +:+ inner_slot_from_dev_with_group group dev.

(** [c] holds of every character of [s]. *)
Fixpoint all_chars (p : ascii → bool) (s : string) : bool :=
  match s with
  | "" => true
  | String c s' => p c && all_chars p s'
  end.

(** The four fields are texts of the characters their patterns capture. *)
Definition fields_shape (f : link_fields) : Prop :=
  all_chars is_digit_or_dot (cap_speed f) = true
  ∧ all_chars is_digit (cap_width f) = true
  ∧ all_chars is_digit_or_dot (sta_speed f) = true
  ∧ all_chars is_digit (sta_width f) = true.

(** The GPUs the final assertion names: those with a bridge whose verdict
    is DOWNGRADED. *)
Definition lane_downgraded `{Numerals} (h : host) (g : string) : bool :=
  has_bridge h g
  && match gpu_verdict h g with
     | Ret tag => bool_decide (tag = "DOWNGRADED")
     | Raise _ => false
     end.

(** [r] is the row the loop body appends for GPU [g]. *)
Definition appended_row `{Numerals} (h : host) (dmi_desig : gmap string string)
    (g : string) (r : report_row) : Prop :=
  ∃ st, gpu_step h dmi_desig (LoopState [] [] []) g = Ret st ∧ rows st = [r].

(** The texts the Bus Address pattern captures: [hhhh:hh:hh.h]. *)
Definition is_bus_address (s : string) : bool :=
  match s with
  | String d1 (String d2 (String d3 (String d4 (String c1
      (String b1 (String b2 (String c2
        (String v1 (String v2 (String c3 (String f ""))))))))))) =>
      is_hex d1 && is_hex d2 && is_hex d3 && is_hex d4 && Ascii.eqb c1 ":"
      && is_hex b1 && is_hex b2 && Ascii.eqb c2 ":"
      && is_hex v1 && is_hex v2 && Ascii.eqb c3 "." && is_hex f
  | _ => false
  end.

(** What holds of the state of [parse_dmi_slots] after every block. *)
Definition catalogue_inv (st : dmi_state) : Prop :=
  strip (current_designation st) = current_designation st
  ∧ strip (current_type st) = current_type st
  ∧ dom (DMI_DESIG st) = dom (DMI_TYPE st)
  ∧ map_Forall (λ a d, d ≠ "" ∧ strip d = d ∧ is_bus_address a = true)
               (DMI_DESIG st)
  ∧ map_Forall (λ _ t, t ≠ "" ∧ strip t = t) (DMI_TYPE st).

(** Any character but an opening parenthesis. *)
Definition not_paren (c : ascii) : bool := negb (Ascii.eqb c "(").

(** [t] between brackets. *)
Definition bracketed (t : string) : string := "[" +:+ t +:+ "]".

(** The characters of the text between two bracketed tokens, and those of
    a token. *)
Definition plain (c : ascii) : bool := not_lbracket c && not_paren c.
Definition token_char (c : ascii) : bool := not_rbracket c && not_paren c.

(** A text made of bracketed tokens, each after some plain text. *)
Definition segments (segs : list (string * string)) : string :=
  concat_str (map (λ pt, pt.1 +:+ bracketed pt.2) segs).

(** A token of the text that is not a vendor and device identifier. *)
Definition plain_segment (pt : string * string) : Prop :=
  all_chars plain pt.1 = true ∧ pt.2 ≠ ""
  ∧ all_chars token_char pt.2 = true
  ∧ re_match false id_token_re (bracketed pt.2) = None.

(** The revision, or the programming interface, at the end of a line. *)
Definition is_revision (t : string) : Prop :=
  t = ""
  ∨ ∃ rv, all_chars not_nl rv = true
          ∧ (t = " (rev" +:+ rv ∨ t = " (prog-if" +:+ rv).

(** [needle] occurs in [pre +:+ tail] from a position of [pre]. *)
Fixpoint starts_in (needle pre tail : string) : bool :=
  match pre with
  | "" => false
  | String c pre' =>
      starts_with needle (pre +:+ tail) || starts_in needle pre' tail
  end.

(** The first [Speed] of [line] is followed by blanks, by [speed] and by
    [GT/s]. *)
Definition speed_at (line speed : string) : Prop :=
  ∃ a ws t,
    line = a +:+ "Speed" +:+ ws +:+ speed +:+ "GT/s" +:+ t
    ∧ starts_in "Speed" a ("Speed" +:+ ws +:+ speed +:+ "GT/s" +:+ t) = false
    ∧ ws ≠ "" ∧ all_chars is_space ws = true
    ∧ speed ≠ "" ∧ all_chars is_digit_or_dot speed = true.

(** The first [Width x] of [line] is followed by the digits [width] and by
    no other digit. *)
Definition width_at (line width : string) : Prop :=
  ∃ a t,
    line = a +:+ "Width x" +:+ width +:+ t
    ∧ starts_in "Width x" a ("Width x" +:+ width +:+ t) = false
    ∧ width ≠ "" ∧ all_chars is_digit width = true
    ∧ match t with String c _ => is_digit c = false | "" => True end.

(** ** The listing, device by device

    A line of [lspci -Dnn] as the comment in [discover_gpu_bdfs] gives it,
    [DOMAIN:BUS:DEV.F <class text> [classcode]: ... [VEN:DEV]], built from
    the fields of the device it lists.  [ld_name] is the name between the
    class code and the identifiers, [ld_tail] what follows the identifiers,
    as in [ (rev a1)]. *)
Record listed_device : Type := ListedDevice {
  ld_domain : string;
  ld_bus : string;
  ld_dev : string;
  ld_fn : string;
  ld_class_text : string;
  ld_class_code : string;
  ld_name : string;
  ld_vendor : string;
  ld_device : string;
  ld_tail : string
}.

(** [BUS:DEV.F], the address without its domain. *)
Definition ld_nodom (d : listed_device) : string :=
  ld_bus d +:+ ":" +:+ ld_dev d +:+ "." +:+ ld_fn d.

(** What follows the address and the blank after it. *)
Definition ld_text (d : listed_device) : string :=
  ld_class_text d +:+ " [" +:+ ld_class_code d +:+ "]: "
    +:+ ld_name d +:+ " [" +:+ ld_vendor d +:+ ":" +:+ ld_device d
    +:+ "]" +:+ ld_tail d.

Definition listing_line (d : listed_device) : string :=
  ld_domain d +:+ ":" +:+ ld_bus d +:+ ":" +:+ ld_dev d +:+ "." +:+ ld_fn d
    +:+ " " +:+ ld_text d.

(** Four hexadecimal digits, as the listing prints a class code and the two
    identifiers. *)
Definition hex4 (s : string) : bool :=
  (String.length s =? 4)%nat && all_chars is_hex s.

(** The address is canonical, the class code and the identifiers have four
    hexadecimal digits each, the line is one line, and the class text starts
    with a character that is not a blank. *)
Definition well_formed_device (d : listed_device) : Prop :=
  canonical_fields
    (ld_domain d +:+ ":" +:+ ld_bus d +:+ ":" +:+ ld_dev d +:+ "." +:+ ld_fn d)
  = Some (ld_domain d, ld_bus d, ld_dev d, ld_fn d)
  ∧ hex4 (ld_class_code d) = true
  ∧ hex4 (ld_vendor d) = true
  ∧ hex4 (ld_device d) = true
  ∧ all_chars not_nl (ld_text d) = true
  ∧ match ld_class_text d with
    | String c _ => is_space c = false
    | "" => False
    end.

(** In the words of the specification: the vendor identifier is that of the
    target vendor, [10de], and the class code is [0300] or [0302], all three
    as hexadecimal numbers, or, as a fallback, the class text has one of the
    labels of the two classes. *)
Definition is_target (d : listed_device) : bool :=
  (int16 (ld_vendor d) =? int16 "10de")%N
  && ((int16 (ld_class_code d) =? int16 "0300")%N
      || (int16 (ld_class_code d) =? int16 "0302")%N
      || contains "VGA compatible controller" (ld_class_text d)
      || contains "3D controller" (ld_class_text d)).

(** The two tests of the loop of [discover_gpu_bdfs], on the line of a
    device: [[10de:] somewhere in the line in lower case, and one of the
    four texts somewhere after the address. *)
Definition line_accepted (d : listed_device) : bool :=
  contains "[10de:" (lower (listing_line d))
  && (contains "[0300]" (ld_text d) || contains "[0302]" (ld_text d)
      || contains "VGA compatible controller" (ld_text d)
      || contains "3D controller" (ld_text d)).

(** [s] has none of the three bracketed texts the loop looks for. *)
Definition no_code (s : string) : bool :=
  negb (contains "[10de:" (lower s))
  && negb (contains "[0300]" s) && negb (contains "[0302]" s).

(** [s] has none of the two class labels. *)
Definition no_label (s : string) : bool :=
  negb (contains "VGA compatible controller" s)
  && negb (contains "3D controller" s).

(** The free texts of the line cannot be taken for a vendor or a class:
    the class text has no bracketed text of the three, and the name and the
    tail have neither such a text nor a class label. *)
Definition plain_names (d : listed_device) : bool :=
  no_code (ld_class_text d)
  && no_code (ld_name d) && no_label (ld_name d)
  && no_code (ld_tail d) && no_label (ld_tail d).

(** [c] is not the character [x]. *)
Definition not_char (x c : ascii) : bool := negb (Ascii.eqb c x).

(** A listing with two names that carry a class label or a bracketed vendor:
    an audio function of the target vendor, and a display controller of
    another vendor. *)
Definition odd_audio : listed_device :=
  ListedDevice "0000" "5e" "00" "1" "Audio device" "0403"
    "NVIDIA Corporation 3D controller audio" "10de" "10f7" " (rev a1)".

Definition odd_display : listed_device :=
  ListedDevice "0000" "01" "00" "0" "VGA compatible controller" "0300"
    "Red Hat, Inc. Virtio GPU [10DE: compatible]" "1af4" "1050" "".

Definition odd_host : host :=
  Host true (listing_line odd_audio +:+ nl +:+ listing_line odd_display +:+ nl)
       "" false "" (λ p, p) (λ _, "") (λ _, "").

(** The devices of [sample_listing], and the same listing with the vendor
    of one GPU in capitals. *)
Definition sample_devices : list listed_device :=
  [ListedDevice "0000" "00" "1f" "0" "ISA bridge" "0601"
     "Intel Corporation C621 Series Chipset LPC/eSPI Controller"
     "8086" "a1c1" " (rev 09)";
   ListedDevice "0000" "86" "00" "0" "3D controller" "0302"
     "NVIDIA Corporation GA100 [A100 PCIe 40GB]" "10DE" "20f1" " (rev a1)";
   ListedDevice "0000" "5e" "00" "0" "VGA compatible controller" "0300"
     "NVIDIA Corporation TU102 [GeForce RTX 2080 Ti]" "10de" "1e04"
     " (rev a1)";
   ListedDevice "0000" "5e" "00" "1" "Audio device" "0403"
     "NVIDIA Corporation TU102 High Definition Audio Controller"
     "10de" "10f7" " (rev a1)";
   ListedDevice "0000" "3b" "00" "0" "3D controller" "0302"
     "NVIDIA Corporation GA100 [A100 PCIe 40GB]" "10de" "20f1" " (rev a1)"].

Definition listed_host : host :=
  Host true (join nl (listing_line <$> sample_devices)) "" false ""
       (λ p, p) (λ _, "") (λ _, "").



(** The state of a match after the characters of [w] have been read, [s']
    being the text that follows them. *)
Fixpoint advance (w s' : string) (st : mstate) : mstate :=
  match w with
  | "" => st
  | String c w' => advance w' s' (step_char c (w' +:+ s') st)
  end.

(** * Properties *)

(** ** Slot resolver *)

Section SlotResolver.

Lemma riser_group_vector : riser_group_from_desig "PCIE_3_SLOT2" = "PCIE_3".
Proof. vm_compute. reflexivity. Qed.

Lemma riser_side_vector : riser_side "PCIE_3" = "Front".
Proof. vm_compute. reflexivity. Qed.

Lemma riser_lr_vector : riser_lr "PCIE_3" = "Right".
Proof. vm_compute. reflexivity. Qed.

Lemma inner_slot_vector :
  inner_slot_from_dev_with_group "PCIE_3" "00" = "Bottom".
Proof. vm_compute. reflexivity. Qed.

Lemma gpu_label_top : gpu_label_from_key (slot_key "PCIE_3" "Top") = "GPU3".
Proof. vm_compute. reflexivity. Qed.

Lemma gpu_label_bottom :
  gpu_label_from_key (slot_key "PCIE_3" "Bottom") = "GPU4".
Proof. vm_compute. reflexivity. Qed.

End SlotResolver.

(** C2, as the specification states it: the last equation of the test
    vector, label [GPU4] for group [PCIE_3] at position [Top], does not hold,
    so the vector as a whole does not. *)
Lemma slot_vector_as_stated_fails :
  ¬ (riser_group_from_desig "PCIE_3_SLOT2" = "PCIE_3"
     ∧ riser_side "PCIE_3" = "Front"
     ∧ riser_lr "PCIE_3" = "Right"
     ∧ inner_slot_from_dev_with_group "PCIE_3" "00" = "Bottom"
     ∧ gpu_label_from_key (slot_key "PCIE_3" "Top") = "GPU4").
Proof.
  intros (_ & _ & _ & _ & Hlabel).
  rewrite gpu_label_top in Hlabel. discriminate Hlabel.
Qed.

(** C2, amended: the riser group of [PCIE_3_SLOT2] is [PCIE_3], its side is
    [Front], its left/right value is [Right], its inner position for bridge
    device number 0 is [Bottom], and its GPU label at position [Top] is
    [GPU3]; [GPU4] is the label at position [Bottom]. *)
Theorem slot_vector_amended :
  riser_group_from_desig "PCIE_3_SLOT2" = "PCIE_3"
  ∧ riser_side "PCIE_3" = "Front"
  ∧ riser_lr "PCIE_3" = "Right"
  ∧ inner_slot_from_dev_with_group "PCIE_3" "00" = "Bottom"
  ∧ gpu_label_from_key (slot_key "PCIE_3" "Top") = "GPU3"
  ∧ gpu_label_from_key (slot_key "PCIE_3" "Bottom") = "GPU4".
Proof.
  repeat split;
    auto using riser_group_vector, riser_side_vector, riser_lr_vector,
      inner_slot_vector, gpu_label_top, gpu_label_bottom.
Qed.

(** ** Link classification *)

Section LinkClassification.
Context `{Numerals}.

Lemma truthy_ne s : truthy s = true ↔ s ≠ "".
Proof. destruct s; simpl; split; congruence. Qed.

Lemma truthy_false s : truthy s = false ↔ s = "".
Proof. destruct s; simpl; split; congruence. Qed.

(** The value of [lane_down] and of [idle] when the function returns. *)
Lemma link_status_tag_flags cap_s cap_w sta_s sta_w :
  ∃ lane_down idle : bool,
    link_status_tag cap_s cap_w sta_s sta_w =
      Ret (if lane_down then "DOWNGRADED" else if idle then "IDLE" else "OK")
    ∧ (lane_down = true ↔ lane_regression cap_w sta_w)
    ∧ (idle = true ↔ speed_regression cap_s sta_s).
Proof.
  assert (Hw : ∃ b : bool,
    try_except
      (if truthy cap_w && truthy sta_w then
         a ← int sta_w; b ← int cap_w;
         Ret (if (a <? b)%Z then true else false)
       else Ret false) (Ret false) = Ret b
    ∧ (b = true ↔ lane_regression cap_w sta_w)).
  { unfold lane_regression, int.
    destruct (truthy cap_w) eqn:Hc; simpl.
    2:{ apply truthy_false in Hc. exists false. naive_solver. }
    destruct (truthy sta_w) eqn:Hs; simpl.
    2:{ apply truthy_false in Hs. exists false. naive_solver. }
    apply truthy_ne in Hc, Hs.
    destruct (py_int sta_w) as [a|] eqn:Ha; simpl.
    2:{ exists false. naive_solver. }
    destruct (py_int cap_w) as [b|] eqn:Hb; simpl.
    2:{ exists false. naive_solver. }
    destruct (Z.ltb_spec a b) as [Hlt|Hge].
    - exists true. naive_solver.
    - exists false. split; [done|]. split; [done|].
      intros (_ & _ & a' & b' & Ha' & Hb' & Hlt). simplify_eq. lia. }
  assert (Hs : ∃ b : bool,
    try_except
      (if truthy cap_s && truthy sta_s then
         a ← to_float sta_s; b ← to_float cap_s;
         Ret (if float_lt a b then true else false)
       else Ret false) (Ret false) = Ret b
    ∧ (b = true ↔ speed_regression cap_s sta_s)).
  { unfold speed_regression, to_float.
    destruct (truthy cap_s) eqn:Hc; simpl.
    2:{ apply truthy_false in Hc. exists false. naive_solver. }
    destruct (truthy sta_s) eqn:Hs; simpl.
    2:{ apply truthy_false in Hs. exists false. naive_solver. }
    apply truthy_ne in Hc, Hs.
    destruct (py_float sta_s) as [a|] eqn:Ha; simpl.
    2:{ exists false. naive_solver. }
    destruct (py_float cap_s) as [b|] eqn:Hb; simpl.
    2:{ exists false. naive_solver. }
    destruct (float_lt a b) eqn:Hlt.
    - exists true. naive_solver.
    - exists false. split; [done|]. split; [done|].
      intros (_ & _ & a' & b' & Ha' & Hb' & Hlt'). simplify_eq. congruence. }
  destruct Hw as (lane_down & Hw & Hlane), Hs as (idle & Hs & Hidle).
  exists lane_down, idle. split; [|done].
  unfold link_status_tag. rewrite Hw. simpl. rewrite Hs. simpl.
  by destruct lane_down, idle.
Qed.

End LinkClassification.

(** C3: [link_status_tag] returns DOWNGRADED exactly when both widths are
    present and parseable and the negotiated width is below the capable one,
    whatever the speeds; otherwise IDLE exactly when both speeds are present
    and parseable and the negotiated speed is below the capable one;
    otherwise OK.  So a missing or unparseable field never leads to
    DOWNGRADED or IDLE. *)
Theorem link_status_tag_spec `{Numerals} (cap_s cap_w sta_s sta_w : string) :
  (link_status_tag cap_s cap_w sta_s sta_w = Ret "DOWNGRADED"
     ↔ lane_regression cap_w sta_w)
  ∧ (link_status_tag cap_s cap_w sta_s sta_w = Ret "IDLE"
     ↔ ¬ lane_regression cap_w sta_w ∧ speed_regression cap_s sta_s)
  ∧ (link_status_tag cap_s cap_w sta_s sta_w = Ret "OK"
     ↔ ¬ lane_regression cap_w sta_w ∧ ¬ speed_regression cap_s sta_s)
  ∧ (cap_w = "" ∨ sta_w = "" ∨ py_int cap_w = None ∨ py_int sta_w = None →
     link_status_tag cap_s cap_w sta_s sta_w ≠ Ret "DOWNGRADED")
  ∧ (cap_s = "" ∨ sta_s = "" ∨ py_float cap_s = None ∨ py_float sta_s = None →
     link_status_tag cap_s cap_w sta_s sta_w ≠ Ret "IDLE").
Proof.
  destruct (link_status_tag_flags cap_s cap_w sta_s sta_w)
    as (lane_down & idle & -> & Hlane & Hidle).
  assert (Hmissing_w :
    cap_w = "" ∨ sta_w = "" ∨ py_int cap_w = None ∨ py_int sta_w = None →
    ¬ lane_regression cap_w sta_w).
  { intros Hm (? & ? & a & b & ? & ? & _). naive_solver. }
  assert (Hmissing_s :
    cap_s = "" ∨ sta_s = "" ∨ py_float cap_s = None ∨ py_float sta_s = None →
    ¬ speed_regression cap_s sta_s).
  { intros Hm (? & ? & a & b & ? & ? & _). naive_solver. }
  destruct lane_down, idle; repeat split; try done; naive_solver.
Qed.

(** C10: [link_status_tag] is total.  On every four strings, empty or
    unparseable ones included, it returns (no exception escapes) one of the
    three tags OK, IDLE and DOWNGRADED. *)
Theorem link_status_tag_total `{Numerals} (cap_s cap_w sta_s sta_w : string) :
  ∃ tag, link_status_tag cap_s cap_w sta_s sta_w = Ret tag
         ∧ (tag = "OK" ∨ tag = "IDLE" ∨ tag = "DOWNGRADED").
Proof.
  destruct (link_status_tag_flags cap_s cap_w sta_s sta_w)
    as (lane_down & idle & -> & _).
  destruct lane_down, idle; eauto.
Qed.

(** The classification vectors of the specification, with Python's
    conversions. *)
Lemma link_status_tag_spec_witness :
  link_status_tag "16.0" "16" "8.0" "8" = Ret "DOWNGRADED"
  ∧ link_status_tag "16.0" "16" "8.0" "16" = Ret "IDLE"
  ∧ link_status_tag "16.0" "16" "16.0" "16" = Ret "OK"
  ∧ link_status_tag "16.0" "16" "16.0" "" = Ret "OK"
  ∧ link_status_tag "16.0" "16" "8.0" "x8" ≠ Ret "DOWNGRADED".
Proof.
  split; [|split; [|split; [|split]]].
  - apply (link_status_tag_spec "16.0" "16" "8.0" "8").
    split; [discriminate|]. split; [discriminate|].
    exists 8%Z, 16%Z. split; [by vm_compute|]. split; [by vm_compute|lia].
  - apply (link_status_tag_spec "16.0" "16" "8.0" "16"). split.
    + intros (_ & _ & a & b & Ha & Hb & Hlt).
      vm_compute in Ha, Hb. injection Ha as <-. injection Hb as <-. lia.
    + split; [discriminate|]. split; [discriminate|].
      eexists _, _. split; [by vm_compute|]. split; by vm_compute.
  - apply (link_status_tag_spec "16.0" "16" "16.0" "16"). split.
    + intros (_ & _ & a & b & Ha & Hb & Hlt).
      vm_compute in Ha, Hb. injection Ha as <-. injection Hb as <-. lia.
    + intros (_ & _ & a & b & Ha & Hb & Hlt).
      vm_compute in Ha, Hb. injection Ha as <-. injection Hb as <-.
      vm_compute in Hlt. discriminate Hlt.
  - apply (link_status_tag_spec "16.0" "16" "16.0" ""). split.
    + by intros (_ & ? & _).
    + intros (_ & _ & a & b & Ha & Hb & Hlt).
      vm_compute in Ha, Hb. injection Ha as <-. injection Hb as <-.
      vm_compute in Hlt. discriminate Hlt.
  - apply (link_status_tag_spec "16.0" "16" "8.0" "x8").
    right. right. right. by vm_compute.
Defined.

Lemma link_status_tag_total_witness :
  ∃ tag, link_status_tag "fast" "" "1.2.3" "x16" = Ret tag
         ∧ (tag = "OK" ∨ tag = "IDLE" ∨ tag = "DOWNGRADED").
Proof. apply (link_status_tag_total "fast" "" "1.2.3" "x16"). Defined.

(** ** Address translation *)

#[local] Arguments Ascii.eqb : simpl never.
#[local] Arguments is_hex : simpl never.
#[local] Arguments is_oct : simpl never.
#[local] Arguments is_space : simpl never.
#[local] Arguments not_nl : simpl never.

(** Case analysis on the next class test of a match in progress; the branch
    where the test fails is closed when the match is known to succeed. *)
Ltac class_case H :=
  match type of H with
  | context [is_hex ?c] => destruct (is_hex c) eqn:?
  | context [is_oct ?c] => destruct (is_oct c) eqn:?
  | context [Ascii.eqb ?a ?c] =>
      destruct (Ascii.eqb_spec a c); [first [subst c | subst a]|]
  end; cbn in H; [|try discriminate H].

(** One character further into the subject of a match in progress. *)
Ltac next_char H :=
  match type of H with
  | context [rep_go _ _ _ ?s] =>
      is_var s; destruct s; cbn in H; [try discriminate H|]
  | context [match ?s with "" => _ | String _ _ => _ end] =>
      is_var s; destruct s; cbn in H; [try discriminate H|]
  end; class_case H.

(** Drops the retry wrappers around a repetition that is known to succeed. *)
Ltac strip_retry H :=
  repeat match type of H with
         | match ?X with Some _ => _ | None => None end = Some _ =>
             let E := fresh "E" in
             destruct X eqn:E; [|discriminate H];
             injection H as H; subst; rename E into H
         end.

Section Address.

(** A match of the address pattern: the matched text is canonical, the
    groups are its four fields, and at most one line feed follows. *)
Lemma bdf_match_inv s m :
  re_match false bdf_re s = Some m →
  ∃ d b v f, canonical_fields (m_text m) = Some (d, b, v, f)
    ∧ m_caps m = [(4, f); (3, v); (2, b); (1, d)]
    ∧ s = m_text m +:+ m_rest m
    ∧ (m_rest m = "" ∨ m_rest m = nl).
Proof.
  unfold re_match, match_at, bdf_re, times. intros H. cbn in H.
  do 12 next_char H.
  destruct s as [|c s]; cbn in H.
  - injection H as <-. cbn.
    rewrite Heqb, Heqb0, Heqb1, Heqb2, Heqb3, Heqb4, Heqb5, Heqb6, Heqb7.
    cbn. eauto 10.
  - destruct (Ascii.eqb_spec c LF); [subst c|discriminate H]. cbn in H.
    destruct s; [|discriminate H].
    injection H as <-. cbn.
    rewrite Heqb, Heqb0, Heqb1, Heqb2, Heqb3, Heqb4, Heqb5, Heqb6, Heqb7.
    cbn. eauto 10.
Qed.

(** The shape of a canonical text. *)
Lemma canonical_fields_inv s d b v f :
  canonical_fields s = Some (d, b, v, f) →
  ∃ d1 d2 d3 d4 b1 b2 v1 v2 f1,
    s = String d1 (String d2 (String d3 (String d4 (String ":"
          (String b1 (String b2 (String ":"
            (String v1 (String v2 (String "." (String f1 "")))))))))))
    ∧ d = String d1 (String d2 (String d3 (String d4 "")))
    ∧ b = String b1 (String b2 "") ∧ v = String v1 (String v2 "")
    ∧ f = String f1 ""
    ∧ is_hex d1 = true ∧ is_hex d2 = true ∧ is_hex d3 = true
    ∧ is_hex d4 = true ∧ is_hex b1 = true ∧ is_hex b2 = true
    ∧ is_hex v1 = true ∧ is_hex v2 = true ∧ is_oct f1 = true.
Proof.
  intros H. unfold canonical_fields in H.
  do 12 (destruct s as [|? s]; [discriminate H|]).
  destruct s; [|discriminate H].
  match type of H with
  | (if ?c then _ else _) = _ => destruct c eqn:Hc; [|discriminate H]
  end.
  rewrite !andb_true_iff in Hc. destruct_and!.
  repeat match goal with
         | E : Ascii.eqb _ _ = true |- _ => apply Ascii.eqb_eq in E; subst
         end.
  injection H as <- <- <- <-. eauto 25.
Qed.

(** A canonical text, alone or followed by one line feed, matches. *)
Lemma bdf_match_canonical s d b v f tail :
  canonical_fields s = Some (d, b, v, f) →
  tail = "" ∨ tail = nl →
  re_match false bdf_re (s +:+ tail) =
    Some (RMatch s [(4, f); (3, v); (2, b); (1, d)] tail).
Proof.
  intros Hs Htail.
  apply canonical_fields_inv in Hs
    as (d1 & d2 & d3 & d4 & b1 & b2 & v1 & v2 & f1 & -> & -> & -> & -> & ->
        & H1 & H2 & H3 & H4 & H5 & H6 & H7 & H8 & H9).
  unfold re_match, match_at, bdf_re, times.
  destruct Htail as [-> | ->]; cbv [String.append];
    repeat (cbn; first [ rewrite Ascii.eqb_refl
                       | match goal with E : _ = true |- _ => rewrite E end ]);
    reflexivity.
Qed.

Lemma append_empty_r s : s +:+ "" = s.
Proof.
  induction s as [|c s IH]; [reflexivity|].
  change (String c s +:+ "") with (String c (s +:+ "")). by rewrite IH.
Qed.

Lemma drop_final_lf_app_nl s : drop_final_lf (s +:+ nl) = s.
Proof.
  induction s as [|c s IH]; [reflexivity|].
  change (String c s +:+ nl) with (String c (s +:+ nl)).
  destruct s as [|c' s]; [reflexivity|].
  change (drop_final_lf (String c (String c' s +:+ nl)))
    with (String c (drop_final_lf (String c' s +:+ nl))).
  by rewrite IH.
Qed.

Lemma canonical_no_final_lf s :
  is_canonical s = true → drop_final_lf s = s.
Proof.
  unfold is_canonical. destruct (canonical_fields s) as [[[[d b] v] f]|] eqn:Hs;
    [intros _|discriminate].
  apply canonical_fields_inv in Hs
    as (d1 & d2 & d3 & d4 & b1 & b2 & v1 & v2 & f1 & -> & _ & _ & _ & _
        & _ & _ & _ & _ & _ & _ & _ & _ & H9).
  cbn. destruct (Ascii.eqb_spec f1 LF) as [->|]; [discriminate H9|reflexivity].
Qed.

(** The pattern accepts exactly the canonical texts and the canonical
    texts followed by one line feed. *)
Lemma bdf_match_iff s :
  is_Some (re_match false bdf_re s) ↔ is_canonical (drop_final_lf s) = true.
Proof.
  split.
  - intros [m Hm]. apply bdf_match_inv in Hm
      as (d & b & v & f & Hc & _ & -> & [-> | ->]).
    + assert (Hcan : is_canonical (m_text m) = true)
        by (unfold is_canonical; by rewrite Hc).
      rewrite append_empty_r. by rewrite canonical_no_final_lf.
    + rewrite drop_final_lf_app_nl. unfold is_canonical. by rewrite Hc.
  - unfold is_canonical.
    destruct (canonical_fields (drop_final_lf s)) as [[[[d b] v] f]|] eqn:Hc;
      [intros _|discriminate].
    assert (Hs : s = drop_final_lf s +:+ "" ∨ s = drop_final_lf s +:+ nl).
    { clear. induction s as [|c s IH]; [by left|].
      destruct s as [|c' s].
      - cbn. destruct (Ascii.eqb_spec c LF) as [->|]; [by right|by left].
      - change (drop_final_lf (String c (String c' s)))
          with (String c (drop_final_lf (String c' s))).
        change (String c ?x +:+ ?y) with (String c (x +:+ y)).
        destruct IH as [IH | IH]; [left|right]; by rewrite <- IH. }
    destruct Hs as [Hs | Hs]; rewrite Hs;
      erewrite bdf_match_canonical; eauto.
Qed.

End Address.

Section FirmwareKey.

Lemma hex_digit_value_lt c : (hex_digit_value c < 16)%N.
Proof. destruct c as [[] [] [] [] [] [] [] []]; by vm_compute. Qed.

Lemma int16_byte b1 b2 : (int16 (String b1 (String b2 "")) < 256)%N.
Proof.
  unfold int16. cbn [int16_go].
  pose proof (hex_digit_value_lt b1). pose proof (hex_digit_value_lt b2). lia.
Qed.

(** Two lower-case hexadecimal digits print a number below 256 and read
    back as that number. *)
Lemma format_x_byte n :
  (n < 256)%N →
  ∃ h1 h2, format_x 2 n = String h1 (String h2 "")
    ∧ format_x 4 n = String "0" (String "0" (String h1 (String h2 "")))
    ∧ is_hex h1 = true ∧ is_hex h2 = true
    ∧ int16 (String h1 (String h2 "")) = n.
Proof.
  intros Hn.
  assert (Hall : forallb (λ k,
    match format_x 2 (N.of_nat k) with
    | String h1 (String h2 "") =>
        String.eqb (format_x 4 (N.of_nat k))
                   (String "0" (String "0" (String h1 (String h2 ""))))
        && is_hex h1 && is_hex h2
        && (int16 (String h1 (String h2 "")) =? N.of_nat k)%N
    | _ => false
    end) (seq 0 256) = true) by (vm_compute; reflexivity).
  rewrite forallb_forall in Hall.
  specialize (Hall (N.to_nat n)). rewrite N2Nat.id in Hall.
  assert (Hin : In (N.to_nat n) (seq 0 256)) by (apply in_seq; lia).
  apply Hall in Hin. clear Hall.
  destruct (format_x 2 n) as [|h1 [|h2 [|]]]; try discriminate Hin.
  rewrite !andb_true_iff in Hin. destruct Hin as [[[H4 H1] H2] Hv].
  apply String.eqb_eq in H4. apply N.eqb_eq in Hv. eauto 10.
Qed.

Lemma oct_digit f :
  is_oct f = true →
  format_d1 (int16 (String f "")) = String f ""
  ∧ (int16 (String f "") < 8)%N.
Proof.
  destruct f as [[] [] [] [] [] [] [] []]; try discriminate;
    intros _; by vm_compute.
Qed.

(** The key of a canonical text, in terms of its digits. *)
Lemma dmi_key_text s d b v f tail :
  canonical_fields s = Some (d, b, v, f) →
  tail = "" ∨ tail = nl →
  dmi_key_from_bdf (s +:+ tail) =
    format_x 4 (int16 b) +:+ ":" +:+ format_x 2 (int16 v) +:+ ":"
      +:+ format_x 2 0 +:+ "." +:+ f
  ∧ parse_address (s +:+ tail) =
      Some (PciAddress (int16 d) (int16 b) (int16 v) (int16 f))
  ∧ canonical_fields (dmi_key_from_bdf (s +:+ tail)) =
      Some (format_x 4 (int16 b), format_x 2 (int16 v), format_x 2 0, f)
  ∧ int16 (format_x 4 (int16 b)) = int16 b
  ∧ int16 (format_x 2 (int16 v)) = int16 v.
Proof.
  intros Hs Htail.
  unfold dmi_key_from_bdf, parse_address.
  rewrite (bdf_match_canonical _ _ _ _ _ _ Hs Htail).
  unfold group. cbn [m_caps lookup_cap Nat.eqb].
  apply canonical_fields_inv in Hs
    as (d1 & d2 & d3 & d4 & b1 & b2 & v1 & v2 & f1 & -> & -> & -> & -> & ->
        & H1 & H2 & H3 & H4 & H5 & H6 & H7 & H8 & H9).
  destruct (oct_digit f1 H9) as [-> _].
  destruct (format_x_byte _ (int16_byte b1 b2))
    as (x1 & x2 & _ & -> & Hx1 & Hx2 & Hx).
  destruct (format_x_byte _ (int16_byte v1 v2))
    as (y1 & y2 & -> & _ & Hy1 & Hy2 & Hy).
  repeat split; [|exact Hx|exact Hy].
  change (format_x 2 0) with "00". cbv [String.append canonical_fields].
  rewrite Hx1, Hx2, Hy1, Hy2, H9. reflexivity.
Qed.

End FirmwareKey.

Section AddressClaims.

Lemma parse_address_inv s a :
  parse_address s = Some a →
  ∃ t d b v f tail,
    s = t +:+ tail ∧ (tail = "" ∨ tail = nl)
    ∧ canonical_fields t = Some (d, b, v, f)
    ∧ a = PciAddress (int16 d) (int16 b) (int16 v) (int16 f).
Proof.
  unfold parse_address.
  destruct (re_match false bdf_re s) as [m|] eqn:Hm; [|discriminate].
  intros [= <-].
  apply bdf_match_inv in Hm as (d & b & v & f & Hc & Hcaps & Hs & Htail).
  exists (m_text m), d, b, v, f, (m_rest m).
  unfold group. rewrite Hcaps. cbn. done.
Qed.

(** The key of a parsed address: its text, and its fields when it is read
    back as an address. *)
Lemma parse_address_key s a :
  parse_address s = Some a →
  dmi_key_from_bdf s =
    format_x 4 (bus a) +:+ ":" +:+ format_x 2 (device a) +:+ ":"
      +:+ format_x 2 0 +:+ "." +:+ format_d1 (function a)
  ∧ parse_address (dmi_key_from_bdf s) =
      Some (PciAddress (bus a) (device a) 0 (function a)).
Proof.
  intros Ha.
  apply parse_address_inv in Ha
    as (t & d & b & v & f & tail & -> & Htail & Hc & ->).
  destruct (dmi_key_text _ _ _ _ _ _ Hc Htail)
    as (Hkey & _ & Hkc & Hb & Hv).
  cbn [bus device function].
  assert (Hf : format_d1 (int16 f) = f).
  { apply canonical_fields_inv in Hc
      as (? & ? & ? & ? & ? & ? & ? & ? & f1 & _ & _ & _ & _ & ->
          & _ & _ & _ & _ & _ & _ & _ & _ & Hf).
    by destruct (oct_digit f1 Hf). }
  split; [by rewrite Hf|].
  pose proof (dmi_key_text _ _ _ _ _ "" Hkc (or_introl eq_refl))
    as (_ & Hp & _).
  rewrite append_empty_r in Hp. rewrite Hp, Hb, Hv. reflexivity.
Qed.

End AddressClaims.

(** C1, as the specification states it: the key would carry the bus of the
    address in its bus field and drop the device, so that addresses on one
    bus that differ only in their device share a key.  The addresses
    [0000:3a:00.0] and [0000:3a:01.0] have different keys. *)
Lemma dmi_key_as_stated_fails :
  ¬ ((∀ s a, parse_address s = Some a →
        ∃ k, parse_address (dmi_key_from_bdf s) = Some k
             ∧ bus k = bus a ∧ device k = 0%N ∧ function k = function a)
     ∧ (∀ s1 s2 a1 a2,
          parse_address s1 = Some a1 → parse_address s2 = Some a2 →
          domain a1 = domain a2 → bus a1 = bus a2 →
          function a1 = function a2 →
          dmi_key_from_bdf s1 = dmi_key_from_bdf s2)).
Proof.
  intros [_ Hsame].
  specialize (Hsame "0000:3a:00.0" "0000:3a:01.0"
                (PciAddress 0 58 0 0) (PciAddress 0 58 1 0)).
  assert (Hkeys : dmi_key_from_bdf "0000:3a:00.0" = "003a:00:00.0"
                  ∧ dmi_key_from_bdf "0000:3a:01.0" = "003a:01:00.0")
    by (split; vm_compute; reflexivity).
  destruct Hkeys as [Hk1 Hk2]. rewrite Hk1, Hk2 in Hsame.
  assert (Heq : "003a:00:00.0" = "003a:01:00.0").
  { apply Hsame; vm_compute; reflexivity. }
  discriminate Heq.
Qed.

(** C1, amended: for every address parsed from the canonical form, the key
    is the bus as four lower-case hexadecimal digits, the device as two, a
    zero byte and the function digit; the domain is omitted.  Read as an
    address, the key has the bus of the address in its domain field, the
    device of the address in its bus field, device zero, and the function of
    the address.  Consequently two addresses have the same key exactly when
    they agree on bus, device and function: the device is kept, only the
    domain is lost. *)
Theorem dmi_key_from_bdf_fields (s : string) (a : pci_address) :
  parse_address s = Some a →
  dmi_key_from_bdf s =
    format_x 4 (bus a) +:+ ":" +:+ format_x 2 (device a) +:+ ":"
      +:+ format_x 2 0 +:+ "." +:+ format_d1 (function a)
  ∧ parse_address (dmi_key_from_bdf s) =
      Some (PciAddress (bus a) (device a) 0 (function a))
  ∧ ∀ s' a', parse_address s' = Some a' →
      (dmi_key_from_bdf s = dmi_key_from_bdf s'
       ↔ bus a = bus a' ∧ device a = device a' ∧ function a = function a').
Proof.
  intros Ha. destruct (parse_address_key s a Ha) as [Hkey Hparse].
  split; [exact Hkey|]. split; [exact Hparse|].
  intros s' a' Ha'. destruct (parse_address_key s' a' Ha') as [Hkey' Hparse'].
  split.
  - intros Heq. rewrite Heq, Hparse' in Hparse.
    injection Hparse as -> -> ->. done.
  - intros (Hb & Hd & Hf). by rewrite Hkey, Hkey', Hb, Hd, Hf.
Qed.

Lemma dmi_key_from_bdf_fields_witness :
  parse_address "0000:3a:01.7" = Some (PciAddress 0 58 1 7)
  ∧ dmi_key_from_bdf "0000:3a:01.7" =
      format_x 4 58 +:+ ":" +:+ format_x 2 1 +:+ ":" +:+ format_x 2 0
        +:+ "." +:+ format_d1 7
  ∧ parse_address (dmi_key_from_bdf "0000:3a:01.7") =
      Some (PciAddress 58 1 0 7).
Proof.
  assert (Ha : parse_address "0000:3a:01.7" = Some (PciAddress 0 58 1 7))
    by (vm_compute; reflexivity).
  split; [exact Ha|].
  destruct (dmi_key_from_bdf_fields "0000:3a:01.7" (PciAddress 0 58 1 7) Ha)
    as (Hkey & Hparse & _).
  split; [exact Hkey|exact Hparse].
Defined.

(** ** Patterns with repetitions *)

Section Repetition.

(** A repetition leaves the closed groups as they are. *)
Lemma rep_go_caps {R} p lo hi s st (k : mstate → option R) r :
  rep_go p lo hi s st k = Some r →
  ∃ st', caps st' = caps st ∧ k st' = Some r.
Proof.
  revert lo hi st. induction s as [|c s IH]; intros lo hi st H; cbn in H.
  - destruct lo; [eauto|discriminate H].
  - destruct (more hi && p c).
    + destruct (rep_go p (Init.Nat.pred lo) (Init.Nat.pred <$> hi) s
                  (step_char c s st) k) as [r'|] eqn:Hrec.
      * injection H as ->. apply IH in Hrec as (st' & Hcaps & Hk). eauto.
      * destruct lo; [eauto|discriminate H].
    + destruct lo; [eauto|discriminate H].
Qed.

(** A match of a listing line: the line starts with a canonical address
    and group 2 is that address without its domain. *)
Lemma lspci_line_match_inv line m :
  re_match false lspci_line_re line = Some m →
  ∃ t d b v f tail,
    line = t +:+ tail ∧ canonical_fields t = Some (d, b, v, f)
    ∧ group m 2 = b +:+ ":" +:+ v +:+ "." +:+ f.
Proof.
  unfold re_match, match_at, lspci_line_re, times, plus, star. intros H.
  cbn in H. do 12 next_char H. strip_retry H.
  apply rep_go_caps in H as (st1 & Hc1 & H). cbn in H, Hc1.
  apply rep_go_caps in H as (st2 & Hc2 & H). cbn in H, Hc2.
  destruct (at_eol false _); [|discriminate H]. injection H as <-.
  unfold group. cbn. rewrite Hc2, Hc1. cbn.
  eexists (String _ (String _ (String _ (String _ (String _ (String _
            (String _ (String _ (String _ (String _ (String _
              (String _ "")))))))))))), _, _, _, _, line.
  split; [reflexivity|]. cbn.
  rewrite Heqb, Heqb0, Heqb1, Heqb2, Heqb3, Heqb4, Heqb5, Heqb6, Heqb7.
  cbn. split; reflexivity.
Qed.

End Repetition.

(** ** Ancestor chains *)

Section Chain.

Lemma findall_from_Forall (P : string → Prop) r :
  (∀ before s m, match_at false r before s = Some m → P (m_text m)) →
  ∀ s before skip, Forall P (findall_from r before s skip).
Proof.
  intros HP. induction s as [|c s IH]; intros before skip.
  - destruct skip; cbn; [|constructor].
    destruct (match_at false r before "") as [m|] eqn:Hm; [|constructor].
    constructor; [eauto|constructor].
  - destruct skip as [|n]; [|apply IH].
    cbn [findall_from].
    destruct (match_at false r before (String c s)) as [m|] eqn:Hm;
      [|apply IH].
    constructor; [eauto|apply IH].
Qed.

Lemma chain_match_inv before s m :
  match_at false chain_re before s = Some m →
  ∃ b v f, canonical_fields (m_text m) = Some ("0000", b, v, f).
Proof.
  unfold match_at, chain_re, times. intros H. cbn in H.
  do 12 next_char H.
  injection H as <-. cbn.
  rewrite Heqb, Heqb0, Heqb1, Heqb2, Heqb3. cbn. eauto.
Qed.

(** Every address of a chain is canonical, so the address pattern matches
    it. *)
Lemma chain_canonical h g :
  Forall (λ x, ∃ d b v f, canonical_fields x = Some (d, b, v, f))
         (get_chain_for_device h g).
Proof.
  unfold get_chain_for_device, re_findall.
  apply findall_from_Forall. intros before s m Hm.
  apply chain_match_inv in Hm as (b & v & f & Hm). eauto.
Qed.

End Chain.

(** ** Malformed addresses *)


(** ** Firmware slot catalogue *)

Section Catalogue.









End Catalogue.




(** ** GPU discovery *)

Section Sorting.

Lemma mapM_Forall2 {A B} (f : A → exc B) l ys :
  mapM f l = Ret ys ↔ Forall2 (λ x y, f x = Ret y) l ys.
Proof.
  revert ys. induction l as [|x l IH]; intros ys; cbn.
  - split.
    + intros [= <-]. constructor.
    + intros Hf. by inversion Hf.
  - destruct (f x) as [y|e] eqn:Hx; cbn.
    + destruct (mapM f l) as [ys'|e] eqn:Hl; cbn.
      * split.
        -- intros [= <-]. constructor; [done|]. by apply IH.
        -- intros Hf. inversion Hf as [|? y' ? ys'' Hy Hrest]; subst.
           apply IH in Hrest. congruence.
      * split; [discriminate|].
        intros Hf. inversion Hf as [|? y' ? ys'' Hy Hrest]; subst.
        apply IH in Hrest. discriminate Hrest.
    + split; [discriminate|].
      intros Hf. inversion Hf; subst. congruence.
Qed.

Lemma mapM_total {A B} (f : A → exc B) l :
  Forall (λ x, ∃ y, f x = Ret y) l → ∃ ys, mapM f l = Ret ys.
Proof.
  induction 1 as [|x l [y Hy] _ [ys Hys]]; [by exists []|].
  exists (y :: ys). cbn. rewrite Hy. cbn. by rewrite Hys.
Qed.

Lemma mapM_raise {A B} (f : A → exc B) l e :
  mapM f l = Raise e → ∃ x, x ∈ l ∧ f x = Raise e.
Proof.
  induction l as [|x l IH]; cbn; [discriminate|].
  destruct (f x) as [y|e'] eqn:Hx; cbn.
  - destruct (mapM f l) as [ys|e'] eqn:Hl; cbn; [discriminate|].
    intros [= ->]. destruct (IH eq_refl) as (x' & Hin & Hx').
    exists x'. split; [by right|done].
  - intros [= ->]. exists x. split; [by left|done].
Qed.

#[global] Instance key_le_total : Total key_le.
Proof. intros [[b1 d1] f1] [[b2 d2] f2]. unfold key_le. lia. Qed.

#[global] Instance by_key_total {A K} (le : relation K) `{!Total le} :
  Total (by_key (A:=A) le).
Proof. intros a b. unfold by_key. apply total; apply _. Qed.

(** [sorted] returns its items, once each, in the order of their keys. *)
Lemma sorted_by_spec {A K} (le : relation K) `{!RelDecision le, !Total le}
    (f : A → exc K) xs ys :
  sorted_by le f xs = Ret ys →
  ys ≡ₚ xs ∧ ∃ ks, mapM f ys = Ret ks ∧ Sorted le ks.
Proof.
  unfold sorted_by.
  destruct (mapM (λ x, k ← f x; Ret (k, x)) xs) as [dec|e] eqn:Hdec;
    [|discriminate].
  cbn. intros [= <-].
  apply mapM_Forall2 in Hdec.
  assert (Hxs : dec.*2 = xs ∧ Forall (λ p, f p.2 = Ret p.1) dec).
  { clear -Hdec. induction Hdec as [|x p xs dec Hp _ [IH1 IH2]]; [done|].
    destruct (f x) as [k|] eqn:Hx; [|discriminate Hp].
    cbn in Hp. injection Hp as <-. cbn. split; [by rewrite IH1|].
    constructor; [done|done]. }
  destruct Hxs as [Hxs Hkeys].
  pose proof (merge_sort_Permutation (by_key le) dec) as Hperm.
  split; [by rewrite Hperm, Hxs|].
  exists (merge_sort (by_key le) dec).*1. split.
  - apply mapM_Forall2. rewrite <- Hperm in Hkeys.
    clear -Hkeys. induction Hkeys as [|p l Hp _ IH]; constructor; done.
  - apply Sorted_fmap with (R1 := by_key le); [done|].
    apply Sorted_merge_sort. apply _.
Qed.

(** [sorted] raises only if the key function does. *)
Lemma sorted_by_raise {A K} (le : relation K) `{!RelDecision le}
    (f : A → exc K) xs e :
  sorted_by le f xs = Raise e → ∃ x, x ∈ xs ∧ f x = Raise e.
Proof.
  unfold sorted_by.
  destruct (mapM (λ x, k ← f x; Ret (k, x)) xs) as [dec|e'] eqn:Hdec;
    [discriminate|].
  cbn. intros [= ->]. apply mapM_raise in Hdec as (x & Hin & Hx).
  exists x. split; [done|]. destruct (f x); cbn in Hx; congruence.
Qed.

End Sorting.

Section Discovery.

Lemma hex_not_separator c :
  is_hex c = true → Ascii.eqb c ":" = false ∧ Ascii.eqb c "." = false.
Proof.
  destruct c as [[] [] [] [] [] [] [] []]; vm_compute; intros; done.
Qed.

Lemma oct_key f :
  is_oct f = true →
  Ascii.eqb f ":" = false ∧ Ascii.eqb f "." = false
  ∧ int10 (String f "") = int16 (String f "").
Proof.
  destruct f as [[] [] [] [] [] [] [] []]; vm_compute; intros; done.
Qed.

(** The sort key of an address without domain is its bus, device and
    function. *)
Lemma keyfn_canonical t d b v f :
  canonical_fields t = Some (d, b, v, f) →
  keyfn (b +:+ ":" +:+ v +:+ "." +:+ f) = Ret (int16 b, int16 v, int16 f).
Proof.
  intros Hc. apply canonical_fields_inv in Hc
    as (d1 & d2 & d3 & d4 & b1 & b2 & v1 & v2 & f1 & -> & -> & -> & -> & ->
        & _ & _ & _ & _ & H5 & H6 & H7 & H8 & H9).
  destruct (hex_not_separator b1 H5) as [Hb1 _].
  destruct (hex_not_separator b2 H6) as [Hb2 _].
  destruct (hex_not_separator v1 H7) as [Hv1 Hv1'].
  destruct (hex_not_separator v2 H8) as [Hv2 Hv2'].
  destruct (oct_key f1 H9) as (Hf & Hf' & Hint).
  unfold keyfn, split_on. cbv [String.append]. cbn [split_on_go].
  rewrite Hb1, Hb2, Hv1, Hv2, Hf.
  change (Ascii.eqb ":" ":") with true.
  change (Ascii.eqb "." ":") with false.
  cbn [split_on_go String.rev String.rev_app].
  rewrite Hv1', Hv2', Hf'.
  change (Ascii.eqb "." ".") with true.
  cbn [split_on_go String.rev String.rev_app].
  by rewrite Hint.
Qed.

(** An address the loop over the listing collects: the tests its line
    passed, and its key. *)
Lemma gpu_line_inv line x :
  gpu_line line = Some x ↔
  ∃ m, contains "[10de:" (lower line) = true
    ∧ re_match false lspci_line_re line = Some m
    ∧ group m 2 = x
    ∧ (contains "[0300]" (group m 3) = true
       ∨ contains "[0302]" (group m 3) = true
       ∨ contains "VGA compatible controller" (group m 3) = true
       ∨ contains "3D controller" (group m 3) = true).
Proof.
  unfold gpu_line.
  destruct (contains "[10de:" (lower line)); cbn [negb].
  2:{ split; [discriminate|]. by intros (m & ? & _). }
  destruct (re_match false lspci_line_re line) as [m|].
  2:{ split; [discriminate|]. by intros (m & _ & ? & _). }
  destruct (_ || _) eqn:Hok.
  - rewrite !orb_true_iff in Hok. split.
    + intros [= <-]. exists m. tauto.
    + by intros (m' & _ & [= <-] & -> & _).
  - rewrite !orb_false_iff in Hok. destruct Hok as [[[H1 H2] H3] H4].
    split; [discriminate|].
    intros (m' & _ & [= <-] & _ & Hok). rewrite H1, H2, H3, H4 in Hok.
    naive_solver.
Qed.

Lemma gpu_line_key line x :
  gpu_line line = Some x →
  ∃ a, parse_address ("0000:" +:+ x) = Some a
       ∧ keyfn x = Ret (bus a, device a, function a).
Proof.
  intros Hx. apply gpu_line_inv in Hx as (m & _ & Hm & <- & _).
  apply lspci_line_match_inv in Hm as (t & d & b & v & f & tail & _ & Hc & ->).
  rewrite (keyfn_canonical _ _ _ _ _ Hc).
  exists (PciAddress 0 (int16 b) (int16 v) (int16 f)). split; [|done].
  assert (Hc0 : canonical_fields ("0000:" +:+ b +:+ ":" +:+ v +:+ "." +:+ f)
                = Some ("0000", b, v, f)).
  { apply canonical_fields_inv in Hc
      as (d1 & d2 & d3 & d4 & b1 & b2 & v1 & v2 & f1 & -> & -> & -> & -> & ->
          & _ & _ & _ & _ & H5 & H6 & H7 & H8 & H9).
    cbv [String.append canonical_fields].
    change (is_hex "0") with true. cbn [andb].
    change (Ascii.eqb ":" ":") with true.
    change (Ascii.eqb "." ".") with true.
    by rewrite H5, H6, H7, H8, H9. }
  pose proof (dmi_key_text _ _ _ _ _ "" Hc0 (or_introl eq_refl))
    as (_ & Hp & _).
  rewrite append_empty_r in Hp. exact Hp.
Qed.

End Discovery.

(** What [discover_gpu_bdfs] returns, and when it is skipped. *)
Lemma discover_gpu_bdfs_spec (h : host) :
  let txt := str_or (lspci_Dnns h) (lspci_Dnn h) in
  match discover_gpu_bdfs h with
  | Ret gpus =>
      lspci_installed h = true ∧ txt ≠ ""
      ∧ NoDup gpus
      ∧ (∀ x, x ∈ gpus ↔
           ∃ line m, line ∈ splitlines txt
             ∧ contains "[10de:" (lower line) = true
             ∧ re_match false lspci_line_re line = Some m
             ∧ group m 2 = x
             ∧ (contains "[0300]" (group m 3) = true
                ∨ contains "[0302]" (group m 3) = true
                ∨ contains "VGA compatible controller" (group m 3) = true
                ∨ contains "3D controller" (group m 3) = true))
      ∧ (∃ keys, mapM keyfn gpus = Ret keys ∧ Sorted key_le keys)
      ∧ (∀ x, x ∈ gpus →
           ∃ a, parse_address ("0000:" +:+ x) = Some a
                ∧ keyfn x = Ret (bus a, device a, function a))
  | Raise e =>
      (lspci_installed h = false ∨ txt = "") ∧ ∃ msg, e = Skipped msg
  end.
Proof.
  intros txt. unfold discover_gpu_bdfs. fold txt.
  destruct (lspci_installed h); cbn [negb]; [|eauto].
  destruct (truthy txt) eqn:Htxt; cbn [negb].
  2:{ apply truthy_false in Htxt. eauto. }
  apply truthy_ne in Htxt.
  assert (Hmem : ∀ x, x ∈ elements (list_to_set (gpu_lines txt) : gset string)
                      ↔ ∃ line, line ∈ splitlines txt ∧ gpu_line line = Some x).
  { intros x. rewrite elem_of_elements, elem_of_list_to_set.
    unfold gpu_lines. rewrite list_elem_of_omap. done. }
  destruct (sorted_by key_le keyfn _) as [gpus|e] eqn:Hsort.
  - apply sorted_by_spec in Hsort as (Hperm & Hkeys); [|apply _].
    split; [done|]. split; [done|]. split.
    { rewrite Hperm. apply NoDup_elements. }
    split.
    { intros x. rewrite Hperm, Hmem. split.
      - intros (line & Hin & Hx). apply gpu_line_inv in Hx as (m & Hx).
        exists line, m. naive_solver.
      - intros (line & m & Hin & Hx). exists line. split; [done|].
        apply gpu_line_inv. by exists m. }
    split; [exact Hkeys|].
    intros x Hx. rewrite Hperm in Hx. apply Hmem in Hx as (line & _ & Hx).
    by apply gpu_line_key in Hx.
  - apply sorted_by_raise in Hsort as (x & Hin & Hx).
    apply Hmem in Hin as (line & _ & Hline).
    apply gpu_line_key in Hline as (a & _ & Hkey). congruence.
Qed.

(** ** The loop over the GPUs *)

Section Loop.
Context `{Numerals}.

Lemma py_index_first {A} (x : A) (l : list A) : py_index (x :: l) 0 = Ret x.
Proof. reflexivity. Qed.

Lemma py_index_last_but_one {A} (l : list A) :
  (2 ≤ length l)%nat → ∃ x, py_index l (-2) = Ret x ∧ x ∈ l.
Proof.
  intros Hlen. unfold py_index.
  destruct (Z.ltb_spec (-2) 0) as [_|]; [|lia].
  destruct (Z.ltb_spec (-2 + Z.of_nat (length l)) 0) as [|_]; [lia|].
  destruct (l !! Z.to_nat (-2 + Z.of_nat (length l))) as [x|] eqn:Hx.
  - exists x. split; [done|]. by eapply list_elem_of_lookup_2.
  - apply lookup_ge_None in Hx. lia.
Qed.

(** One iteration: it returns; a GPU without bridge only gets its line
    printed, any other GPU gets one row and is recorded as downgraded
    exactly when that is its verdict. *)
Lemma gpu_step_spec h dmi_desig st g :
  ∃ st', gpu_step h dmi_desig st g = Ret st'
    ∧ if has_bridge h g then
        ∃ r line, row_of h dmi_desig g r
          ∧ rows st' = rows st ++ [r]
          ∧ downgraded st' =
              downgraded st
                ++ (if bool_decide (status r = "DOWNGRADED") then [g] else [])
          ∧ stdout st' = stdout st ++ [line]
      else
        rows st' = rows st ∧ downgraded st' = downgraded st
        ∧ stdout st' = stdout st ++ [g +:+ " | (no bridges found)"].
Proof.
  unfold gpu_step, has_bridge, row_of, gpu_verdict, root_key.
  pose proof (chain_canonical h g) as Hcan.
  destruct (Nat.ltb_spec (length (get_chain_for_device h g)) 2) as [Hlen|Hlen];
    cbn [negb].
  { eexists. split; [reflexivity|]. done. }
  destruct (py_index_last_but_one _ Hlen) as (last & Hlast & Hin).
  destruct (get_chain_for_device h g) as [|root chain] eqn:Hchain;
    [cbn in Hlen; lia|].
  rewrite py_index_first. cbn [mbind exc_bind]. rewrite Hlast.
  cbn [mbind exc_bind].
  rewrite Forall_forall in Hcan.
  destruct (Hcan last Hin) as (d & b & v & f & Hc).
  pose proof (bdf_match_canonical last d b v f "" Hc (or_introl eq_refl)) as Hm.
  rewrite append_empty_r in Hm. rewrite Hm. cbn [mbind exc_bind].
  destruct (link_status_tag_flags
              (cap_speed (get_link_fields h g)) (cap_width (get_link_fields h g))
              (sta_speed (get_link_fields h g)) (sta_width (get_link_fields h g)))
    as (lane_down & idle & Htag & _).
  rewrite Htag. cbn [mbind exc_bind].
  eexists. split; [reflexivity|].
  eexists _, _. split; [|split; [reflexivity|split; [|reflexivity]]].
  - cbn [bdf status slot_name location head fmap option_fmap option_map].
    split; [done|]. split; [done|].
    eexists. split; [reflexivity|].
    intros ->. cbn [default]. by vm_compute.
  - cbn [downgraded status]. by case_bool_decide; rewrite ?app_nil_r.
Qed.

(** The whole loop: it returns; the rows are those of the GPUs with a
    bridge, in order; [downgraded] lists the rows whose verdict is
    DOWNGRADED; every GPU without bridge has its line printed. *)
Lemma gpu_loop_spec h dmi_desig gpus st :
  ∃ st' new,
    foldM (gpu_step h dmi_desig) st gpus = Ret st'
    ∧ rows st' = rows st ++ new
    ∧ Forall2 (row_of h dmi_desig) (filter (λ g, has_bridge h g) gpus) new
    ∧ downgraded st' =
        downgraded st
          ++ (bdf <$> filter (λ r, status r = "DOWNGRADED") new)
    ∧ (∀ line, line ∈ stdout st → line ∈ stdout st')
    ∧ (∀ g, g ∈ gpus → has_bridge h g = false →
         (g +:+ " | (no bridges found)") ∈ stdout st').
Proof.
  revert st. induction gpus as [|g gpus IH]; intros st.
  { exists st, []. cbn. rewrite !app_nil_r.
    repeat split; try done. intros g Hg. by apply elem_of_nil in Hg. }
  destruct (gpu_step_spec h dmi_desig st g) as (st1 & Hstep & Hg).
  destruct (IH st1) as (st' & new & Hloop & Hrows & Hnew & Hdown & Hout & Hnb).
  cbn [foldM]. rewrite Hstep. cbn [mbind exc_bind]. rewrite Hloop.
  rewrite filter_cons.
  destruct (has_bridge h g) eqn:Hbridge.
  - destruct Hg as (r & line & Hr & Hrows1 & Hdown1 & Hout1).
    exists st', (r :: new). split; [done|].
    rewrite Hrows, Hrows1, Hdown, Hdown1, <- !app_assoc.
    rewrite decide_True by done.
    split; [done|]. split; [by constructor|]. split.
    { f_equal. rewrite filter_cons. destruct Hr as [Hbdf _].
      case_bool_decide; [rewrite decide_True by done|rewrite decide_False by done];
        cbn; by rewrite ?Hbdf. }
    split.
    { intros l Hl. apply Hout. rewrite Hout1. set_solver. }
    intros g' [->|Hg']%elem_of_cons Hg'b; [congruence|by apply Hnb].
  - destruct Hg as (Hrows1 & Hdown1 & Hout1).
    exists st', new. split; [done|].
    rewrite Hrows, Hrows1, Hdown, Hdown1.
    rewrite decide_False by (by intros ?).
    split; [done|]. split; [done|]. split; [done|]. split.
    { intros l Hl. apply Hout. rewrite Hout1. set_solver. }
    intros g' [->|Hg']%elem_of_cons Hg'b; [|by apply Hnb].
    apply Hout. rewrite Hout1. set_solver.
Qed.

End Loop.

(** ** The run *)

Section Run.
Context `{Numerals}.

(** Printing the firmware table never raises: the keys looked up are the
    keys of the dictionary. *)
Lemma dmi_table_total (dmi_desig dmi_type : gmap string string) :
  ∃ lines,
    mapM (dmi_table_line dmi_desig dmi_type)
         (merge_sort String.le (elements (dom dmi_desig))) = Ret lines.
Proof.
  apply mapM_total. apply Forall_forall. intros addr Haddr.
  rewrite merge_sort_Permutation in Haddr.
  apply elem_of_elements, elem_of_dom in Haddr as [d Hd].
  unfold dmi_table_line, py_getitem. rewrite Hd. cbn. eauto.
Qed.

(** The state at the end of the test body, for a non-empty discovery. *)
Lemma test_body_spec h gpus :
  discover_gpu_bdfs h = Ret gpus → gpus ≠ [] →
  ∃ st,
    test_body h = Ret st
    ∧ Forall2 (row_of h (parse_dmi_slots h).1)
              (filter (λ g, has_bridge h g) gpus) (rows st)
    ∧ downgraded st = bdf <$> filter (λ r, status r = "DOWNGRADED") (rows st)
    ∧ (∀ g, g ∈ gpus → has_bridge h g = false →
         (g +:+ " | (no bridges found)") ∈ stdout st)
    ∧ (∀ r, r ∈ rows st → link_table_line r ∈ stdout st).
Proof.
  intros Hgpus Hne. unfold test_body. rewrite Hgpus. cbn [mbind exc_bind].
  rewrite bool_decide_false by done.
  destruct (parse_dmi_slots h) as [dmi_desig dmi_type]. cbn [fst].
  destruct (dmi_table_total dmi_desig dmi_type) as [lines ->].
  cbn [mbind exc_bind].
  destruct (gpu_loop_spec h dmi_desig gpus
              (LoopState (dmi_table_header ++ lines ++ [""]) [] []))
    as (st & new & -> & Hrows & Hnew & Hdown & _ & Hnb).
  cbn [mbind exc_bind rows downgraded app] in *.
  eexists. split; [reflexivity|]. cbn [rows downgraded stdout].
  rewrite Hrows. split; [done|]. split; [by rewrite Hdown|]. split.
  - intros g Hg Hb. apply elem_of_app. left. by apply Hnb.
  - intros r Hr. apply elem_of_app. right. apply elem_of_cons. right.
    apply elem_of_app. right. by apply list_elem_of_fmap_2.
Qed.

(** Discovery only ever raises [Skipped]. *)
Lemma discover_raise h e :
  discover_gpu_bdfs h = Raise e → ∃ msg, e = Skipped msg.
Proof.
  intros He. pose proof (discover_gpu_bdfs_spec h) as Hd.
  rewrite He in Hd. by destruct Hd as [_ ?].
Qed.

(** The outcome of the test, from the discovered GPUs. *)
Lemma test_outcome h :
  match discover_gpu_bdfs h with
  | Ret (_ :: _) =>
      ∃ st, test_body h = Ret st
        ∧ if bool_decide (downgraded st = [])
          then test_gpu_pcie_topology_and_links h = Ret ()
          else ∃ msg, test_gpu_pcie_topology_and_links h
                      = Raise (AssertionError msg)
  | _ => skipped (test_gpu_pcie_topology_and_links h)
  end.
Proof.
  destruct (discover_gpu_bdfs h) as [[|g gpus]|e] eqn:Hd.
  - unfold skipped, test_gpu_pcie_topology_and_links, test_body.
    rewrite Hd. cbn. eauto.
  - destruct (test_body_spec h (g :: gpus) Hd) as (st & Hst & _); [done|].
    exists st. split; [done|].
    unfold test_gpu_pcie_topology_and_links. rewrite Hst. cbn [mbind exc_bind].
    case_bool_decide; eauto.
  - apply discover_raise in Hd as Hs. destruct Hs as [msg ->].
    unfold skipped, test_gpu_pcie_topology_and_links, test_body.
    rewrite Hd. cbn. eauto.
Qed.

(** Among the rows of some GPUs, one has status DOWNGRADED exactly when
    that is the verdict of one of the GPUs. *)
Lemma rows_downgraded h dmi_desig gs rs :
  Forall2 (row_of h dmi_desig) gs rs →
  (filter (λ r, status r = "DOWNGRADED") rs ≠ []
   ↔ ∃ g, g ∈ gs ∧ gpu_verdict h g = Ret "DOWNGRADED").
Proof.
  induction 1 as [|g r gs rs (Hbdf & Hv & _) _ IH].
  - split; [done|]. intros (g & Hg & _). by apply elem_of_nil in Hg.
  - rewrite filter_cons. destruct (decide (status r = "DOWNGRADED")) as [Hs|Hs].
    + split; [|done]. intros _. exists g. rewrite Hs in Hv.
      split; [by left|done].
    + rewrite IH. split.
      * intros (g' & Hg' & Hv'). exists g'. split; [by right|done].
      * intros (g' & [->|Hg']%elem_of_cons & Hv'); [congruence|eauto].
Qed.

(** The test fails exactly when some GPU with a bridge has verdict
    DOWNGRADED. *)
Lemma fails_iff_downgraded h :
  fails (test_gpu_pcie_topology_and_links h) ↔
  ∃ gpus g, discover_gpu_bdfs h = Ret gpus ∧ g ∈ gpus
            ∧ has_bridge h g = true ∧ gpu_verdict h g = Ret "DOWNGRADED".
Proof.
  pose proof (test_outcome h) as Hout.
  destruct (discover_gpu_bdfs h) as [[|g0 gpus]|e] eqn:Hd.
  - destruct Hout as [msg Hmsg]. split.
    + intros (e & He & Hns). rewrite Hmsg in He. injection He as <-.
      by destruct (Hns msg).
    + intros (? & g & [= <-] & Hg & _). by apply elem_of_nil in Hg.
  - destruct (test_body_spec h (g0 :: gpus) Hd)
      as (st & Hst & Hrows & Hdown & _); [done|].
    destruct Hout as (st' & Hst' & Hout). rewrite Hst in Hst'.
    injection Hst' as <-.
    assert (Hex : downgraded st ≠ [] ↔
                  ∃ g, g ∈ g0 :: gpus ∧ has_bridge h g = true
                       ∧ gpu_verdict h g = Ret "DOWNGRADED").
    { rewrite Hdown.
      transitivity (filter (λ r, status r = "DOWNGRADED") (rows st) ≠ []).
      { by destruct (filter _ (rows st)). }
      rewrite (rows_downgraded _ _ _ _ Hrows). split.
      - intros (g & Hg & Hv). apply list_elem_of_filter in Hg as [Hb Hg].
        exists g. split; [done|]. split; [|done]. by destruct (has_bridge h g).
      - intros (g & Hg & Hb & Hv). exists g. split; [|done].
        apply list_elem_of_filter. split; [by rewrite Hb|done]. }
    case_bool_decide as Hd0.
    + split.
      * intros (e & He & _). congruence.
      * intros (gs & g & [= <-] & Hg). apply Hex in Hd0; [done|eauto].
    + destruct Hout as [msg Hmsg]. split.
      * intros _. apply Hex in Hd0 as (g & Hg). eauto.
      * intros _. exists (AssertionError msg). split; [done|discriminate].
  - destruct Hout as [msg Hmsg]. split.
    + intros (e' & He & Hns). rewrite Hmsg in He. injection He as <-.
      by destruct (Hns msg).
    + intros (? & g & [=] & _).
Qed.

End Run.

Section Outcome.
Context `{Numerals}.

(** The test passes exactly when GPUs were discovered and it does not
    fail. *)
Lemma passes_iff h :
  passes (test_gpu_pcie_topology_and_links h) ↔
  (∃ g gpus, discover_gpu_bdfs h = Ret (g :: gpus))
  ∧ ¬ fails (test_gpu_pcie_topology_and_links h).
Proof.
  pose proof (test_outcome h) as Hout.
  destruct (discover_gpu_bdfs h) as [[|g gpus]|e] eqn:Hd.
  - destruct Hout as [msg Hmsg]. rewrite Hmsg. split.
    + by intros [[] ?].
    + by intros [(? & ? & ?) _].
  - destruct Hout as (st & _ & Hout). case_bool_decide.
    + rewrite Hout. split.
      * intros _. split; [eauto|]. by intros (e & ? & _).
      * intros _. by exists ().
    + destruct Hout as [msg ->]. split.
      * by intros [[] ?].
      * intros [_ Hnf]. destruct Hnf.
        exists (AssertionError msg). split; [done|discriminate].
  - destruct Hout as [msg Hmsg]. rewrite Hmsg. split.
    + by intros [[] ?].
    + by intros [(? & ? & ?) _].
Qed.

(** The firmware table has no part in the outcome. *)
Lemma outcome_without_catalogue h installed out :
  (fails (test_gpu_pcie_topology_and_links (with_dmidecode h installed out))
   ↔ fails (test_gpu_pcie_topology_and_links h))
  ∧ (passes (test_gpu_pcie_topology_and_links (with_dmidecode h installed out))
     ↔ passes (test_gpu_pcie_topology_and_links h)).
Proof.
  assert (Hfails :
    fails (test_gpu_pcie_topology_and_links (with_dmidecode h installed out))
    ↔ fails (test_gpu_pcie_topology_and_links h)).
  { rewrite !fails_iff_downgraded. reflexivity. }
  split; [exact Hfails|].
  rewrite !passes_iff, Hfails. reflexivity.
Qed.

End Outcome.

(** C4: the run fails if and only if at least one GPU of the pass/fail set,
    the discovered GPUs whose chain has a bridge, has verdict DOWNGRADED;
    when each GPU of that set has verdict OK or IDLE the run does not fail,
    and it passes (it is skipped only when no GPU was discovered at all). *)
Theorem run_fails_iff_downgraded `{Numerals} (h : host) :
  (fails (test_gpu_pcie_topology_and_links h) ↔
   ∃ gpus g, discover_gpu_bdfs h = Ret gpus ∧ g ∈ gpus
             ∧ has_bridge h g = true ∧ gpu_verdict h g = Ret "DOWNGRADED")
  ∧ (∀ gpus, discover_gpu_bdfs h = Ret gpus →
       (∀ g, g ∈ gpus → has_bridge h g = true →
          gpu_verdict h g = Ret "OK" ∨ gpu_verdict h g = Ret "IDLE") →
       ¬ fails (test_gpu_pcie_topology_and_links h)
       ∧ (gpus ≠ [] → passes (test_gpu_pcie_topology_and_links h))).
Proof.
  split; [apply fails_iff_downgraded|].
  intros gpus Hd Hok.
  assert (Hnf : ¬ fails (test_gpu_pcie_topology_and_links h)).
  { rewrite fails_iff_downgraded. intros (gpus' & g & Hd' & Hg & Hb & Hv).
    rewrite Hd in Hd'. injection Hd' as <-.
    destruct (Hok g Hg Hb) as [Hv'|Hv']; rewrite Hv in Hv'; discriminate Hv'. }
  split; [exact Hnf|].
  intros Hne. apply passes_iff. split; [|exact Hnf].
  destruct gpus as [|g gpus]; [done|eauto].
Qed.

Lemma run_fails_iff_downgraded_witness :
  fails (test_gpu_pcie_topology_and_links degraded_host)
  ∧ passes (test_gpu_pcie_topology_and_links sample_host).
Proof.
  split.
  - apply (proj1 (run_fails_iff_downgraded degraded_host)).
    exists ["3b:00.0"; "5e:00.0"; "86:00.0"], "3b:00.0".
    split; [vm_compute; reflexivity|]. split; [apply list_elem_of_here|].
    split; vm_compute; reflexivity.
  - destruct (proj2 (run_fails_iff_downgraded sample_host)
                ["3b:00.0"; "5e:00.0"; "86:00.0"]) as [_ Hpass].
    + vm_compute. reflexivity.
    + intros g Hg Hb.
      apply elem_of_cons in Hg as [->|Hg]; [left; vm_compute; reflexivity|].
      apply elem_of_cons in Hg as [->|Hg]; [right; vm_compute; reflexivity|].
      apply elem_of_cons in Hg as [->|Hg]; [vm_compute in Hb; discriminate Hb|].
      by apply elem_of_nil in Hg.
    + apply Hpass. discriminate.
Defined.

(** C6: a discovered GPU whose chain has fewer than two addresses gets no
    row (no slot resolution, no link verdict) and is not in [downgraded];
    its line is printed; every other GPU is processed and reported as
    usual, the test body completes, and the pass/fail decision is taken
    over the other GPUs only. *)
Theorem incomplete_chain_isolated `{Numerals} (h : host) (gpus : list string)
    (g : string) :
  discover_gpu_bdfs h = Ret gpus →
  g ∈ gpus →
  (length (get_chain_for_device h g) < 2)%nat →
  ∃ st,
    test_body h = Ret st
    ∧ (∀ r, r ∈ rows st → bdf r ≠ g)
    ∧ (g ∉ downgraded st)
    ∧ (g +:+ " | (no bridges found)") ∈ stdout st
    ∧ (∀ g', g' ∈ gpus → (2 ≤ length (get_chain_for_device h g'))%nat →
         ∃ r, r ∈ rows st ∧ row_of h (parse_dmi_slots h).1 g' r
              ∧ link_table_line r ∈ stdout st)
    ∧ (fails (test_gpu_pcie_topology_and_links h) ↔
       ∃ g', g' ∈ gpus ∧ g' ≠ g
             ∧ (2 ≤ length (get_chain_for_device h g'))%nat
             ∧ gpu_verdict h g' = Ret "DOWNGRADED")
    ∧ (passes (test_gpu_pcie_topology_and_links h)
       ∨ fails (test_gpu_pcie_topology_and_links h)).
Proof.
  intros Hd Hg Hlen.
  assert (Hbridge : ∀ g', has_bridge h g' = true
                          ↔ (2 ≤ length (get_chain_for_device h g'))%nat).
  { intros g'. unfold has_bridge.
    destruct (Nat.ltb_spec (length (get_chain_for_device h g')) 2);
      cbn; split; (done || lia). }
  assert (Hnb : has_bridge h g = false).
  { destruct (has_bridge h g) eqn:Hb; [|done]. apply Hbridge in Hb. lia. }
  assert (Hne : gpus ≠ []) by (intros ->; by apply elem_of_nil in Hg).
  destruct (test_body_spec h gpus Hd Hne)
    as (st & Hst & Hrows & Hdown & Hline & Htable).
  assert (Hrow_g : ∀ r, r ∈ rows st → bdf r ≠ g).
  { intros r Hr Hbdf.
    apply list_elem_of_lookup in Hr as [i Hi].
    destruct (Forall2_lookup_r _ _ _ _ _ Hrows Hi) as (g' & Hg' & Hrof).
    destruct Hrof as [Hb _]. rewrite Hbdf in Hb. subst g'.
    apply list_elem_of_lookup_2, list_elem_of_filter in Hg' as [Hg' _].
    by rewrite Hnb in Hg'. }
  exists st. split; [done|]. split; [done|]. split.
  { rewrite Hdown. intros (r & Hbdf & Hr)%list_elem_of_fmap.
    apply list_elem_of_filter in Hr as [_ Hr]. by apply (Hrow_g r). }
  split; [by apply Hline|]. split.
  { intros g' Hg' Hlen'. apply Hbridge in Hlen'.
    assert (Hin : g' ∈ filter (λ g, has_bridge h g) gpus).
    { apply list_elem_of_filter. by rewrite Hlen'. }
    apply list_elem_of_lookup in Hin as [i Hi].
    destruct (Forall2_lookup_l _ _ _ _ _ Hrows Hi) as (r & Hr & Hrof).
    exists r. apply list_elem_of_lookup_2 in Hr. auto. }
  split.
  { rewrite fails_iff_downgraded. split.
    - intros (gpus' & g' & Hd' & Hg' & Hb & Hv).
      rewrite Hd in Hd'. injection Hd' as <-.
      exists g'. split; [done|]. split; [congruence|].
      split; [by apply Hbridge|done].
    - intros (g' & Hg' & _ & Hb & Hv). exists gpus, g'.
      split; [done|]. split; [done|]. split; [by apply Hbridge|done]. }
  destruct (decide (downgraded st = [])) as [He|He].
  - left. unfold passes, test_gpu_pcie_topology_and_links.
    rewrite Hst. cbn [mbind exc_bind]. rewrite bool_decide_true by done. eauto.
  - right. unfold fails, test_gpu_pcie_topology_and_links.
    rewrite Hst. cbn [mbind exc_bind]. rewrite bool_decide_false by done.
    eexists. split; [reflexivity|discriminate].
Qed.

Lemma incomplete_chain_isolated_witness :
  discover_gpu_bdfs sample_host = Ret ["3b:00.0"; "5e:00.0"; "86:00.0"]
  ∧ (length (get_chain_for_device sample_host "86:00.0") < 2)%nat
  ∧ ∃ st, test_body sample_host = Ret st
          ∧ (∀ r, r ∈ rows st → bdf r ≠ "86:00.0")
          ∧ "86:00.0 | (no bridges found)" ∈ stdout st.
Proof.
  assert (Hd : discover_gpu_bdfs sample_host
               = Ret ["3b:00.0"; "5e:00.0"; "86:00.0"])
    by (vm_compute; reflexivity).
  assert (Hlen : (length (get_chain_for_device sample_host "86:00.0") < 2)%nat)
    by (vm_compute; lia).
  split; [exact Hd|]. split; [exact Hlen|].
  destruct (incomplete_chain_isolated sample_host _ "86:00.0" Hd) as
    (st & Hst & Hrows & _ & Hline & _);
    [do 2 apply list_elem_of_further; apply list_elem_of_here|exact Hlen|].
  exists st. auto.
Defined.

(** C8: a GPU with a bridge whose root-port key has no record in the slot
    catalogue still gets a row with its link verdict and still counts for
    the pass/fail decision; only its slot label and location are the
    unresolved ones.  The firmware table has no part in the outcome of the
    run: with any other table, or none, the run passes or fails as
    before. *)
Theorem unmapped_slot_keeps_verdict `{Numerals} (h : host)
    (gpus : list string) (g key : string) :
  discover_gpu_bdfs h = Ret gpus →
  g ∈ gpus →
  (2 ≤ length (get_chain_for_device h g))%nat →
  root_key h g = Some key →
  (parse_dmi_slots h).1 !! key = None →
  (∃ st r,
     test_body h = Ret st ∧ r ∈ rows st ∧ bdf r = g
     ∧ gpu_verdict h g = Ret (status r)
     ∧ slot_name r = "ERROR (_PCIE_2)"
     ∧ location r = "ERROR-ERROR-ERROR"
     ∧ (g ∈ downgraded st ↔ status r = "DOWNGRADED")
     ∧ (status r = "DOWNGRADED" → fails (test_gpu_pcie_topology_and_links h)))
  ∧ ∀ installed out,
      (fails (test_gpu_pcie_topology_and_links (with_dmidecode h installed out))
       ↔ fails (test_gpu_pcie_topology_and_links h))
      ∧ (passes (test_gpu_pcie_topology_and_links
                   (with_dmidecode h installed out))
         ↔ passes (test_gpu_pcie_topology_and_links h)).
Proof.
  intros Hd Hg Hlen Hkey Hmiss.
  split; [|intros installed out; apply outcome_without_catalogue].
  assert (Hb : has_bridge h g = true).
  { unfold has_bridge.
    destruct (Nat.ltb_spec (length (get_chain_for_device h g)) 2); [lia|done]. }
  assert (Hne : gpus ≠ []) by (intros ->; by apply elem_of_nil in Hg).
  destruct (test_body_spec h gpus Hd Hne)
    as (st & Hst & Hrows & Hdown & _).
  assert (Hin : g ∈ filter (λ g, has_bridge h g) gpus).
  { apply list_elem_of_filter. by rewrite Hb. }
  apply list_elem_of_lookup in Hin as [i Hi].
  destruct (Forall2_lookup_l _ _ _ _ _ Hrows Hi)
    as (r & Hr & Hbdf & Hv & key' & Hkey' & Hslot).
  apply list_elem_of_lookup_2 in Hr.
  rewrite Hkey in Hkey'. injection Hkey' as <-.
  destruct (Hslot Hmiss) as [Hname Hloc].
  assert (Hdg : g ∈ downgraded st ↔ status r = "DOWNGRADED").
  { rewrite Hdown. split.
    - intros (r' & Hbdf' & Hr')%list_elem_of_fmap.
      apply list_elem_of_filter in Hr' as [Hs' Hr'].
      apply list_elem_of_lookup in Hr' as [j Hj].
      destruct (Forall2_lookup_r _ _ _ _ _ Hrows Hj)
        as (g' & _ & Hbdf'' & Hv' & _).
      rewrite <- Hbdf'', <- Hbdf', Hv in Hv'. injection Hv' as ->. done.
    - intros Hs. apply list_elem_of_fmap. exists r. split; [done|].
      apply list_elem_of_filter. done. }
  exists st, r. repeat (split; [done|]).
  intros Hs. apply fails_iff_downgraded. exists gpus, g.
  rewrite Hs in Hv. done.
Qed.

Lemma unmapped_slot_keeps_verdict_witness :
  discover_gpu_bdfs sample_host = Ret ["3b:00.0"; "5e:00.0"; "86:00.0"]
  ∧ root_key sample_host "5e:00.0" = Some "005d:02:00.0"
  ∧ (parse_dmi_slots sample_host).1 !! "005d:02:00.0" = None
  ∧ ∃ st r, test_body sample_host = Ret st ∧ r ∈ rows st
            ∧ bdf r = "5e:00.0"
            ∧ gpu_verdict sample_host "5e:00.0" = Ret (status r)
            ∧ slot_name r = "ERROR (_PCIE_2)".
Proof.
  assert (Hd : discover_gpu_bdfs sample_host
               = Ret ["3b:00.0"; "5e:00.0"; "86:00.0"])
    by (vm_compute; reflexivity).
  assert (Hkey : root_key sample_host "5e:00.0" = Some "005d:02:00.0")
    by (vm_compute; reflexivity).
  assert (Hmiss : (parse_dmi_slots sample_host).1 !! "005d:02:00.0" = None)
    by (vm_compute; reflexivity).
  split; [exact Hd|]. split; [exact Hkey|]. split; [exact Hmiss|].
  destruct (unmapped_slot_keeps_verdict sample_host _ "5e:00.0"
              "005d:02:00.0" Hd)
    as [(st & r & Hst & Hr & Hbdf & Hv & Hname & _) _];
    [apply list_elem_of_further, list_elem_of_here
    |vm_compute; lia|exact Hkey|exact Hmiss|].
  exists st, r. auto.
Defined.

(** * Further properties *)

(** Comparisons of two known characters, evaluated. *)
Ltac eqb_lit :=
  repeat match goal with
         | |- context [Ascii.eqb ?a ?c] =>
             let b := eval vm_compute in (Ascii.eqb a c) in
             match b with
             | true => change (Ascii.eqb a c) with true
             | false => change (Ascii.eqb a c) with false
             end
         end.

(** ** Texts and repetitions *)

Section Texts.

Lemma append_cons c s t : String c s +:+ t = String c (s +:+ t).
Proof. reflexivity. Qed.

Lemma append_assoc_str s t u : (s +:+ t) +:+ u = s +:+ (t +:+ u).
Proof.
  induction s as [|c s IH]; [reflexivity|]. by rewrite !append_cons, IH.
Qed.

Lemma all_chars_app p s t :
  all_chars p (s +:+ t) = all_chars p s && all_chars p t.
Proof.
  induction s as [|c s IH]; [reflexivity|].
  rewrite append_cons. cbn [all_chars]. by rewrite IH, andb_assoc.
Qed.

Lemma rev_app_spec s acc : String.rev_app s acc = String.rev s +:+ acc.
Proof.
  unfold String.rev. revert acc.
  induction s as [|c s IH]; intros acc; [reflexivity|].
  cbn [String.rev_app]. rewrite IH, (IH (String c "")).
  by rewrite append_assoc_str.
Qed.

Lemma rev_str_cons c s : String.rev (String c s) = String.rev s +:+ String c "".
Proof. unfold String.rev at 1. cbn [String.rev_app]. apply rev_app_spec. Qed.

Lemma rev_str_app s t : String.rev (s +:+ t) = String.rev t +:+ String.rev s.
Proof.
  induction s as [|c s IH]; [by rewrite append_empty_r|].
  by rewrite append_cons, !rev_str_cons, IH, append_assoc_str.
Qed.

Lemma rev_str_involutive s : String.rev (String.rev s) = s.
Proof.
  induction s as [|c s IH]; [reflexivity|].
  by rewrite rev_str_cons, rev_str_app, IH.
Qed.

Lemma all_chars_rev p s : all_chars p (String.rev s) = all_chars p s.
Proof.
  induction s as [|c s IH]; [reflexivity|].
  rewrite rev_str_cons, all_chars_app, IH. cbn [all_chars].
  by rewrite andb_true_r, andb_comm.
Qed.

Lemma length_append s t :
  String.length (s +:+ t) = (String.length s + String.length t)%nat.
Proof.
  induction s as [|c s IH]; [reflexivity|].
  rewrite append_cons. cbn [String.length]. by rewrite IH.
Qed.

Lemma advance_caps w s' st : caps (advance w s' st) = caps st.
Proof. revert st. induction w as [|c w IH]; intros st; [done|]. cbn. by rewrite IH. Qed.

Lemma advance_acc w s' st :
  acc (advance w s' st) = String.rev w +:+ acc st.
Proof.
  revert st. induction w as [|c w IH]; intros st; [done|].
  cbn [advance]. rewrite IH, rev_str_cons, append_assoc_str. reflexivity.
Qed.

Lemma advance_rest w s' st :
  rest st = w +:+ s' → rest (advance w s' st) = s'.
Proof.
  revert st. induction w as [|c w IH]; intros st Hst; [done|].
  cbn [advance]. by apply IH.
Qed.

(** A repetition that succeeds has read some characters of the class, at
    least the required number, before its continuation succeeded. *)
Lemma rep_go_inv {R} p lo hi s st (k : mstate → option R) r :
  rep_go p lo hi s st k = Some r →
  ∃ w s', s = w +:+ s' ∧ all_chars p w = true ∧ (lo ≤ String.length w)%nat
          ∧ k (advance w s' st) = Some r.
Proof.
  revert lo hi st. induction s as [|c s IH]; intros lo hi st H; cbn in H.
  - destruct lo; [|discriminate H]. exists "", "". cbn. auto with lia.
  - assert (Hstop : match lo with 0%nat => k st | S _ => None end = Some r →
                    ∃ w s', String c s = w +:+ s' ∧ all_chars p w = true
                            ∧ (lo ≤ String.length w)%nat
                            ∧ k (advance w s' st) = Some r).
    { destruct lo; [|discriminate]. intros Hk.
      exists "", (String c s). cbn. auto with lia. }
    destruct (more hi && p c) eqn:Hc; [|by apply Hstop].
    destruct (rep_go p (Init.Nat.pred lo) (Init.Nat.pred <$> hi) s
                (step_char c s st) k) as [r'|] eqn:Hrec; [|by apply Hstop].
    injection H as ->. apply IH in Hrec as (w & s' & -> & Hw & Hlo & Hk).
    apply andb_true_iff in Hc as [_ Hc].
    exists (String c w), s'. cbn. rewrite Hc, Hw. repeat split; [lia|done].
Qed.

(** A greedy unbounded repetition reads the whole run of characters of the
    class when the continuation succeeds after it. *)
Lemma rep_go_greedy {R} p lo w s' st (k : mstate → option R) r :
  all_chars p w = true →
  match s' with "" => True | String c _ => p c = false end →
  (lo ≤ String.length w)%nat →
  k (advance w s' st) = Some r →
  rep_go p lo None (w +:+ s') st k = Some r.
Proof.
  revert lo st. induction w as [|c w IH]; intros lo st Hw Hs' Hlo Hk.
  - cbn in Hlo. assert (lo = 0%nat) as -> by lia.
    change ("" +:+ s') with s'. cbn [advance] in Hk.
    destruct s' as [|c s']; cbn [rep_go more andb]; [done|]. by rewrite Hs'.
  - cbn in Hw. apply andb_true_iff in Hw as [Hc Hw].
    rewrite append_cons. cbn [rep_go more fmap option_fmap option_map andb].
    rewrite Hc. cbn [advance] in Hk.
    erewrite IH; [done|done|done| |done]. cbn in Hlo. lia.
Qed.

End Texts.

(** ** Riser groups *)

Section Riser.

Lemma str_or_empty s : str_or s "" = s.
Proof. by destruct s. Qed.

Lemma rep_go_is_Some {R} p hi s st (k : mstate → option R) :
  (∀ st', is_Some (k st')) → is_Some (rep_go p 0 hi s st k).
Proof.
  intros Hk. revert hi st. induction s as [|c s IH]; intros hi st; cbn; [done|].
  destruct (more hi && p c); [|done].
  by destruct (rep_go p 0 (Init.Nat.pred <$> hi) s (step_char c s st) k).
Qed.

Lemma riser_match_inv desig m :
  re_match false riser_re desig = Some m →
  ∃ ds tail, ds ≠ "" ∧ all_chars is_digit ds = true
    ∧ desig = "PCIE_" +:+ ds +:+ "_" +:+ tail ∧ group m 1 = "PCIE_" +:+ ds.
Proof.
  unfold re_match, match_at, riser_re, plus, star. intros H. cbn in H.
  do 5 next_char H.
  apply rep_go_inv in H as (ds & s' & -> & Hds & Hlo & H).
  rewrite advance_rest in H by reflexivity.
  rewrite advance_acc, advance_caps in H. cbn in H.
  next_char H. strip_retry H.
  apply rep_go_caps in H as (st' & Hcaps & H). injection H as <-.
  exists ds, s'. repeat split.
  - intros ->. cbn in Hlo. lia.
  - done.
  - unfold group. cbn [m_caps]. rewrite Hcaps.
    unfold step_char. cbn [caps lookup_cap Nat.eqb].
    rewrite rev_str_app, rev_str_involutive. reflexivity.
Qed.

Lemma riser_match_intro ds tail :
  ds ≠ "" → all_chars is_digit ds = true →
  ∃ m, re_match false riser_re ("PCIE_" +:+ ds +:+ "_" +:+ tail) = Some m
       ∧ group m 1 = "PCIE_" +:+ ds.
Proof.
  intros Hne Hds. unfold re_match, match_at, riser_re, plus, star.
  cbv [String.append]; fold String.append. cbn.
  rewrite !Ascii.eqb_refl. cbn.
  match goal with
  | |- context [rep_go is_digit 1 None _ ?st ?k] =>
      destruct (k (advance ds (String "_" tail) st)) as [m|] eqn:Hk
  end.
  - exists m. split.
    + apply rep_go_greedy; [done|done| |done].
      destruct ds; [done|cbn; lia].
    + rewrite advance_rest in Hk by reflexivity.
      rewrite Ascii.eqb_refl in Hk.
      apply rep_go_caps in Hk as (st' & Hcaps & Hk). injection Hk as <-.
      unfold group. cbn [m_caps]. rewrite Hcaps.
      unfold step_char. cbn [caps lookup_cap Nat.eqb].
      rewrite advance_acc. cbn [acc].
      rewrite rev_str_app, rev_str_involutive. reflexivity.
  - rewrite advance_rest in Hk by reflexivity.
    rewrite Ascii.eqb_refl in Hk.
    match type of Hk with
    | rep_go ?p 0 ?hi ?s ?st ?k = None =>
        destruct (rep_go_is_Some p hi s st k) as [m Hm]; [by eauto|]
    end.
    congruence.
Qed.

(** X1: [riser_group_from_desig] yields the riser group of a designation that
    starts with [PCIE_], decimal digits and an underscore, and the empty
    text for every other designation. *)
Theorem riser_group_from_desig_spec desig :
  (∀ ds tail, ds ≠ "" → all_chars is_digit ds = true →
     desig = "PCIE_" +:+ ds +:+ "_" +:+ tail →
     riser_group_from_desig desig = "PCIE_" +:+ ds)
  ∧ ((∀ ds tail, ds ≠ "" → all_chars is_digit ds = true →
        desig ≠ "PCIE_" +:+ ds +:+ "_" +:+ tail) →
     riser_group_from_desig desig = "").
Proof.
  unfold riser_group_from_desig. rewrite str_or_empty. split.
  - intros ds tail Hne Hds ->.
    by destruct (riser_match_intro ds tail Hne Hds) as (m & -> & ->).
  - intros Hnot. destruct (re_match false riser_re desig) as [m|] eqn:Hm; [|done].
    apply riser_match_inv in Hm as (ds & tail & Hne & Hds & -> & _).
    by destruct (Hnot ds tail Hne Hds).
Qed.

Lemma riser_group_from_desig_spec_witness :
  riser_group_from_desig "PCIE_3_SLOT2" = "PCIE_3"
  ∧ riser_group_from_desig "PCIE3_SLOT2" = "".
Proof.
  split.
  - apply (proj1 (riser_group_from_desig_spec "PCIE_3_SLOT2") "3" "SLOT2");
      [discriminate|reflexivity|reflexivity].
  - apply (proj2 (riser_group_from_desig_spec "PCIE3_SLOT2")).
    intros ds tail _ _ H. cbv [String.append] in H. discriminate H.
Defined.

End Riser.

(** ** Chassis tables *)

Section Tables.

Lemma riser_groups_cases group :
  group ∈ riser_groups ↔
  group = "PCIE_1" ∨ group = "PCIE_2" ∨ group = "PCIE_3" ∨ group = "PCIE_4".
Proof. unfold riser_groups. rewrite !elem_of_cons, elem_of_nil. tauto. Qed.

Ltac peel_key Hkey group :=
  destruct group as [|? group];
  cbv [String.append] in Hkey; fold String.append in Hkey;
  [ first [discriminate Hkey | solve [auto 6]]
  | first [discriminate Hkey
          | injection Hkey as ? Hkey; subst; peel_key Hkey group] ].

(** A key of the label table is a riser group followed by [_PCIE_1] or
    [_PCIE_2]. *)
Lemma gpu_label_key_group group suffix label :
  suffix = "1" ∨ suffix = "2" →
  gpu_label_table !! (group +:+ "_PCIE_" +:+ suffix) = Some label →
  group ∈ riser_groups.
Proof.
  intros Hsuffix Hlabel. apply riser_groups_cases.
  unfold gpu_label_table in Hlabel. cbn [list_to_map foldr fst snd] in Hlabel.
  repeat (apply lookup_insert_Some in Hlabel as [[Hkey _]|[_ Hlabel]];
    [destruct Hsuffix as [-> | ->]; peel_key Hkey group|]).
  by rewrite lookup_empty in Hlabel.
Qed.

Lemma slot_key_suffix group inner :
  ∃ suffix, (suffix = "1" ∨ suffix = "2")
            ∧ slot_key group inner = group +:+ "_PCIE_" +:+ suffix.
Proof. unfold slot_key. case_bool_decide; eauto. Qed.

(** The position inside a riser is known for the bridge devices 00 and 01
    of the four riser groups and for nothing else. *)
Lemma inner_slot_known group dev :
  inner_slot_from_dev_with_group group dev ≠ "ERROR" ↔
  group ∈ riser_groups ∧ (dev = "00" ∨ dev = "01").
Proof.
  rewrite riser_groups_cases.
  unfold inner_slot_from_dev_with_group, inner_slot_table.
  cbn [list_to_map foldr fst snd]. rewrite !lookup_insert, lookup_empty.
  repeat case_decide; subst; cbn [from_option id]; rewrite ?lookup_insert, ?lookup_empty;
    repeat case_decide; subst; cbn [from_option id]; naive_solver.
Qed.

Lemma inner_slot_values group dev :
  inner_slot_from_dev_with_group group dev ∈ ["Top"; "Bottom"; "ERROR"].
Proof.
  unfold inner_slot_from_dev_with_group, inner_slot_table.
  cbn [list_to_map foldr fst snd]. rewrite !lookup_insert, lookup_empty.
  repeat case_decide; subst; cbn [from_option id]; rewrite ?lookup_insert, ?lookup_empty;
    repeat case_decide; subst; cbn [from_option id]; set_solver.
Qed.

Lemma riser_side_known group :
  riser_side group ≠ "ERROR" ↔ group ∈ riser_groups.
Proof.
  rewrite riser_groups_cases. unfold riser_side.
  repeat case_bool_decide; set_solver.
Qed.

Lemma riser_lr_known group :
  riser_lr group ≠ "ERROR" ↔ group ∈ riser_groups.
Proof.
  rewrite riser_groups_cases. unfold riser_lr, riser_lr_table.
  cbn [list_to_map foldr fst snd]. rewrite !lookup_insert, lookup_empty.
  repeat case_decide; subst; cbn [from_option id]; naive_solver.
Qed.

Lemma gpu_label_known group inner :
  gpu_label_from_key (slot_key group inner) ≠ "ERROR" ↔ group ∈ riser_groups.
Proof.
  destruct (slot_key_suffix group inner) as (suffix & Hsuffix & ->).
  unfold gpu_label_from_key. split.
  - destruct (gpu_label_table !! _) as [label|] eqn:Hlabel; [|done].
    intros _. eapply gpu_label_key_group; eauto.
  - intros Hgroup%riser_groups_cases.
    destruct Hgroup as [-> | [-> | [-> | ->]]], Hsuffix as [-> | ->];
      vm_compute; discriminate.
Qed.

(** X2: the four chassis tables know the same riser groups.  The side, the
    left or right position and the GPU label are [ERROR] exactly for a group
    outside PCIE_1 to PCIE_4, whatever the position inside the riser; the
    position inside the riser is [ERROR] exactly when the group is outside
    them or the bridge device is neither 00 nor 01. *)
Theorem riser_tables_agree group dev inner :
  (riser_side group ≠ "ERROR" ↔ group ∈ riser_groups)
  ∧ (riser_lr group ≠ "ERROR" ↔ group ∈ riser_groups)
  ∧ (gpu_label_from_key (slot_key group inner) ≠ "ERROR"
     ↔ group ∈ riser_groups)
  ∧ (inner_slot_from_dev_with_group group dev ≠ "ERROR"
     ↔ group ∈ riser_groups ∧ (dev = "00" ∨ dev = "01")).
Proof.
  split; [apply riser_side_known|].
  split; [apply riser_lr_known|].
  split; [apply gpu_label_known|apply inner_slot_known].
Qed.

(** X3: a GPU behind an unexpected bridge device of a known riser is shown
    with position [ERROR] and with the label of the riser's second bay. *)
Theorem unknown_device_second_bay group dev :
  group ∈ riser_groups → dev ≠ "00" → dev ≠ "01" →
  inner_slot_from_dev_with_group group dev = "ERROR"
  ∧ slot_key group (inner_slot_from_dev_with_group group dev)
    = group +:+ "_PCIE_2"
  ∧ gpu_label_from_key
      (slot_key group (inner_slot_from_dev_with_group group dev)) ≠ "ERROR".
Proof.
  intros Hgroup H00 H01.
  assert (inner_slot_from_dev_with_group group dev = "ERROR") as ->.
  { destruct (decide (inner_slot_from_dev_with_group group dev = "ERROR"))
      as [|Hne]; [done|].
    apply inner_slot_known in Hne. naive_solver. }
  split; [done|]. split; [done|]. by apply gpu_label_known.
Qed.

Lemma unknown_device_second_bay_witness :
  inner_slot_from_dev_with_group "PCIE_3" "02" = "ERROR"
  ∧ slot_key "PCIE_3" (inner_slot_from_dev_with_group "PCIE_3" "02")
    = "PCIE_3_PCIE_2"
  ∧ gpu_label_from_key
      (slot_key "PCIE_3" (inner_slot_from_dev_with_group "PCIE_3" "02"))
    ≠ "ERROR".
Proof.
  apply (unknown_device_second_bay "PCIE_3" "02").
  - apply list_elem_of_further, list_elem_of_further, list_elem_of_here.
  - discriminate.
  - discriminate.
Defined.

(** X4: the eight bays, two for each of the four risers, have eight
    different labels and eight different locations. *)
Theorem bays_distinct g1 d1 g2 d2 :
  g1 ∈ riser_groups → g2 ∈ riser_groups →
  d1 ∈ ["00"; "01"] → d2 ∈ ["00"; "01"] →
  gpu_label_from_key (slot_key g1 (inner_slot_from_dev_with_group g1 d1))
  = gpu_label_from_key (slot_key g2 (inner_slot_from_dev_with_group g2 d2))
  ∨ (riser_side g1, riser_lr g1, inner_slot_from_dev_with_group g1 d1)
    = (riser_side g2, riser_lr g2, inner_slot_from_dev_with_group g2 d2) →
  g1 = g2 ∧ d1 = d2.
Proof.
  intros Hg1%riser_groups_cases Hg2%riser_groups_cases Hd1 Hd2.
  rewrite !elem_of_cons, elem_of_nil in Hd1.
  rewrite !elem_of_cons, elem_of_nil in Hd2.
  destruct Hg1 as [-> | [-> | [-> | ->]]], Hg2 as [-> | [-> | [-> | ->]]],
    Hd1 as [-> | [-> | []]], Hd2 as [-> | [-> | []]];
    vm_compute; intros [H|H]; first [done | discriminate H].
Qed.

Lemma bays_distinct_witness : "PCIE_1" = "PCIE_1" ∧ "00" = "00".
Proof.
  apply (bays_distinct "PCIE_1" "00" "PCIE_1" "00").
  - apply list_elem_of_here.
  - apply list_elem_of_here.
  - apply list_elem_of_here.
  - apply list_elem_of_here.
  - left. reflexivity.
Defined.

End Tables.

(** ** Ancestor chains and sysfs paths *)

Section Chains.

(** X5: every address of a chain is a well-formed address of domain 0,
    twelve characters long, and its firmware key is not empty. *)
Theorem chain_addresses_parse h g :
  Forall (λ x, ∃ a, parse_address x = Some a ∧ domain a = 0%N
                    ∧ dmi_key_from_bdf x ≠ "" ∧ String.length x = 12%nat)
         (get_chain_for_device h g).
Proof.
  unfold get_chain_for_device, re_findall.
  apply findall_from_Forall. intros before s m Hm.
  apply chain_match_inv in Hm as (b & v & f & Hm).
  pose proof (bdf_match_canonical _ _ _ _ _ "" Hm (or_introl eq_refl)) as Hre.
  rewrite append_empty_r in Hre.
  assert (Ha : parse_address (m_text m)
               = Some (PciAddress 0 (int16 b) (int16 v) (int16 f))).
  { unfold parse_address. rewrite Hre. reflexivity. }
  eexists. split; [exact Ha|]. split; [reflexivity|].
  apply parse_address_key in Ha as [-> _]. split.
  - by destruct (format_x 4 _).
  - apply canonical_fields_inv in Hm
      as (? & ? & ? & ? & ? & ? & ? & ? & ? & -> & _). reflexivity.
Qed.

(** One step of [re.findall] at a position where the pattern fails. *)
Lemma findall_skip r before c s :
  match_at false r before (String c s) = None →
  findall_from r before (String c s) 0 = findall_from r (Some c) s 0.
Proof. intros H. cbn [findall_from]. by rewrite H. Qed.

(** The pattern of a chain component matches a canonical address of
    domain 0000 whatever follows it. *)
Lemma chain_match_address before a b v f s :
  canonical_fields a = Some ("0000", b, v, f) →
  match_at false chain_re before (a +:+ s) = Some (RMatch a [] s).
Proof.
  intros Ha.
  apply canonical_fields_inv in Ha
    as (d1 & d2 & d3 & d4 & b1 & b2 & v1 & v2 & f1 & -> & Hd & -> & -> & ->
        & H1 & H2 & H3 & H4 & H5 & H6 & H7 & H8 & H9).
  injection Hd as <- <- <- <-. clear H1 H2 H3 H4.
  unfold match_at, chain_re, times. cbv [String.append]; fold String.append.
  repeat (cbn; first [ rewrite Ascii.eqb_refl
                     | match goal with E : _ = true |- _ => rewrite E end ]).
  reflexivity.
Qed.

Ltac chain_no_match :=
  unfold match_at, chain_re, times;
  repeat (cbn; eqb_lit;
          try match goal with
              | |- context [Ascii.eqb ?a ?c] =>
                  destruct (Ascii.eqb_spec a c); [subst|]
              | |- context [is_hex ?c] => destruct (is_hex c)
              end);
  reflexivity.

Lemma chain_skip_slash before s :
  findall_from chain_re before (String "/" s) 0
  = findall_from chain_re (Some "/"%char) s 0.
Proof. apply findall_skip. chain_no_match. Qed.

Lemma chain_take_address before a b v f s :
  canonical_fields a = Some ("0000", b, v, f) →
  ∃ before', findall_from chain_re before (a +:+ s) 0
             = a :: findall_from chain_re before' s 0.
Proof.
  intros Ha. pose proof (chain_match_address before a b v f s Ha) as Hm.
  apply canonical_fields_inv in Ha
    as (d1 & d2 & d3 & d4 & b1 & b2 & v1 & v2 & f1 & -> & _).
  exists (Some f1). revert Hm. cbv [String.append]; fold String.append.
  intros Hm. cbn [findall_from]. rewrite Hm. reflexivity.
Qed.

Lemma chain_of_components before addrs :
  Forall (λ a, ∃ b v f, canonical_fields a = Some ("0000", b, v, f)) addrs →
  findall_from chain_re before (concat_str (map (String "/") addrs)) 0 = addrs.
Proof.
  intros Haddrs. revert before.
  induction Haddrs as [|a addrs (b & v & f & Ha) _ IH]; intros before.
  - cbn. unfold match_at, chain_re, times. cbn. reflexivity.
  - cbn [map concat_str]. rewrite append_cons, chain_skip_slash.
    destruct (chain_take_address (Some "/"%char) a b v f
                (concat_str (map (String "/") addrs)) Ha) as [before' ->].
    by rewrite IH.
Qed.

Lemma chain_skip_root r1 r2 s :
  match s with "" => True | String c _ => c = "/"%char end →
  findall_from chain_re None
    ("/sys/devices/pci0000:" +:+ String r1 (String r2 s)) 0
  = findall_from chain_re (Some r2) s 0.
Proof.
  intros Hs. cbv [String.append].
  do 16 (rewrite findall_skip by chain_no_match).
  destruct s as [|c s]; [|subst c];
    repeat (rewrite findall_skip by chain_no_match); reflexivity.
Qed.

(** X6: for a device whose sysfs path is [/sys/devices/pciDDDD:BB] followed
    by components [/0000:BB:DD.F], [get_chain_for_device] returns those
    components, from the root port to the device. *)
Theorem chain_of_sysfs_path h g r1 r2 addrs :
  Forall (λ a, ∃ b v f, canonical_fields a = Some ("0000", b, v, f)) addrs →
  realpath h ("/sys/bus/pci/devices/0000:" +:+ g)
  = "/sys/devices/pci0000:" +:+ String r1 (String r2 "")
      +:+ concat_str (map (String "/") addrs) →
  get_chain_for_device h g = addrs.
Proof.
  intros Haddrs Hpath. unfold get_chain_for_device, re_findall. rewrite Hpath.
  rewrite <- (chain_of_components (Some r2) addrs Haddrs) at 2.
  rewrite <- append_assoc_str.
  change (("/sys/devices/pci0000:" +:+ String r1 (String r2 "")) +:+ ?s)
    with ("/sys/devices/pci0000:" +:+ String r1 (String r2 s)).
  apply chain_skip_root. by destruct Haddrs.
Qed.

Lemma chain_of_sysfs_path_witness :
  get_chain_for_device sample_host "3b:00.0"
  = ["0000:3a:00.0"; "0000:3b:00.0"].
Proof.
  apply (chain_of_sysfs_path sample_host "3b:00.0" "3" "a").
  - repeat constructor; eexists _, _, _; reflexivity.
  - reflexivity.
Defined.

(** X7: a device whose sysfs path does not resolve, so that [realpath]
    returns the path it was given, has a chain of one address, its own, and
    so no bridge. *)
Theorem unresolved_path_no_bridge h g b v f :
  canonical_fields ("0000:" +:+ g) = Some ("0000", b, v, f) →
  realpath h ("/sys/bus/pci/devices/0000:" +:+ g)
  = "/sys/bus/pci/devices/0000:" +:+ g →
  get_chain_for_device h g = ["0000:" +:+ g] ∧ has_bridge h g = false.
Proof.
  intros Hg Hpath.
  assert (Hchain : get_chain_for_device h g = ["0000:" +:+ g]).
  { unfold get_chain_for_device, re_findall. rewrite Hpath.
    change ("/sys/bus/pci/devices/0000:" +:+ g)
      with ("/sys/bus/pci/devices/" +:+ ("0000:" +:+ g)).
    rewrite <- (append_empty_r ("0000:" +:+ g)) at 1.
    set (a := "0000:" +:+ g) in *. cbv [String.append]; fold String.append.
    do 21 (rewrite findall_skip by chain_no_match).
    destruct (chain_take_address (Some "/"%char) a b v f "" Hg)
      as [before' ->].
    reflexivity. }
  split; [done|]. unfold has_bridge. by rewrite Hchain.
Qed.

Lemma unresolved_path_no_bridge_witness :
  get_chain_for_device sample_host "86:00.0" = ["0000:86:00.0"]
  ∧ has_bridge sample_host "86:00.0" = false.
Proof.
  apply (unresolved_path_no_bridge sample_host "86:00.0" "86" "00" "0");
    reflexivity.
Defined.

End Chains.

(** ** Link fields *)

Section LinkFields.

Lemma search_from_inv ml r before s m :
  search_from ml r before s = Some m →
  ∃ before' s', match_at ml r before' s' = Some m.
Proof.
  revert before. induction s as [|c s IH]; intros before H; cbn [search_from] in H.
  - destruct (match_at ml r before "") eqn:Hm; [|discriminate]. 
    injection H as ->. eauto.
  - destruct (match_at ml r before (String c s)) eqn:Hm; [|by eauto].
    injection H as ->. eauto.
Qed.

Lemma width_match_inv before s m :
  match_at false width_re before s = Some m →
  group m 1 ≠ "" ∧ all_chars is_digit (group m 1) = true.
Proof.
  unfold match_at, width_re, plus. intros H. cbn in H.
  do 7 next_char H.
  apply rep_go_inv in H as (w & s' & -> & Hw & Hlo & H).
  injection H as <-. unfold group. cbn [m_caps lookup_cap Nat.eqb].
  rewrite advance_acc. cbn [acc]. rewrite append_empty_r, rev_str_involutive.
  split; [|done]. intros ->. cbn in Hlo. lia.
Qed.

Lemma speed_match_inv before s m :
  match_at false speed_re before s = Some m →
  group m 1 ≠ "" ∧ all_chars is_digit_or_dot (group m 1) = true.
Proof.
  unfold match_at, speed_re, plus. intros H. cbn in H.
  do 5 next_char H.
  apply rep_go_inv in H as (ws & s1 & -> & _ & _ & H).
  rewrite advance_rest in H by reflexivity.
  apply rep_go_inv in H as (w & s2 & -> & Hw & Hlo & H).
  cbn in H. rewrite advance_rest in H by reflexivity.
  do 4 next_char H.
  injection H as <-. unfold group. cbn [m_caps lookup_cap Nat.eqb].
  rewrite advance_acc. cbn [acc]. rewrite append_empty_r, rev_str_involutive.
  split; [|done]. intros ->. cbn in Hlo. lia.
Qed.

Lemma search_group1_shape r p line old :
  (∀ before s m, match_at false r before s = Some m →
     group m 1 ≠ "" ∧ all_chars p (group m 1) = true) →
  all_chars p old = true →
  all_chars p (search_group1 r line old) = true.
Proof.
  intros Hr Hold. unfold search_group1, re_search.
  destruct (search_from false r None line) as [m|] eqn:Hm; [|done].
  apply search_from_inv in Hm as (before & s & Hm). by apply Hr in Hm as [_ Hm].
Qed.

Lemma link_line_shape f line :
  fields_shape f → fields_shape (link_line f line).
Proof.
  intros (H1 & H2 & H3 & H4). unfold link_line.
  destruct (contains "LnkCap:" line); [|destruct (contains "LnkSta:" line)];
    repeat split; cbn [cap_speed cap_width sta_speed sta_width];
    try done;
    first [ by apply search_group1_shape; [apply speed_match_inv|]
          | by apply search_group1_shape; [apply width_match_inv|] ].
Qed.

Lemma fold_link_line_shape lines f :
  fields_shape f → fields_shape (fold_left link_line lines f).
Proof.
  revert f. induction lines as [|line lines IH]; intros f Hf; [done|].
  cbn [fold_left]. by apply IH, link_line_shape.
Qed.

Lemma get_link_fields_shape h g : fields_shape (get_link_fields h g).
Proof. unfold get_link_fields. by apply fold_link_line_shape. Qed.

(** X8: on an output of the link query made of code points below 256, the
    speeds [get_link_fields] returns are empty or made of the characters
    [0] to [9] and the point, and the widths are empty or made of the
    characters [\d] matches there, which are [0] to [9]. *)
Theorem link_fields_shape h g :
  all_chars is_digit_or_dot (cap_speed (get_link_fields h g)) = true
  ∧ all_chars is_digit (cap_width (get_link_fields h g)) = true
  ∧ all_chars is_digit_or_dot (sta_speed (get_link_fields h g)) = true
  ∧ all_chars is_digit (sta_width (get_link_fields h g)) = true.
Proof. apply get_link_fields_shape. Qed.

(** The status fields stay empty when no line is read as a status line. *)
Lemma fold_link_line_no_status lines f :
  Forall (λ line, contains "LnkCap:" line = true
                  ∨ contains "LnkSta:" line = false) lines →
  sta_speed (fold_left link_line lines f) = sta_speed f
  ∧ sta_width (fold_left link_line lines f) = sta_width f.
Proof.
  intros Hlines. revert f.
  induction Hlines as [|line lines Hline _ IH]; intros f; [done|].
  cbn [fold_left]. destruct (IH (link_line f line)) as [-> ->].
  unfold link_line.
  destruct (contains "LnkCap:" line) eqn:Hcap; [done|].
  destruct Hline as [Hline | Hline]; [congruence|by rewrite Hline].
Qed.

End LinkFields.

(** ** Verdicts *)

Section Verdicts.

Context `{Numerals}.

Lemma tag_of_flags (lane_down idle : bool) :
  let tag := if lane_down then "DOWNGRADED"
             else if idle then "IDLE" else "OK" in
  (Ret (A := string) tag = Ret "DOWNGRADED" ↔ lane_down = true)
  ∧ (Ret (A := string) tag = Ret "OK" ↔ lane_down = false ∧ idle = false).
Proof. destruct lane_down, idle; cbn; naive_solver. Qed.

(** Without a status line the status fields stay empty and the verdict is
    OK. *)
Lemma no_status_line_verdict h g :
  Forall (λ line, contains "LnkCap:" line = true
                  ∨ contains "LnkSta:" line = false)
         (splitlines (lspci_lnk h g)) →
  sta_speed (get_link_fields h g) = ""
  ∧ sta_width (get_link_fields h g) = ""
  ∧ gpu_verdict h g = Ret "OK".
Proof.
  intros Hlines. unfold gpu_verdict.
  destruct (fold_link_line_no_status _ (LinkFields "" "" "" "") Hlines)
    as [Hs Hw].
  fold (get_link_fields h g) in Hs, Hw. cbn in Hs, Hw. rewrite Hs, Hw.
  split; [done|]. split; [done|].
  destruct (link_status_tag_flags (cap_speed (get_link_fields h g))
              (cap_width (get_link_fields h g)) "" "")
    as (lane_down & idle & -> & Hlane & Hidle).
  apply tag_of_flags. split.
  - destruct lane_down; [|done]. destruct (proj1 Hlane eq_refl) as (_ & ? & _). done.
  - destruct idle; [|done]. destruct (proj1 Hidle eq_refl) as (_ & ? & _). done.
Qed.

(** X9: a GPU whose link query prints no status line, or fails and prints
    nothing, has empty status fields and the verdict OK.  A line that
    contains both [LnkCap:] and [LnkSta:] is read as a capability line. *)
Theorem no_status_line_ok h g :
  Forall (λ line, contains "LnkCap:" line = true
                  ∨ contains "LnkSta:" line = false)
         (splitlines (lspci_lnk h g)) →
  sta_speed (get_link_fields h g) = ""
  ∧ sta_width (get_link_fields h g) = ""
  ∧ gpu_verdict h g = Ret "OK".
Proof. apply no_status_line_verdict. Qed.

(** X10: a link that reports the same text for what it is capable of and
    for what it negotiated is OK, whatever the texts are, as soon as no
    float is smaller than itself. *)
Theorem full_capability_ok (speed width : string) :
  (∀ x, float_lt x x = false) →
  link_status_tag speed width speed width = Ret "OK".
Proof.
  intros Hirr.
  destruct (link_status_tag_flags speed width speed width)
    as (lane_down & idle & -> & Hlane & Hidle).
  apply tag_of_flags. split.
  - destruct lane_down; [|done].
    destruct (proj1 Hlane eq_refl) as (_ & _ & a & b & Ha & Hb & Hlt).
    simplify_eq. lia.
  - destruct idle; [|done].
    destruct (proj1 Hidle eq_refl) as (_ & _ & x & y & Hx & Hy & Hlt).
    simplify_eq. by rewrite Hirr in Hlt.
Qed.

End Verdicts.

(** ** Widths as Python reads them *)

Section PythonNumbers.

Lemma SFltb_irrefl x : SFltb x x = false.
Proof.
  unfold SFltb. destruct x as [[]|[]| |[] m e]; try reflexivity;
    cbn; rewrite Z.compare_refl; cbn; by rewrite ?Pos.compare_cont_refl.
Qed.

Lemma full_capability_ok_witness :
  link_status_tag "16GT" "x16" "16GT" "x16" = Ret "OK".
Proof. apply (full_capability_ok "16GT" "x16"). apply SFltb_irrefl. Defined.

Lemma digit_char c :
  is_digit c = true →
  is_number_blank c = false ∧ Ascii.eqb c "-" = false
  ∧ Ascii.eqb c "+" = false.
Proof.
  destruct c as [[] [] [] [] [] [] [] []]; vm_compute; intros; done.
Qed.

Lemma lstrip_digits s :
  all_chars is_digit s = true → lstrip_with is_number_blank s = s.
Proof.
  destruct s as [|c s]; [done|]. cbn. intros [Hc _]%andb_true_iff.
  by destruct (digit_char c Hc) as (-> & _).
Qed.

Lemma strip_digits s :
  all_chars is_digit s = true → strip_with is_number_blank s = s.
Proof.
  intros Hs. unfold strip_with. rewrite (lstrip_digits s Hs).
  rewrite lstrip_digits by by rewrite all_chars_rev.
  apply rev_str_involutive.
Qed.

Lemma digits_go_digits s n count after :
  all_chars is_digit s = true → s ≠ "" ∨ after = true →
  digits_go s (Z.of_N n) count after
  = Some (Z.of_N (int10_go n s), (count + String.length s)%nat, "").
Proof.
  revert n count after. induction s as [|c s IH]; intros n count after Hs Hne.
  - destruct Hne as [Hne | ->]; [done|]. cbn. by rewrite Nat.add_0_r.
  - cbn in Hs. apply andb_true_iff in Hs as [Hc Hs].
    cbn [digits_go int10_go String.length]. rewrite Hc.
    unfold digit_value. rewrite <- (N2Z.inj_mul 10), <- N2Z.inj_add.
    rewrite IH by auto. by rewrite Nat.add_succ_r.
Qed.

(** [int] on a text of decimal digits that is not longer than the limit
    on the digits of an integer: the number the digits spell. *)
Lemma python_int_digits s :
  s ≠ "" → all_chars is_digit s = true →
  (String.length s ≤ int_max_str_digits)%nat →
  python_int s = Some (Z.of_N (int10 s)).
Proof.
  intros Hne Hs Hlen. unfold python_int. rewrite (strip_digits s Hs).
  assert (sign_of s = (false, s)) as ->.
  { destruct s as [|c s]; [done|]. cbn in Hs.
    apply andb_true_iff in Hs as [Hc _].
    destruct (digit_char c Hc) as (_ & Hm & Hp).
    cbn. by rewrite Hm, Hp. }
  unfold digits. change 0%Z with (Z.of_N 0).
  rewrite (digits_go_digits s 0 0 false Hs (or_introl Hne)).
  cbn [Nat.add]. by apply Nat.ltb_ge in Hlen as ->.
Qed.

(** X11: with Python's [int], a GPU whose two width fields are present
    and within the limit on the digits of an integer is DOWNGRADED exactly
    when the negotiated width is the smaller number: the conversion of an
    extracted width never fails. *)
Theorem verdict_by_width h g :
  let f := get_link_fields h g in
  cap_width f ≠ "" → sta_width f ≠ "" →
  (String.length (cap_width f) ≤ int_max_str_digits)%nat →
  (String.length (sta_width f) ≤ int_max_str_digits)%nat →
  gpu_verdict h g = Ret "DOWNGRADED"
  ↔ (int10 (sta_width f) < int10 (cap_width f))%N.
Proof.
  intros f Hcap Hsta Hlcap Hlsta.
  destruct (get_link_fields_shape h g) as (_ & Hdcap & _ & Hdsta).
  fold f in Hdcap, Hdsta.
  pose proof (python_int_digits _ Hcap Hdcap Hlcap) as Hicap.
  pose proof (python_int_digits _ Hsta Hdsta Hlsta) as Hista.
  unfold gpu_verdict. fold f.
  destruct (link_status_tag_flags (cap_speed f) (cap_width f) (sta_speed f)
              (sta_width f)) as (lane_down & idle & -> & Hlane & _).
  destruct (tag_of_flags lane_down idle) as [-> _]. rewrite Hlane.
  unfold lane_regression. cbn [py_int python_numerals]. split.
  - intros (_ & _ & a & b & Ha & Hb & Hlt). simplify_eq. lia.
  - intros Hlt. split; [done|]. split; [done|]. eexists _, _.
    split; [done|]. split; [done|]. lia.
Qed.

Lemma verdict_by_width_witness :
  gpu_verdict degraded_host "3b:00.0" = Ret "DOWNGRADED"
  ↔ (int10 (sta_width (get_link_fields degraded_host "3b:00.0"))
     < int10 (cap_width (get_link_fields degraded_host "3b:00.0")))%N.
Proof.
  apply (verdict_by_width degraded_host "3b:00.0").
  - vm_compute. discriminate.
  - vm_compute. discriminate.
  - apply Nat.leb_le. vm_compute. reflexivity.
  - apply Nat.leb_le. vm_compute. reflexivity.
Defined.

End PythonNumbers.

(** ** The rows of the link table *)

Section Rows.

Context `{Numerals}.

(** The loop body only appends: what it adds to the printed lines, to the
    rows and to [downgraded] does not depend on what they hold. *)
Lemma gpu_step_frame h dmi_desig st g :
  gpu_step h dmi_desig st g
  = match gpu_step h dmi_desig (LoopState [] [] []) g with
    | Ret s => Ret (LoopState (stdout st ++ stdout s) (rows st ++ rows s)
                              (downgraded st ++ downgraded s))
    | Raise e => Raise e
    end.
Proof.
  unfold gpu_step.
  destruct (length (get_chain_for_device h g) <? 2)%nat.
  { unfold print. cbn [stdout rows downgraded app]. by rewrite !app_nil_r. }
  destruct (py_index (get_chain_for_device h g) 0) as [root|]; [|done].
  cbn [mbind exc_bind].
  destruct (py_index (get_chain_for_device h g) (-2)) as [bridge|]; [|done].
  cbn [mbind exc_bind].
  destruct (re_match false bdf_re bridge) as [m|]; [|done].
  cbn [mbind exc_bind].
  destruct (link_status_tag _ _ _ _) as [tag|]; [|done].
  cbn [mbind exc_bind print stdout rows downgraded app].
  destruct (bool_decide (tag = "DOWNGRADED")); by rewrite ?app_nil_r.
Qed.

Lemma gpu_loop_rows h dmi_desig gpus st st' r :
  foldM (gpu_step h dmi_desig) st gpus = Ret st' →
  r ∈ rows st' →
  r ∈ rows st ∨ ∃ g, g ∈ gpus ∧ appended_row h dmi_desig g r.
Proof.
  revert st. induction gpus as [|g gpus IH]; intros st Hloop Hr.
  { injection Hloop as <-. by left. }
  cbn [foldM] in Hloop. rewrite gpu_step_frame in Hloop.
  destruct (gpu_step h dmi_desig (LoopState [] [] []) g) as [s|] eqn:Hs;
    [|discriminate].
  cbn [mbind exc_bind] in Hloop.
  destruct (IH _ Hloop Hr) as [Hin | (g' & Hg' & Hrow)].
  - cbn [rows] in Hin. apply elem_of_app in Hin as [Hin | Hin]; [by left|].
    right. exists g. split; [apply list_elem_of_here|].
    exists s. split; [done|].
    revert Hs Hin. unfold gpu_step.
    destruct (length (get_chain_for_device h g) <? 2)%nat.
    { intros [= <-]. cbn. by intros ?%elem_of_nil. }
    destruct (py_index (get_chain_for_device h g) 0) as [root|]; [|done].
    cbn [mbind exc_bind].
    destruct (py_index (get_chain_for_device h g) (-2)) as [bridge|]; [|done].
    cbn [mbind exc_bind].
    destruct (re_match false bdf_re bridge) as [m|]; [|done].
    cbn [mbind exc_bind].
    destruct (link_status_tag _ _ _ _) as [tag|]; [|done].
    cbn [mbind exc_bind print stdout rows downgraded app].
    intros [= <-]. cbn [rows]. by intros ->%list_elem_of_singleton.
  - right. exists g'. split; [by apply list_elem_of_further|done].
Qed.

(** The row the loop body appends for a GPU, field by field. *)
Lemma appended_row_fields h dmi_desig g r :
  appended_row h dmi_desig g r →
  let f := get_link_fields h g in
  bdf r = g
  ∧ name r = get_gpu_short_name h g
  ∧ gpu_verdict h g = Ret (status r)
  ∧ cap_s r = str_or (cap_speed f) "?" ∧ sta_s r = str_or (sta_speed f) "?"
  ∧ cap_w r = str_or (cap_width f) "?" ∧ sta_w r = str_or (sta_width f) "?"
  ∧ has_bridge h g = true
  ∧ ∃ root bridge m,
      py_index (get_chain_for_device h g) 0 = Ret root
      ∧ py_index (get_chain_for_device h g) (-2) = Ret bridge
      ∧ re_match false bdf_re bridge = Some m
      ∧ let slot := default "-" (dmi_desig !! dmi_key_from_bdf root) in
        slot_name r = slot_name_of slot (group m 3)
        ∧ location r = location_of slot (group m 3).
Proof.
  intros (st & Hst & Hrows). revert Hst. unfold gpu_step, has_bridge, gpu_verdict.
  destruct (length (get_chain_for_device h g) <? 2)%nat.
  { intros [= <-]. discriminate Hrows. }
  destruct (py_index (get_chain_for_device h g) 0) as [root|]; [|done].
  cbn [mbind exc_bind].
  destruct (py_index (get_chain_for_device h g) (-2)) as [bridge|]; [|done].
  cbn [mbind exc_bind].
  destruct (re_match false bdf_re bridge) as [m|] eqn:Hm; [|done].
  cbn [mbind exc_bind].
  destruct (link_status_tag _ _ _ _) as [tag|]; [|done].
  cbn [mbind exc_bind print stdout rows downgraded app].
  intros [= <-]. cbn [rows] in Hrows. injection Hrows as <-.
  cbn. repeat split; try done. eauto 10.
Qed.

End Rows.

(** ** The report *)

Section Report.

Context `{Numerals}.

(** The rows of some GPUs carry their addresses, and the rows with status
    DOWNGRADED are those of the GPUs with that verdict. *)
Lemma downgraded_rows h dmi_desig gs rs :
  Forall2 (row_of h dmi_desig) gs rs →
  Forall (λ g, has_bridge h g = true) gs →
  bdf <$> rs = gs
  ∧ bdf <$> filter (λ r, status r = "DOWNGRADED") rs
    = filter (λ g, lane_downgraded h g) gs.
Proof.
  induction 1 as [|g r gs rs (Hbdf & Hv & _) _ IH]; intros Hgs; [done|].
  apply Forall_cons in Hgs as [Hg Hgs]. destruct (IH Hgs) as [IH1 IH2].
  split; [cbn; by rewrite Hbdf, IH1|].
  assert (Hl : lane_downgraded h g = bool_decide (status r = "DOWNGRADED")).
  { unfold lane_downgraded. by rewrite Hg, Hv. }
  rewrite !filter_cons. destruct (decide (status r = "DOWNGRADED")) as [Hs|Hs].
  - rewrite decide_True by (rewrite Hl; by apply bool_decide_pack).
    cbn. by rewrite Hbdf, IH2.
  - rewrite decide_False by (rewrite Hl; by intros ?%bool_decide_unpack).
    done.
Qed.

Lemma filter_bridge_downgraded h (gpus : list string) :
  filter (λ g, lane_downgraded h g) (filter (λ g, has_bridge h g) gpus)
  = filter (λ g, lane_downgraded h g) gpus.
Proof.
  rewrite list_filter_filter. apply list_filter_iff. intros g.
  unfold lane_downgraded. destruct (has_bridge h g); cbn; tauto.
Qed.

(** The state at the end of the test body in terms of the discovered GPUs:
    one row for each GPU with a bridge, in the order of discovery, and the
    GPUs the assertion names. *)
Lemma test_body_report h gpus :
  discover_gpu_bdfs h = Ret gpus → gpus ≠ [] →
  ∃ st before,
    test_body h = Ret st
    ∧ bdf <$> rows st = filter (λ g, has_bridge h g) gpus
    ∧ downgraded st = filter (λ g, lane_downgraded h g) gpus
    ∧ Forall2 (row_of h (parse_dmi_slots h).1)
              (filter (λ g, has_bridge h g) gpus) (rows st)
    ∧ stdout st
      = before ++ link_table_header ++ (link_table_line <$> rows st).
Proof.
  intros Hd Hne.
  destruct (test_body_spec h gpus Hd Hne) as (st & Hst & Hrows & Hdown & _).
  assert (Hb : Forall (λ g, has_bridge h g = true)
                      (filter (λ g, has_bridge h g) gpus)).
  { apply Forall_forall. intros g [Hg _]%list_elem_of_filter.
    by apply Is_true_true. }
  destruct (downgraded_rows _ _ _ _ Hrows Hb) as [Hbdf Hbad].
  rewrite filter_bridge_downgraded in Hbad.
  assert (Hout : ∃ before, stdout st = before ++ link_table_header
                             ++ (link_table_line <$> rows st)).
  { revert Hst. unfold test_body. rewrite Hd. cbn [mbind exc_bind].
    rewrite bool_decide_false by done.
    destruct (parse_dmi_slots h) as [dmi_desig dmi_type].
    destruct (dmi_table_total dmi_desig dmi_type) as [lines ->].
    cbn [mbind exc_bind].
    destruct (gpu_loop_spec h dmi_desig gpus
                (LoopState (dmi_table_header ++ lines ++ [""]) [] []))
      as (st1 & new & -> & _).
    cbn [mbind exc_bind].
    intros [= <-]. cbn [stdout rows]. exists (stdout st1 ++ [""]).
    by rewrite <- !app_assoc. }
  destruct Hout as [before Hout].
  exists st, before. by rewrite Hdown, Hbad.
Qed.

End Report.

(** ** The outcome of the run *)

Section RunReport.

Context `{Numerals}.

(** The test in terms of discovery and of the verdicts. *)
Lemma test_result h :
  test_gpu_pcie_topology_and_links h =
    match discover_gpu_bdfs h with
    | Raise e => Raise e
    | Ret [] => Raise (Skipped "No NVIDIA GPUs detected by lspci")
    | Ret gpus =>
        let bad := filter (λ g, lane_downgraded h g) gpus in
        if bool_decide (bad = []) then Ret ()
        else Raise (AssertionError
                      ("Some GPUs are lane-DOWNGRADED: " +:+ join ", " bad))
    end.
Proof.
  destruct (discover_gpu_bdfs h) as [[|g gpus]|e] eqn:Hd.
  - unfold test_gpu_pcie_topology_and_links, test_body. by rewrite Hd.
  - destruct (test_body_report h (g :: gpus) Hd)
      as (st & before & Hst & _ & Hbad & _); [done|].
    unfold test_gpu_pcie_topology_and_links. rewrite Hst.
    cbn [mbind exc_bind]. by rewrite Hbad.
  - unfold test_gpu_pcie_topology_and_links, test_body. by rewrite Hd.
Qed.

(** X12: the outcome of the test for every machine.  It is skipped when
    discovery is, or finds no GPU; otherwise it passes when no GPU with a
    bridge has verdict DOWNGRADED and else fails with an assertion whose
    message names those GPUs in the order of discovery.  No other exception
    leaves the test. *)
Theorem run_outcome h :
  test_gpu_pcie_topology_and_links h =
    match discover_gpu_bdfs h with
    | Raise e => Raise e
    | Ret [] => Raise (Skipped "No NVIDIA GPUs detected by lspci")
    | Ret gpus =>
        let bad := filter (λ g, lane_downgraded h g) gpus in
        if bool_decide (bad = []) then Ret ()
        else Raise (AssertionError
                      ("Some GPUs are lane-DOWNGRADED: " +:+ join ", " bad))
    end
  ∧ (test_gpu_pcie_topology_and_links h = Ret ()
     ∨ (∃ msg, test_gpu_pcie_topology_and_links h = Raise (Skipped msg))
     ∨ (∃ msg, test_gpu_pcie_topology_and_links h
               = Raise (AssertionError msg))).
Proof.
  split; [apply test_result|]. rewrite test_result.
  destruct (discover_gpu_bdfs h) as [[|g gpus]|e] eqn:Hd.
  - eauto.
  - cbv zeta. case_bool_decide; eauto.
  - apply discover_raise in Hd as [msg ->]. eauto.
Qed.

Lemma color_line_start status line :
  starts_with RED (color_line status line) = contains "DOWNGRADED" status
  ∧ starts_with GREEN (color_line status line)
    = negb (contains "DOWNGRADED" status).
Proof.
  unfold color_line, RED, GREEN.
  destruct (contains "DOWNGRADED" status);
    cbv [String.append]; fold String.append; cbn [starts_with];
    eqb_lit; done.
Qed.

Lemma verdict_tags h g tag :
  gpu_verdict h g = Ret tag →
  tag = "OK" ∨ tag = "IDLE" ∨ tag = "DOWNGRADED".
Proof.
  unfold gpu_verdict.
  destruct (link_status_tag_flags
              (cap_speed (get_link_fields h g)) (cap_width (get_link_fields h g))
              (sta_speed (get_link_fields h g)) (sta_width (get_link_fields h g)))
    as (lane_down & idle & -> & _).
  intros [= <-]. destruct lane_down, idle; auto.
Qed.

Lemma Forall2_elem_of_r {A B} (R : A → B → Prop) l k y :
  Forall2 R l k → y ∈ k → ∃ x, x ∈ l ∧ R x y.
Proof.
  induction 1 as [|x y' l k HR _ IH]; [by intros ?%elem_of_nil|].
  intros [-> | Hy]%elem_of_cons.
  - exists x. split; [apply list_elem_of_here|done].
  - destruct (IH Hy) as (x' & Hx' & HR'). exists x'.
    split; [by apply list_elem_of_further|done].
Qed.

(** X13: the link table.  It has one row for each discovered GPU with a
    bridge, in the order of discovery and so without repetition, and it is
    the last thing printed.  Each row has one of the three statuses, and
    its line is red when the GPU is among those the assertion names and
    green otherwise. *)
Theorem link_table_report h gpus :
  discover_gpu_bdfs h = Ret gpus → gpus ≠ [] →
  ∃ st before,
    test_body h = Ret st
    ∧ bdf <$> rows st = filter (λ g, has_bridge h g) gpus
    ∧ NoDup (bdf <$> rows st)
    ∧ stdout st
      = before ++ link_table_header ++ (link_table_line <$> rows st)
    ∧ ∀ r, r ∈ rows st →
        (status r = "OK" ∨ status r = "IDLE" ∨ status r = "DOWNGRADED")
        ∧ (starts_with RED (link_table_line r) = true
           ↔ bdf r ∈ downgraded st)
        ∧ (starts_with GREEN (link_table_line r) = true
           ↔ bdf r ∉ downgraded st).
Proof.
  intros Hd Hne.
  destruct (test_body_report h gpus Hd Hne)
    as (st & before & Hst & Hbdf & Hbad & Hrows & Hout).
  exists st, before. split; [done|]. split; [done|]. split.
  { rewrite Hbdf. apply NoDup_filter.
    pose proof (discover_gpu_bdfs_spec h) as Hspec. rewrite Hd in Hspec.
    by destruct Hspec as (_ & _ & Hnd & _). }
  split; [done|]. intros r Hr.
  destruct (Forall2_elem_of_r _ _ _ _ Hrows Hr)
    as (g & Hg & Hg_bdf & Hv & _).
  apply list_elem_of_filter in Hg as [Hbridge Hg].
  apply Is_true_true in Hbridge.
  pose proof (verdict_tags h g _ Hv) as Htag. split; [done|].
  assert (Hin : bdf r ∈ downgraded st ↔ status r = "DOWNGRADED").
  { rewrite Hbad, list_elem_of_filter, Hg_bdf. unfold lane_downgraded.
    rewrite Hbridge, Hv. cbn [andb]. rewrite bool_decide_spec. tauto. }
  destruct (color_line_start (status r)
              (ljust 11 (bdf r) +:+ " " +:+ ljust 34 (name r) +:+ " "
               +:+ ljust 24 (slot_name r) +:+ " " +:+ ljust 18 (location r)
               +:+ " " +:+ ljust 12 (status r) +:+ " " +:+ ljust 8 (cap_s r)
               +:+ " " +:+ ljust 8 (sta_s r) +:+ " " +:+ ljust 9 (cap_w r)
               +:+ " " +:+ ljust 9 (sta_w r))) as [Hred Hgreen].
  fold (link_table_line r) in Hred, Hgreen. rewrite Hred, Hgreen, Hin.
  destruct Htag as [-> | [-> | ->]]; vm_compute; split; split;
    first [done | discriminate | tauto | (intros Hf; by destruct Hf)].
Qed.

(** Discovery returns no GPU exactly when no line of the listing is
    accepted. *)
Lemma discover_nothing h gpus :
  discover_gpu_bdfs h = Ret gpus →
  gpus = [] ↔ gpu_lines (str_or (lspci_Dnns h) (lspci_Dnn h)) = [].
Proof.
  unfold discover_gpu_bdfs.
  destruct (lspci_installed h); [|discriminate]. cbn [negb].
  destruct (truthy _); [|discriminate]. cbn [negb].
  intros Hs. apply sorted_by_spec in Hs as [Hperm _]; [|apply _]. split.
  - intros ->. apply Permutation_nil_l in Hperm. symmetry in Hperm.
    apply elements_empty_inv in Hperm.
    destruct (gpu_lines _) as [|x l]; [done|]. set_solver.
  - intros Hl. rewrite Hl in Hperm. rewrite list_to_set_nil, elements_empty in Hperm.
    by apply Permutation_nil_r in Hperm.
Qed.

(** X14: the test is skipped exactly when [lspci] is not installed, or
    prints nothing, or lists no NVIDIA display or 3D controller.  Nothing
    else skips it: not a missing firmware table, not an unresolved sysfs
    path, not a failing link query. *)
Theorem skip_conditions h :
  skipped (test_gpu_pcie_topology_and_links h)
  ↔ lspci_installed h = false
    ∨ str_or (lspci_Dnns h) (lspci_Dnn h) = ""
    ∨ gpu_lines (str_or (lspci_Dnns h) (lspci_Dnn h)) = [].
Proof.
  unfold skipped. rewrite test_result.
  pose proof (discover_gpu_bdfs_spec h) as Hspec. cbv zeta in Hspec.
  destruct (discover_gpu_bdfs h) as [gpus|e] eqn:Hd.
  - destruct Hspec as (Hi & Htxt & _).
    pose proof (discover_nothing h gpus Hd) as Hnone.
    destruct gpus as [|g gpus].
    + split; [intros _; right; right; by apply Hnone|eauto].
    + cbv zeta. split.
      * intros [msg Hmsg]. case_bool_decide; discriminate Hmsg.
      * intros [Hf | [Hf | Hf]]; [congruence|done|].
        by apply Hnone in Hf.
  - destruct Hspec as [Hwhy [msg ->]]. split; [|eauto].
    intros _. destruct Hwhy; auto.
Qed.

(** Each row of the table is the row the loop body appends for one of the
    discovered GPUs. *)
Lemma test_body_rows h st r :
  test_body h = Ret st → r ∈ rows st →
  ∃ gpus g, discover_gpu_bdfs h = Ret gpus ∧ g ∈ gpus
            ∧ appended_row h (parse_dmi_slots h).1 g r.
Proof.
  unfold test_body.
  destruct (discover_gpu_bdfs h) as [gpus|]; [|discriminate].
  cbn [mbind exc_bind]. case_bool_decide; [discriminate|].
  destruct (parse_dmi_slots h) as [dmi_desig dmi_type]. cbn [fst].
  destruct (dmi_table_total dmi_desig dmi_type) as [lines ->].
  cbn [mbind exc_bind].
  destruct (foldM (gpu_step h dmi_desig)
              (LoopState (dmi_table_header ++ lines ++ [""]) [] []) gpus)
    as [st1|] eqn:Hloop; [|discriminate].
  cbn [mbind exc_bind]. intros [= <-]. cbn [rows]. intros Hr.
  destruct (gpu_loop_rows _ _ _ _ _ _ Hloop Hr) as [Hin | (g & Hg & Hrow)].
  - by apply elem_of_nil in Hin.
  - eauto.
Qed.

Lemma filter_none {A} (p : A → bool) (l : list A) :
  (∀ x, x ∈ l → p x = false) → filter (λ x, p x) l = [].
Proof.
  induction l as [|x l IH]; intros Hl; [done|].
  rewrite filter_cons, decide_False.
  - apply IH. intros y Hy. apply Hl. by apply list_elem_of_further.
  - rewrite (Hl x) by apply list_elem_of_here. by intros ?.
Qed.

(** X15: when the link query of every discovered GPU fails, or prints no
    status line, the test passes, and every row of the table has status OK
    and question marks for the negotiated speed and width: links that
    cannot be read are not reported. *)
Theorem unread_links_pass h gpus :
  discover_gpu_bdfs h = Ret gpus → gpus ≠ [] →
  (∀ g, g ∈ gpus →
     Forall (λ line, contains "LnkCap:" line = true
                     ∨ contains "LnkSta:" line = false)
            (splitlines (lspci_lnk h g))) →
  test_gpu_pcie_topology_and_links h = Ret ()
  ∧ ∃ st, test_body h = Ret st
          ∧ ∀ r, r ∈ rows st →
              status r = "OK" ∧ sta_s r = "?" ∧ sta_w r = "?".
Proof.
  intros Hd Hne Hlines. split.
  - rewrite test_result, Hd. destruct gpus as [|g gpus]; [done|]. cbv zeta.
    rewrite filter_none; [done|]. intros g' Hg'. unfold lane_downgraded.
    destruct (no_status_line_verdict h g' (Hlines g' Hg')) as (_ & _ & ->).
    by rewrite andb_false_r.
  - destruct (test_body_report h gpus Hd Hne) as (st & _ & Hst & _).
    exists st. split; [done|]. intros r Hr.
    destruct (test_body_rows h st r Hst Hr) as (gpus' & g & Hd' & Hg & Hrow).
    rewrite Hd in Hd'. injection Hd' as <-.
    apply appended_row_fields in Hrow
      as (_ & _ & Hv & _ & Hs & _ & Hw & _).
    destruct (no_status_line_verdict h g (Hlines g Hg)) as (Hs' & Hw' & Hv').
    rewrite Hv' in Hv. injection Hv as <-.
    by rewrite Hs, Hw, Hs', Hw'.
Qed.

Lemma py_index_bridge {A} (pre : list A) (x y : A) :
  py_index (pre ++ [x; y]) (-2) = Ret x.
Proof.
  unfold py_index. rewrite length_app. cbn [length].
  destruct (Z.ltb_spec (-2) 0) as [_|]; [|lia].
  destruct (Z.ltb_spec (-2 + Z.of_nat (length pre + 2)) 0) as [|_]; [lia|].
  replace (Z.to_nat (-2 + Z.of_nat (length pre + 2))) with (length pre + 0)%nat
    by lia.
  by rewrite lookup_app_r, Nat.add_0_r, Nat.sub_diag by lia.
Qed.

(** The row of a GPU with a bridge, from its chain and from the
    catalogue. *)
Lemma row_of_chain h gpus g root pre bridge endpoint d b v f :
  discover_gpu_bdfs h = Ret gpus → g ∈ gpus →
  head (get_chain_for_device h g) = Some root →
  get_chain_for_device h g = pre ++ [bridge; endpoint] →
  canonical_fields bridge = Some (d, b, v, f) →
  let slot := default "-" ((parse_dmi_slots h).1 !! dmi_key_from_bdf root) in
  ∃ st r, test_body h = Ret st ∧ r ∈ rows st ∧ bdf r = g
          ∧ slot_name r = slot_name_of slot v
          ∧ location r = location_of slot v.
Proof.
  intros Hd Hg Hroot Hchain Hbridge slot.
  assert (Hne : gpus ≠ []) by (intros ->; by apply elem_of_nil in Hg).
  destruct (test_body_report h gpus Hd Hne)
    as (st & _ & Hst & Hbdf & _ & Hrows & _).
  assert (Hb : has_bridge h g = true).
  { unfold has_bridge. rewrite Hchain, length_app. cbn [length].
    apply negb_true_iff, Nat.ltb_ge. lia. }
  assert (Hin : g ∈ bdf <$> rows st).
  { rewrite Hbdf. apply list_elem_of_filter. split; [by apply Is_true_true|done]. }
  apply list_elem_of_fmap in Hin as (r & Hr_bdf & Hr).
  exists st, r. split; [done|]. split; [done|]. split; [done|].
  destruct (test_body_rows h st r Hst Hr) as (gpus' & g' & _ & _ & Hrow).
  apply appended_row_fields in Hrow
    as (Hg' & _ & _ & _ & _ & _ & _ & _ & root' & bridge' & m
        & Hroot' & Hbridge' & Hm & Hslot & Hloc).
  rewrite Hg' in Hr_bdf. subst g'.
  rewrite Hchain, py_index_bridge in Hbridge'. injection Hbridge' as <-.
  destruct (get_chain_for_device h g) as [|root'' chain]; [discriminate Hroot|].
  injection Hroot as ->. rewrite py_index_first in Hroot'.
  injection Hroot' as <-.
  pose proof (bdf_match_canonical bridge d b v f "" Hbridge (or_introl eq_refl))
    as Hm'.
  rewrite append_empty_r, Hm in Hm'. injection Hm' as ->.
  done.
Qed.

Lemma known_bay_no_error slot v :
  riser_group_from_desig slot ∈ riser_groups → v ∈ ["00"; "01"] →
  contains "ERROR" (slot_name_of slot v) = false
  ∧ contains "ERROR" (location_of slot v) = false.
Proof.
  unfold slot_name_of, location_of.
  destruct (riser_group_from_desig slot) as [|c grp] eqn:Hgrp; clear Hgrp;
    intros Hgroup%riser_groups_cases Hv;
    rewrite !elem_of_cons, elem_of_nil in Hv.
  - destruct Hgroup as [? | [? | [? | ?]]]; discriminate.
  - destruct Hgroup as [Hg | [Hg | [Hg | Hg]]], Hv as [-> | [-> | []]];
      rewrite Hg; by vm_compute.
Qed.

(** X16: the row of a GPU with a bridge.  Its slot label and its location
    are computed from the designation the catalogue has for the key of the
    first address of the chain, or from [-] when it has none, and from the
    device field of the last address but one.  When that designation names
    one of the four risers and that device is 00 or 01, neither the label
    nor the location contains ERROR. *)
Theorem resolved_slot_row h gpus g root pre bridge endpoint d b v f :
  discover_gpu_bdfs h = Ret gpus → g ∈ gpus →
  head (get_chain_for_device h g) = Some root →
  get_chain_for_device h g = pre ++ [bridge; endpoint] →
  canonical_fields bridge = Some (d, b, v, f) →
  let slot := default "-" ((parse_dmi_slots h).1 !! dmi_key_from_bdf root) in
  ∃ st r, test_body h = Ret st ∧ r ∈ rows st ∧ bdf r = g
          ∧ slot_name r = slot_name_of slot v
          ∧ location r = location_of slot v
          ∧ (riser_group_from_desig slot ∈ riser_groups →
             v ∈ ["00"; "01"] →
             contains "ERROR" (slot_name r) = false
             ∧ contains "ERROR" (location r) = false).
Proof.
  intros Hd Hg Hroot Hchain Hbridge slot.
  destruct (row_of_chain h gpus g root pre bridge endpoint d b v f
              Hd Hg Hroot Hchain Hbridge)
    as (st & r & Hst & Hr & Hbdf & Hslot & Hloc).
  exists st, r. fold slot in Hslot, Hloc. rewrite Hslot, Hloc.
  repeat split; try done; by apply known_bay_no_error.
Qed.

End RunReport.

(** ** The shape of the catalogue and of its keys *)

Section Catalogue.

Lemma busaddr_match_inv before s m :
  match_at true busaddr_re before s = Some m →
  is_bus_address (group m 1) = true.
Proof.
  unfold match_at, busaddr_re, times, star. intros H. cbn in H.
  destruct (at_bol true _); [|discriminate H].
  apply rep_go_inv in H as (ws & s1 & -> & _ & _ & H).
  rewrite advance_rest in H by reflexivity.
  do 12 next_char H.
  apply rep_go_inv in H as (ws2 & s2 & -> & _ & _ & H).
  rewrite advance_rest in H by reflexivity. cbn in H.
  do 12 next_char H.
  destruct (at_eol true _); [|discriminate H].
  injection H as <-. unfold group. cbn.
  repeat match goal with E : _ = true |- _ => rewrite E; clear E end.
  reflexivity.
Qed.

Lemma lstrip_split p s :
  ∃ ws, s = ws +:+ lstrip_with p s ∧ all_chars p ws = true.
Proof.
  induction s as [|c s (ws & IH & Hws)]; [by exists ""|].
  cbn [lstrip_with]. destruct (p c) eqn:Hc.
  - exists (String c ws). rewrite append_cons, <- IH. cbn. by rewrite Hc, Hws.
  - by exists "".
Qed.

Lemma lstrip_head p s :
  match lstrip_with p s with "" => True | String c _ => p c = false end.
Proof.
  induction s as [|c s IH]; [done|]. cbn [lstrip_with].
  by destruct (p c) eqn:Hc.
Qed.

Lemma lstrip_fixed p s :
  match s with "" => True | String c _ => p c = false end →
  lstrip_with p s = s.
Proof. destruct s as [|c s]; [done|]. cbn. by intros ->. Qed.

(** [strip] leaves nothing to strip. *)
Lemma strip_with_idemp p s : strip_with p (strip_with p s) = strip_with p s.
Proof.
  unfold strip_with at 2 3.
  pose proof (lstrip_head p s) as Ht.
  destruct (lstrip_split p (String.rev (lstrip_with p s))) as (ws & Hu & Hws).
  pose proof (lstrip_head p (String.rev (lstrip_with p s))) as Hhead.
  set (t := lstrip_with p s) in *.
  set (u := lstrip_with p (String.rev t)) in *.
  assert (Ht' : t = String.rev u +:+ String.rev ws).
  { by rewrite <- rev_str_app, <- Hu, rev_str_involutive. }
  unfold strip_with. rewrite (lstrip_fixed p (String.rev u)).
  - rewrite rev_str_involutive. by rewrite (lstrip_fixed p u).
  - destruct u as [|c u]; [done|].
    rewrite rev_str_cons in *.
    destruct (String.rev u) as [|c' u']; rewrite Ht' in Ht; exact Ht.
Qed.

Lemma block_field_stripped r block (d : string) :
  (λ m, strip (group m 1)) <$> re_search true r block = Some d →
  strip d = d.
Proof.
  destruct (re_search true r block) as [m|]; [|discriminate].
  intros [= <-]. apply strip_with_idemp.
Qed.

Lemma block_bus_address_shape block a :
  block_bus_address block = Some a → is_bus_address a = true.
Proof.
  unfold block_bus_address, re_search.
  destruct (search_from true busaddr_re None block) as [m|] eqn:Hm;
    [|discriminate].
  intros [= <-]. apply search_from_inv in Hm as (before & s & Hm).
  by apply busaddr_match_inv in Hm.
Qed.

Lemma dmi_block_inv st block :
  catalogue_inv st → catalogue_inv (dmi_block st block).
Proof.
  intros (Hd & Ht & Hdom & Hdesig & Htype). unfold dmi_block.
  destruct (negb (truthy (strip block))); [done|].
  assert (Hcd : strip (default (current_designation st)
                         (block_designation block))
                = default (current_designation st) (block_designation block)).
  { destruct (block_designation block) as [d|] eqn:Hb; [|done].
    by apply block_field_stripped in Hb. }
  assert (Hct : strip (default (current_type st) (block_type block))
                = default (current_type st) (block_type block)).
  { destruct (block_type block) as [t|] eqn:Hb; [|done].
    by apply block_field_stripped in Hb. }
  destruct (block_bus_address block) as [a|] eqn:Ha; [|done].
  destruct (truthy _) eqn:Hcd'; [|done].
  apply truthy_ne in Hcd'. apply block_bus_address_shape in Ha.
  split; [done|]. split; [done|]. cbn [DMI_DESIG DMI_TYPE]. split.
  { by rewrite !dom_insert_L, Hdom. }
  split.
  - by apply map_Forall_insert_2.
  - apply map_Forall_insert_2; [|done]. unfold str_or.
    destruct (truthy _) eqn:Hct'; [|done].
    apply truthy_ne in Hct'. done.
Qed.

Lemma dmi_scan_inv blocks st :
  catalogue_inv st → catalogue_inv (dmi_scan blocks st).
Proof.
  revert st. induction blocks as [|block blocks IH]; intros st Hst; [done|].
  apply IH. by apply dmi_block_inv.
Qed.

(** X17: the catalogue [parse_dmi_slots] returns, whatever the firmware
    table is.  The two dictionaries have the same keys; each key has the
    shape of a bus address, [hhhh:hh:hh.h]; each designation and each type
    is a non-empty text without blanks at its ends. *)
Theorem catalogue_invariant h :
  dom (parse_dmi_slots h).1 = dom (parse_dmi_slots h).2
  ∧ (∀ a d, (parse_dmi_slots h).1 !! a = Some d →
       d ≠ "" ∧ strip d = d ∧ is_bus_address a = true)
  ∧ (∀ a t, (parse_dmi_slots h).2 !! a = Some t → t ≠ "" ∧ strip t = t).
Proof.
  unfold parse_dmi_slots. destruct (dmidecode_installed h); cbn [negb fst snd].
  - destruct (dmi_scan_inv (dmi_blocks (dmidecode_t9 h)) dmi_init)
      as (_ & _ & Hdom & Hdesig & Htype).
    { repeat split; try done; apply map_Forall_empty. }
    split; [done|]. split.
    + intros a d Had. by apply (Hdesig a d).
    + intros a t Hat. by apply (Htype a t).
  - split; [done|]. split; intros a x Hx; by rewrite lookup_empty in Hx.
Qed.

Lemma catalogue_invariant_witness :
  "PCIE_3_SLOT2" ≠ "" ∧ strip "PCIE_3_SLOT2" = "PCIE_3_SLOT2"
  ∧ is_bus_address "003a:00:00.0" = true.
Proof.
  apply (proj1 (proj2 (catalogue_invariant sample_host))).
  vm_compute. reflexivity.
Defined.

Lemma lower_app s t : lower (s +:+ t) = lower s +:+ lower t.
Proof.
  induction s as [|c s IH]; [done|]. rewrite append_cons. cbn [lower].
  by rewrite IH, append_cons.
Qed.

Lemma format_x_lower n :
  (n < 256)%N →
  lower (format_x 2 n) = format_x 2 n ∧ lower (format_x 4 n) = format_x 4 n.
Proof.
  intros Hn.
  assert (Hall : forallb (λ k,
    String.eqb (lower (format_x 2 (N.of_nat k))) (format_x 2 (N.of_nat k))
    && String.eqb (lower (format_x 4 (N.of_nat k))) (format_x 4 (N.of_nat k)))
    (seq 0 256) = true) by (vm_compute; reflexivity).
  rewrite forallb_forall in Hall.
  specialize (Hall (N.to_nat n)). rewrite N2Nat.id in Hall.
  assert (Hin : In (N.to_nat n) (seq 0 256)) by (apply in_seq; lia).
  apply Hall in Hin. apply andb_true_iff in Hin as [H2 H4].
  by apply String.eqb_eq in H2, H4.
Qed.

Lemma oct_char f :
  is_oct f = true → is_hex f = true ∧ lower_char f = f.
Proof.
  destruct f as [[] [] [] [] [] [] [] []]; try discriminate;
    intros _; by vm_compute.
Qed.

Lemma canonical_bus_address s d b v f :
  canonical_fields s = Some (d, b, v, f) → is_bus_address s = true.
Proof.
  intros Hs. apply canonical_fields_inv in Hs
    as (d1 & d2 & d3 & d4 & b1 & b2 & v1 & v2 & f1 & -> & _ & _ & _ & _
        & H1 & H2 & H3 & H4 & H5 & H6 & H7 & H8 & H9).
  apply oct_char in H9 as [H9 _]. cbn.
  by rewrite H1, H2, H3, H4, H5, H6, H7, H8, H9.
Qed.

(** X18: the key [dmi_key_from_bdf] returns is empty, for a text that is
    not an address, or else has the shape of the keys of the catalogue and
    is written in lower case: the catalogue is looked up with keys of its
    own shape, and a record whose Bus Address has an upper-case digit is
    never found. *)
Theorem firmware_key_shape bdf :
  dmi_key_from_bdf bdf = ""
  ∨ (is_bus_address (dmi_key_from_bdf bdf) = true
     ∧ lower (dmi_key_from_bdf bdf) = dmi_key_from_bdf bdf).
Proof.
  destruct (re_match false bdf_re bdf) as [m|] eqn:Hm.
  2:{ left. unfold dmi_key_from_bdf. by rewrite Hm. }
  right. apply bdf_match_inv in Hm as (d & b & v & f & Hc & _ & -> & Htail).
  destruct (dmi_key_text _ _ _ _ _ _ Hc Htail) as (Hkey & _ & Hkc & _).
  split; [by eapply canonical_bus_address|].
  rewrite Hkey.
  apply canonical_fields_inv in Hc
    as (d1 & d2 & d3 & d4 & b1 & b2 & v1 & v2 & f1 & _ & _ & -> & -> & ->
        & _ & _ & _ & _ & _ & _ & _ & _ & H9).
  destruct (format_x_lower _ (int16_byte b1 b2)) as [_ Hb].
  destruct (format_x_lower _ (int16_byte v1 v2)) as [Hv _].
  apply oct_char in H9 as [_ Hf].
  rewrite !lower_app, Hb, Hv. cbn [lower]. rewrite Hf. reflexivity.
Qed.

End Catalogue.

(** ** Short device name *)

Section ShortName.

(** The prefix pattern on a text with a colon: what is left is the text
    after the first colon, without the blanks at its head. *)
Lemma name_prefix_match bus rest1 :
  all_chars not_colon bus = true →
  ∃ m, re_match false name_prefix_re (bus +:+ ":" +:+ rest1) = Some m
       ∧ m_rest m = lstrip_with is_space rest1.
Proof.
  intros Hbus. unfold re_match, match_at, name_prefix_re, star. cbn.
  destruct (lstrip_split is_space rest1) as (ws & Hrest & Hws).
  pose proof (lstrip_head is_space rest1) as Hhead.
  eexists. split.
  - apply rep_go_greedy; [done|by vm_compute|lia|].
    rewrite advance_rest by reflexivity.
    cbv [String.append]; fold String.append. rewrite Ascii.eqb_refl.
    rewrite Hrest at 1.
    apply rep_go_greedy; [done|done|lia|reflexivity].
  - cbn [m_rest]. apply advance_rest. cbn [rest step_char]. done.
Qed.

Lemma strip_lstrip p s : strip_with p (lstrip_with p s) = strip_with p s.
Proof.
  unfold strip_with. by rewrite (lstrip_fixed p (lstrip_with p s))
    by apply lstrip_head.
Qed.

(** The revision pattern needs a parenthesis after the character it
    starts at. *)
Lemma revision_no_match before c s :
  match s with String c' _ => not_paren c' = true | "" => True end →
  match_at false revision_re before (String c s) = None.
Proof.
  intros Hs. unfold match_at, revision_re, star. cbn.
  destruct (is_space c); [|done].
  destruct s as [|c' s]; [done|]. cbn.
  unfold not_paren in Hs. apply negb_true_iff in Hs.
  rewrite Ascii.eqb_sym in Hs. by rewrite Hs.
Qed.

Lemma split_skip_plain w t before cur :
  all_chars not_paren w = true →
  match t with String c' _ => not_paren c' = true | "" => True end →
  ∃ before',
    split_from revision_re before (w +:+ t) 0 cur
    = split_from revision_re before' t 0 (String.rev w +:+ cur).
Proof.
  revert before cur. induction w as [|c w IH]; intros before cur Hw Ht.
  { by exists before. }
  cbn in Hw. apply andb_true_iff in Hw as [Hc Hw].
  rewrite append_cons. cbn [split_from].
  rewrite revision_no_match.
  - destruct (IH (Some c) (String c cur) Hw Ht) as [before' ->].
    exists before'. by rewrite rev_str_cons, append_assoc_str.
  - destruct w as [|c' w]; [exact Ht|]. cbn in Hw.
    by apply andb_true_iff in Hw as [? _].
Qed.

Lemma split_skip_all r before s :
  split_from r before s (String.length s) "" = [""].
Proof.
  revert before. induction s as [|c s IH]; intros before; [done|].
  cbn [String.length split_from]. apply IH.
Qed.

Lemma rep_go_greedy_end {R} p lo w st (k : mstate → option R) r :
  all_chars p w = true → (lo ≤ String.length w)%nat →
  k (advance w "" st) = Some r →
  rep_go p lo None w st k = Some r.
Proof.
  intros Hw Hlo Hk. rewrite <- (append_empty_r w) at 1.
  by apply rep_go_greedy.
Qed.

Lemma revision_match before rv word :
  all_chars not_nl rv = true → word = "rev" ∨ word = "prog-if" →
  ∃ m, match_at false revision_re before (" (" +:+ word +:+ rv) = Some m
       ∧ m_text m = " (" +:+ word +:+ rv.
Proof.
  intros Hrv Hword. unfold match_at, revision_re, star.
  change (is_space " ") with true.
  destruct Hword as [-> | ->]; cbv [String.append]; fold String.append;
    repeat (cbn; eqb_lit); change (is_space " ") with true; cbv iota.
  - eexists. split.
    + erewrite rep_go_greedy_end; [reflexivity|done|lia|].
      unfold at_eol. rewrite advance_rest by (by rewrite append_empty_r).
      reflexivity.
    + cbn [m_text]. rewrite advance_acc. cbn [acc step_char].
      rewrite rev_str_app, rev_str_involutive. reflexivity.
  - eexists. split.
    + erewrite rep_go_greedy_end; [reflexivity|done|lia|].
      unfold at_eol. rewrite advance_rest by (by rewrite append_empty_r).
      reflexivity.
    + cbn [m_text]. rewrite advance_acc. cbn [acc step_char].
      rewrite rev_str_app, rev_str_involutive. reflexivity.
Qed.

(** [re.sub] removes the revision at the end of a text that has no
    other parenthesis. *)
Lemma revision_removed w t :
  all_chars not_paren w = true → is_revision t →
  re_sub_empty revision_re (w +:+ t) = w.
Proof.
  intros Hw Ht. unfold re_sub_empty.
  assert (Hsplit : ∀ word rv, all_chars not_nl rv = true →
            word = "rev" ∨ word = "prog-if" →
            concat_str (split_from revision_re None
                          (w +:+ " (" +:+ word +:+ rv) 0 "") = w).
  { intros word rv Hrv Hword.
    destruct (split_skip_plain w (" (" +:+ word +:+ rv) None "" Hw)
      as [before' ->]; [done|].
    destruct (revision_match before' rv word Hrv Hword) as (m & Hm & Htext).
    revert Hm Htext. cbv [String.append]; fold String.append.
    intros Hm Htext. cbn [split_from]. rewrite Hm, Htext.
    cbn [String.length]. rewrite split_skip_all. cbn [concat_str].
    by rewrite !append_empty_r, rev_str_involutive. }
  destruct Ht as [-> | (rv & Hrv & [-> | ->])].
  - destruct (split_skip_plain w "" None "" Hw) as [before' ->]; [done|].
    cbn [split_from concat_str].
    by rewrite !append_empty_r, rev_str_involutive.
  - exact (Hsplit "rev" rv Hrv (or_introl eq_refl)).
  - exact (Hsplit "prog-if" rv Hrv (or_intror eq_refl)).
Qed.

Lemma all_chars_impl (p q : ascii → bool) s :
  (∀ c, p c = true → q c = true) → all_chars p s = true → all_chars q s = true.
Proof.
  intros Hpq. induction s as [|c s IH]; [done|]. cbn.
  intros [Hc Hs]%andb_true_iff. by rewrite (Hpq c Hc), IH.
Qed.

Lemma token_skip_plain p t before :
  all_chars not_lbracket p = true →
  ∃ before', findall_from token_re before (p +:+ t) 0
             = findall_from token_re before' t 0.
Proof.
  revert before. induction p as [|c p IH]; intros before Hp.
  { by exists before. }
  cbn in Hp. apply andb_true_iff in Hp as [Hc Hp].
  destruct (IH (Some c) Hp) as [before' IH'].
  exists before'. rewrite append_cons, findall_skip; [done|].
  unfold match_at, token_re, plus. cbn.
  unfold not_lbracket in Hc. apply negb_true_iff in Hc.
  rewrite Ascii.eqb_sym in Hc. by rewrite Hc.
Qed.

Lemma findall_skip_n r before w t :
  ∃ before', findall_from r before (w +:+ t) (String.length w)
             = findall_from r before' t 0.
Proof.
  revert before. induction w as [|c w IH]; intros before.
  { by exists before. }
  destruct (IH (Some c)) as [before' IH']. exists before'.
  by rewrite append_cons.
Qed.

Lemma token_match before tok t :
  tok ≠ "" → all_chars not_rbracket tok = true →
  match_at false token_re before ("[" +:+ tok +:+ "]" +:+ t)
  = Some (RMatch (bracketed tok) [] t).
Proof.
  intros Hne Htok. unfold match_at, token_re, plus.
  cbv [String.append]; fold String.append. cbn. eqb_lit. cbv iota.
  change (rest (step_char ?c ?s ?st)) with s.
  erewrite rep_go_greedy; [reflexivity|done|by vm_compute| |].
  { destruct tok; [done|cbn; lia]. }
  rewrite advance_rest by reflexivity. rewrite Ascii.eqb_refl.
  unfold step_char. cbn [acc caps rest prev]. rewrite advance_acc, advance_caps.
  cbn [acc caps]. change (String "]" (String.rev tok +:+ "["))
    with (String.rev "]" +:+ (String.rev tok +:+ String.rev "[")).
  rewrite <- !rev_str_app. by rewrite rev_str_involutive.
Qed.

Lemma token_take before tok t :
  tok ≠ "" → all_chars not_rbracket tok = true →
  ∃ before', findall_from token_re before (bracketed tok +:+ t) 0
             = bracketed tok :: findall_from token_re before' t 0.
Proof.
  intros Hne Htok. pose proof (token_match before tok t Hne Htok) as Hm.
  unfold bracketed. rewrite !append_assoc_str.
  revert Hm. cbv [String.append]; fold String.append. intros Hm.
  cbn [findall_from]. rewrite Hm. cbn [m_text].
  destruct (findall_skip_n token_re (Some "["%char) (tok +:+ "]") t)
    as [before' Hskip].
  exists before'. rewrite <- Hskip. f_equal.
  rewrite append_assoc_str. unfold bracketed. reflexivity.
Qed.

Lemma plain_chars c :
  plain c = true → not_lbracket c = true ∧ not_paren c = true.
Proof. unfold plain. by intros ?%andb_true_iff. Qed.

Lemma token_chars c :
  token_char c = true → not_rbracket c = true ∧ not_paren c = true.
Proof. unfold token_char. by intros ?%andb_true_iff. Qed.

Lemma hex_chars c :
  is_hex c = true → not_rbracket c = true ∧ not_paren c = true.
Proof.
  destruct c as [[] [] [] [] [] [] [] []]; try discriminate;
    intros _; by vm_compute.
Qed.

Lemma tokens_of_segments segs t before :
  Forall plain_segment segs →
  ∃ before', findall_from token_re before (segments segs +:+ t) 0
             = (bracketed <$> segs.*2) ++ findall_from token_re before' t 0.
Proof.
  intros Hsegs. revert before.
  induction Hsegs as [|[p tok] segs (Hp & Hne & Htok & _) _ IH]; intros before.
  { by exists before. }
  cbn [fst snd] in *. unfold segments. cbn [map concat_str fst snd].
  fold (segments segs). rewrite !append_assoc_str.
  destruct (token_skip_plain p (bracketed tok +:+ segments segs +:+ t) before)
    as [b1 ->].
  { eapply all_chars_impl; [|exact Hp]. intros c. apply plain_chars. }
  destruct (token_take b1 tok (segments segs +:+ t)) as [b2 ->]; [done| |].
  { eapply all_chars_impl; [|exact Htok]. intros c. apply token_chars. }
  destruct (IH b2) as [before' ->]. by exists before'.
Qed.

Lemma id_token_match vid did :
  all_chars is_hex vid = true → String.length vid = 4%nat →
  all_chars is_hex did = true → String.length did = 4%nat →
  is_Some (re_match false id_token_re (bracketed (vid +:+ ":" +:+ did))).
Proof.
  intros Hv Hlv Hd Hld.
  destruct vid as [|v1 [|v2 [|v3 [|v4 [|]]]]]; try discriminate Hlv.
  destruct did as [|d1 [|d2 [|d3 [|d4 [|]]]]]; try discriminate Hld.
  cbn in Hv, Hd. rewrite !andb_true_iff in Hv, Hd.
  destruct Hv as (? & ? & ? & ? & _), Hd as (? & ? & ? & ? & _).
  unfold re_match, match_at, id_token_re, times, bracketed.
  cbv [String.append].
  repeat (cbn; first [ rewrite Ascii.eqb_refl
                     | match goal with E : _ = true |- _ => rewrite E end ]).
  eauto.
Qed.

Lemma name_of_tokens previous toks x :
  Forall (λ t, re_match false id_token_re t = None) toks →
  is_Some (re_match false id_token_re x) →
  name_from_tokens previous (toks ++ [x])
  = Some (match last toks, previous with
          | Some p, _ | None, Some p => p +:+ " " +:+ x
          | None, None => x
          end).
Proof.
  intros Htoks [m Hx]. revert previous.
  induction Htoks as [|t toks Ht _ IH]; intros previous.
  { cbn [app name_from_tokens last]. by rewrite Hx. }
  cbn [app name_from_tokens]. rewrite Ht, IH.
  rewrite last_cons. by destruct (last toks).
Qed.

Lemma segments_no_paren segs :
  Forall plain_segment segs → all_chars not_paren (segments segs) = true.
Proof.
  induction 1 as [|[p tok] segs (Hp & _ & Htok & _) _ IH]; [done|].
  cbn [fst snd] in *. unfold segments. cbn [map concat_str fst snd].
  fold (segments segs). unfold bracketed.
  rewrite !all_chars_app, IH.
  rewrite (all_chars_impl plain not_paren p)
    by first [done | intros c; apply plain_chars].
  rewrite (all_chars_impl token_char not_paren tok)
    by first [done | intros c; apply token_chars].
  reflexivity.
Qed.

(** X19: the short name of a GPU whose listing line has the usual form.
    After the first colon and without the blanks around it, the line is
    made of bracketed tokens with plain text between them, none of them a
    vendor and device identifier, then of such an identifier in brackets,
    and possibly of a revision in parentheses.  The name is the identifier,
    preceded by the last token before it when there is one: the model name
    when the line has one, and otherwise the class code. *)
Theorem short_name_of_listing_line h g bus rest1 segs text vid did revision :
  lspci_nn_head h g = bus +:+ ":" +:+ rest1 →
  all_chars not_colon bus = true →
  strip rest1
  = segments segs +:+ text +:+ bracketed (vid +:+ ":" +:+ did) +:+ revision →
  Forall plain_segment segs →
  all_chars plain text = true →
  all_chars is_hex vid = true ∧ String.length vid = 4%nat →
  all_chars is_hex did = true ∧ String.length did = 4%nat →
  is_revision revision →
  get_gpu_short_name h g
  = match last segs with
    | Some pt => bracketed pt.2 +:+ " " +:+ bracketed (vid +:+ ":" +:+ did)
    | None => bracketed (vid +:+ ":" +:+ did)
    end.
Proof.
  intros Hline Hbus Hstrip Hsegs Htext [Hvid Hlvid] [Hdid Hldid] Hrev.
  set (id := vid +:+ ":" +:+ did) in *.
  assert (Hid : all_chars is_hex vid = true → all_chars is_hex did = true →
                all_chars not_rbracket id = true
                ∧ all_chars not_paren id = true).
  { intros Hv Hd. unfold id. rewrite !all_chars_app.
    rewrite (all_chars_impl is_hex not_rbracket vid)
      by first [done | intros c; apply hex_chars].
    rewrite (all_chars_impl is_hex not_rbracket did)
      by first [done | intros c; apply hex_chars].
    rewrite (all_chars_impl is_hex not_paren vid)
      by first [done | intros c; apply hex_chars].
    rewrite (all_chars_impl is_hex not_paren did)
      by first [done | intros c; apply hex_chars].
    done. }
  destruct (Hid Hvid Hdid) as [Hid1 Hid2].
  assert (Hne : id ≠ "").
  { unfold id. destruct vid; [discriminate Hlvid|discriminate]. }
  unfold get_gpu_short_name. rewrite Hline.
  destruct (name_prefix_match bus rest1 Hbus) as (m & -> & ->).
  unfold strip in *. rewrite strip_lstrip, Hstrip.
  replace (segments segs +:+ text +:+ bracketed id +:+ revision)
    with ((segments segs +:+ text +:+ bracketed id) +:+ revision)
    by (by rewrite !append_assoc_str).
  rewrite revision_removed; [|  |done].
  2:{ unfold bracketed. rewrite !all_chars_app.
      rewrite (segments_no_paren segs Hsegs), Hid2.
      rewrite (all_chars_impl plain not_paren text)
        by first [done | intros c; apply plain_chars].
      reflexivity. }
  unfold re_findall.
  destruct (tokens_of_segments segs (text +:+ bracketed id) None Hsegs)
    as [b1 ->].
  destruct (token_skip_plain text (bracketed id) b1) as [b2 ->].
  { eapply all_chars_impl; [|exact Htext]. intros c. apply plain_chars. }
  rewrite <- (append_empty_r (bracketed id)) at 1.
  destruct (token_take b2 id "" Hne Hid1) as [b3 ->].
  change (findall_from token_re b3 "" 0) with (@nil string).
  rewrite name_of_tokens.
  - rewrite fmap_last, fmap_last. by destruct (last segs) as [[p tok]|].
  - apply Forall_fmap, Forall_fmap. eapply Forall_impl; [exact Hsegs|].
    by intros [p tok] (_ & _ & _ & ?).
  - by apply id_token_match.
Qed.

Lemma short_name_of_listing_line_witness :
  get_gpu_short_name sample_host "3b:00.0" = "[A100 PCIe 40GB] [10de:20f1]".
Proof.
  apply (short_name_of_listing_line sample_host "3b:00.0" "3b"
           ("00.0 3D controller [0302]: NVIDIA Corporation GA100 "
              +:+ "[A100 PCIe 40GB] [10de:20f1] (rev a1)" +:+ nl)
           [("00.0 3D controller ", "0302");
            (": NVIDIA Corporation GA100 ", "A100 PCIe 40GB")]
           " " "10de" "20f1" " (rev a1)").
  - reflexivity.
  - reflexivity.
  - vm_compute. reflexivity.
  - repeat constructor; try (vm_compute; reflexivity); discriminate.
  - reflexivity.
  - split; reflexivity.
  - split; reflexivity.
  - right. exists " a1)". split; [reflexivity|]. left. reflexivity.
Defined.

End ShortName.

(** ** Lines of the listing *)

Section ListingLines.

Lemma listing_line_match d b v f ws text :
  canonical_fields (d +:+ ":" +:+ b +:+ ":" +:+ v +:+ "." +:+ f)
  = Some (d, b, v, f) →
  ws ≠ "" → all_chars is_space ws = true →
  all_chars not_nl text = true →
  match text with String c _ => is_space c = false | "" => True end →
  ∃ m, re_match false lspci_line_re
         (d +:+ ":" +:+ b +:+ ":" +:+ v +:+ "." +:+ f +:+ ws +:+ text)
       = Some m
       ∧ group m 2 = b +:+ ":" +:+ v +:+ "." +:+ f ∧ group m 3 = text.
Proof.
  intros Hc Hne Hws Htext Hhead.
  apply canonical_fields_inv in Hc
    as (d1 & d2 & d3 & d4 & b1 & b2 & v1 & v2 & f1 & _ & -> & -> & -> & ->
        & H1 & H2 & H3 & H4 & H5 & H6 & H7 & H8 & H9).
  unfold re_match, match_at, lspci_line_re, times, plus, star.
  cbv [String.append]; fold String.append.
  repeat (cbn; first [ rewrite Ascii.eqb_refl
                     | match goal with E : _ = true |- _ => rewrite E end ]).
  match goal with
  | |- context [rep_go is_space 1 None _ ?st ?k] =>
      assert (Hk : ∃ m, k (advance ws text st) = Some m
                        ∧ group m 2
                          = String b1 (String b2 (String ":" (String v1
                              (String v2 (String "." (String f1 ""))))))
                        ∧ group m 3 = text)
  end.
  { rewrite advance_rest by reflexivity. eexists. split.
    - erewrite rep_go_greedy_end; [reflexivity|done|lia|].
      unfold at_eol. cbn [rest].
      rewrite advance_rest by (cbn [rest]; by rewrite append_empty_r).
      reflexivity.
    - unfold group. cbn [m_caps]. rewrite !advance_caps, advance_acc.
      cbn [caps acc lookup_cap Nat.eqb].
      by rewrite append_empty_r, rev_str_involutive. }
  destruct Hk as (m & Hk & Hg2 & Hg3). exists m.
  erewrite rep_go_greedy; [done|done|exact Hhead| |exact Hk].
  destruct ws; [done|cbn; lia].
Qed.

(** X20: a line of the listing that starts with a canonical address,
    followed by blanks and by a text, is accepted exactly when the line
    names the vendor 10de, in either case, and the text has one of the two
    class codes or one of the two class names; the address without its
    domain is then what discovery collects. *)
Theorem gpu_line_of_listing_line d b v f ws text :
  canonical_fields (d +:+ ":" +:+ b +:+ ":" +:+ v +:+ "." +:+ f)
  = Some (d, b, v, f) →
  ws ≠ "" → all_chars is_space ws = true →
  all_chars not_nl text = true →
  match text with String c _ => is_space c = false | "" => True end →
  gpu_line (d +:+ ":" +:+ b +:+ ":" +:+ v +:+ "." +:+ f +:+ ws +:+ text)
  = if contains "[10de:"
         (lower (d +:+ ":" +:+ b +:+ ":" +:+ v +:+ "." +:+ f +:+ ws +:+ text))
       && (contains "[0300]" text || contains "[0302]" text
           || contains "VGA compatible controller" text
           || contains "3D controller" text)
    then Some (b +:+ ":" +:+ v +:+ "." +:+ f)
    else None.
Proof.
  intros Hc Hne Hws Htext Hhead. unfold gpu_line.
  destruct (contains "[10de:" _); [|done]. cbn [negb andb].
  destruct (listing_line_match d b v f ws text Hc Hne Hws Htext Hhead)
    as (m & -> & -> & ->).
  reflexivity.
Qed.

Lemma gpu_line_of_listing_line_witness :
  gpu_line "0000:3b:00.0 3D controller [0302]: NVIDIA Corporation GA100 [A100 PCIe 40GB] [10de:20f1] (rev a1)"
  = Some "3b:00.0".
Proof.
  apply (gpu_line_of_listing_line "0000" "3b" "00" "0" " "
           "3D controller [0302]: NVIDIA Corporation GA100 [A100 PCIe 40GB] [10de:20f1] (rev a1)").
  - reflexivity.
  - discriminate.
  - reflexivity.
  - reflexivity.
  - reflexivity.
Defined.

End ListingLines.

(** ** The usual output of the link query *)

Section LinkOutput.

Lemma lit_go_fail l st :
  starts_with l (rest st) = false → lit_go l st = None.
Proof.
  revert st. induction l as [|a l IH]; intros st; [discriminate|].
  cbn [lit_go starts_with]. destruct (rest st) as [|c s]; [done|].
  destruct (Ascii.eqb a c); [|done]. cbn [andb]. intros Hs. by apply IH.
Qed.

(** [re.search] passes over the positions where the literal the pattern
    starts with does not occur. *)
Lemma search_skip_lit l r a s before :
  starts_in l a s = false →
  ∃ before', search_from false (Lit l ⋅ r) before (a +:+ s)
             = search_from false (Lit l ⋅ r) before' s.
Proof.
  revert before. induction a as [|c a IH]; intros before Ha.
  { by exists before. }
  cbn [starts_in] in Ha. apply orb_false_iff in Ha as [Hhere Ha].
  destruct (IH (Some c) Ha) as [before' IH']. exists before'.
  rewrite append_cons. cbn [search_from].
  rewrite append_cons in Hhere.
  assert (match_at false (Lit l ⋅ r) before (String c (a +:+ s)) = None) as ->.
  { unfold match_at. cbn [exec]. by rewrite lit_go_fail. }
  exact IH'.
Qed.

Lemma search_found r before s m :
  match_at false r before s = Some m → search_from false r before s = Some m.
Proof. intros Hm. destruct s; cbn [search_from]; by rewrite Hm. Qed.

Lemma width_search line width old :
  width_at line width → search_group1 width_re line old = width.
Proof.
  intros (a & t & -> & Ha & Hne & Hw & Ht).
  unfold search_group1, re_search, width_re.
  destruct (search_skip_lit "Width x" (Grp 1 (plus is_digit)) a
              ("Width x" +:+ width +:+ t) None Ha) as [before' ->].
  assert (Hm : match_at false (Lit "Width x" ⋅ Grp 1 (plus is_digit)) before'
                 ("Width x" +:+ width +:+ t)
               = Some (RMatch ("Width x" +:+ width) [(1, width)] t)).
  { unfold match_at, plus. cbv [String.append]; fold String.append.
    cbn. eqb_lit. cbv iota. change (rest (step_char ?c ?s ?st)) with s.
    erewrite rep_go_greedy; [reflexivity|done|exact Ht| |].
    { destruct width; [done|cbn; lia]. }
    rewrite advance_rest, advance_acc, advance_caps by reflexivity.
    cbn [acc caps step_char]. rewrite append_empty_r, rev_str_involutive.
    change (String.rev_app ?x "") with (String.rev x).
    rewrite rev_str_app, rev_str_involutive. reflexivity. }
  by rewrite (search_found _ _ _ _ Hm).
Qed.

Lemma speed_search line speed old :
  speed_at line speed → search_group1 speed_re line old = speed.
Proof.
  intros (a & ws & t & -> & Ha & Hwne & Hws & Hne & Hs).
  unfold search_group1, re_search, speed_re.
  destruct (search_skip_lit "Speed"
              (plus is_space ⋅ Grp 1 (plus is_digit_or_dot) ⋅ Lit "GT/s") a
              ("Speed" +:+ ws +:+ speed +:+ "GT/s" +:+ t) None Ha)
    as [before' ->].
  assert (Hm : ∃ m,
            match_at false
              (Lit "Speed" ⋅ plus is_space ⋅ Grp 1 (plus is_digit_or_dot)
                 ⋅ Lit "GT/s") before'
              ("Speed" +:+ ws +:+ speed +:+ "GT/s" +:+ t) = Some m
            ∧ group m 1 = speed).
  { unfold match_at, plus. cbv [String.append]; fold String.append.
    cbn. eqb_lit. cbv iota. change (rest (step_char ?c ?s ?st)) with s.
    assert (Hhead : match speed +:+ String "G" (String "T" (String "/"
                            (String "s" t))) with
                    | "" => True
                    | String c _ => is_space c = false
                    end).
    { destruct speed as [|c speed]; [done|]. cbn in Hs.
      apply andb_true_iff in Hs as [Hc _]. rewrite append_cons.
      revert Hc. clear.
      destruct c as [[] [] [] [] [] [] [] []]; by vm_compute. }
    set (tail := String "G" (String "T" (String "/" (String "s" t)))) in *.
    match goal with
    | |- context [rep_go is_space 1 None _ ?st ?k] =>
        assert (Hk : ∃ m, k (advance ws (speed +:+ tail) st) = Some m
                          ∧ group m 1 = speed)
    end.
    { rewrite advance_rest by reflexivity. cbn [rest].
      eexists. split.
      - erewrite rep_go_greedy; [reflexivity|done|by vm_compute| |].
        { destruct speed; [done|cbn; lia]. }
        cbn [rest]. rewrite advance_rest by reflexivity.
        unfold tail. cbn. eqb_lit. cbv iota. reflexivity.
      - unfold group. cbn [m_caps step_char caps lookup_cap Nat.eqb].
        rewrite advance_acc. cbn [acc].
        by rewrite append_empty_r, rev_str_involutive. }
    destruct Hk as (m & Hk & Hg). exists m. split; [|done].
    apply rep_go_greedy; [done|exact Hhead| |exact Hk].
    destruct ws; [done|cbn; lia]. }
  destruct Hm as (m & Hm & Hg). by rewrite (search_found _ _ _ _ Hm).
Qed.

(** X21: the fields of the usual output of the link query, one capability
    line followed by one status line.  From each line [get_link_fields]
    takes the speed between the first [Speed] and [GT/s] and the digits
    after the first [Width x]. *)
Theorem link_fields_of_output h g capline staline cs cw ss sw :
  splitlines (lspci_lnk h g) = [capline; staline] →
  contains "LnkCap:" capline = true →
  contains "LnkCap:" staline = false →
  contains "LnkSta:" staline = true →
  speed_at capline cs → width_at capline cw →
  speed_at staline ss → width_at staline sw →
  get_link_fields h g = LinkFields cs cw ss sw.
Proof.
  intros Hlines Hcap Hnot Hsta Hcs Hcw Hss Hsw.
  unfold get_link_fields. rewrite Hlines. cbn [fold_left].
  unfold link_line. rewrite Hcap, Hnot, Hsta.
  cbn [cap_speed cap_width sta_speed sta_width].
  by rewrite (speed_search _ _ _ Hcs), (width_search _ _ _ Hcw),
    (speed_search _ _ _ Hss), (width_search _ _ _ Hsw).
Qed.

Lemma link_fields_of_output_witness :
  get_link_fields sample_host "5e:00.0" = LinkFields "8" "16" "2.5" "16".
Proof.
  apply (link_fields_of_output sample_host "5e:00.0"
           "        LnkCap: Port #0, Speed 8GT/s, Width x16, ASPM L0s L1"
           "        LnkSta: Speed 2.5GT/s (downgraded), Width x16 (ok)").
  - reflexivity.
  - reflexivity.
  - reflexivity.
  - reflexivity.
  - exists "        LnkCap: Port #0, ", " ", ", Width x16, ASPM L0s L1".
    repeat split; try reflexivity; discriminate.
  - exists "        LnkCap: Port #0, Speed 8GT/s, ", ", ASPM L0s L1".
    repeat split; try reflexivity; discriminate.
  - exists "        LnkSta: ", " ", " (downgraded), Width x16 (ok)".
    repeat split; try reflexivity; discriminate.
  - exists "        LnkSta: Speed 2.5GT/s (downgraded), ", " (ok)".
    repeat split; try reflexivity; discriminate.
Defined.

End LinkOutput.

(** ** Discovery on a listing of devices *)

Section ListedDevices.

Lemma starts_with_app n s t :
  starts_with n s = true → starts_with n (s +:+ t) = true.
Proof.
  revert s. induction n as [|a n IH]; intros s; [done|].
  destruct s as [|c s]; [discriminate|]. rewrite append_cons.
  cbn [starts_with]. intros [-> Hs]%andb_true_iff. by rewrite IH.
Qed.

Lemma contains_app_l n s t :
  contains n s = true → contains n (s +:+ t) = true.
Proof.
  induction s as [|c s IH].
  - cbn [contains]. rewrite orb_false_r. intros Hn.
    destruct n; [by destruct t|discriminate].
  - rewrite append_cons. cbn [contains].
    intros [Hs | Hs]%orb_true_iff.
    + apply (starts_with_app n (String c s) t) in Hs.
      rewrite append_cons in Hs. by rewrite Hs.
    + rewrite IH by done. by rewrite orb_true_r.
Qed.

Lemma contains_app_r n s t :
  contains n t = true → contains n (s +:+ t) = true.
Proof.
  intros Ht. induction s as [|c s IH]; [done|].
  rewrite append_cons. cbn [contains]. by rewrite IH, orb_true_r.
Qed.

(** A needle without the character [sep] lies on one side of a [sep]. *)
Lemma starts_with_sep sep n a b :
  all_chars (not_char sep) n = true →
  starts_with n (a +:+ String sep b) = starts_with n a.
Proof.
  revert a. induction n as [|m n IH]; intros a Hn; [by destruct a|].
  cbn [all_chars] in Hn. apply andb_true_iff in Hn as [Hm Hn].
  destruct a as [|c a].
  - change ("" +:+ String sep b) with (String sep b). cbn [starts_with].
    unfold not_char in Hm. apply negb_true_iff in Hm. by rewrite Hm.
  - rewrite append_cons. cbn [starts_with]. by rewrite IH.
Qed.

Lemma contains_sep sep n a b :
  all_chars (not_char sep) n = true →
  contains n (a +:+ String sep b) = contains n a || contains n b.
Proof.
  intros Hn. induction a as [|c a IH].
  - change ("" +:+ String sep b) with (String sep b). cbn [contains].
    rewrite <- (starts_with_sep sep n "" b Hn).
    change ("" +:+ String sep b) with (String sep b).
    by rewrite orb_false_r.
  - rewrite append_cons. cbn [contains]. rewrite IH.
    rewrite <- (append_cons c a (String sep b)).
    rewrite (starts_with_sep sep n (String c a) b Hn).
    by rewrite !orb_assoc.
Qed.

(** A needle whose last character is not [y] does not end on a final [y]. *)
Lemma starts_with_last x y n a :
  x ≠ y →
  starts_with (n +:+ String x "") (a +:+ String y "")
  = starts_with (n +:+ String x "") a.
Proof.
  intros Hxy. revert a. induction n as [|m n IH]; intros a.
  - change ("" +:+ String x "") with (String x ""). destruct a as [|c a].
    + change ("" +:+ String y "") with (String y ""). cbn [starts_with].
      destruct (Ascii.eqb_spec x y); done.
    + rewrite append_cons. cbn [starts_with]. done.
  - rewrite append_cons. destruct a as [|c a].
    + change ("" +:+ String y "") with (String y ""). cbn [starts_with].
      destruct (n +:+ String x "") eqn:Hn; [by destruct n|].
      cbn [starts_with]. by rewrite andb_false_r.
    + rewrite append_cons. cbn [starts_with]. by rewrite IH.
Qed.

Lemma contains_last x y n a :
  x ≠ y →
  contains (n +:+ String x "") (a +:+ String y "")
  = contains (n +:+ String x "") a.
Proof.
  intros Hxy. induction a as [|c a IH].
  - change ("" +:+ String y "") with (String y ""). cbn [contains].
    rewrite <- (starts_with_last x y n "" Hxy).
    change ("" +:+ String y "") with (String y "").
    by destruct (starts_with _ _).
  - rewrite append_cons. cbn [contains]. rewrite IH.
    rewrite <- (append_cons c a (String y "")).
    by rewrite (starts_with_last x y n (String c a) Hxy).
Qed.

(** A needle that starts with [x] does not start in a text without [x]. *)
Lemma contains_no_first x n a b :
  all_chars (not_char x) a = true →
  contains (String x n) (a +:+ b) = contains (String x n) b.
Proof.
  induction a as [|c a IH]; [done|]. rewrite append_cons.
  cbn [all_chars contains starts_with]. intros [Hc Ha]%andb_true_iff.
  unfold not_char in Hc. apply negb_true_iff in Hc.
  rewrite Ascii.eqb_sym, Hc. cbn [andb orb]. by apply IH.
Qed.

Lemma starts_with_length n s :
  starts_with n s = true → String.length n ≤ String.length s.
Proof.
  revert s. induction n as [|m n IH]; intros s; [cbn; lia|].
  destruct s as [|c s]; [discriminate|]. cbn [starts_with String.length].
  intros [_ Hs]%andb_true_iff. apply IH in Hs. lia.
Qed.

(** A text shorter than the needle does not hold it. *)
Lemma contains_short n s :
  String.length s < String.length n → contains n s = false.
Proof.
  intros Hlen. induction s as [|c s IH].
  - cbn [contains]. rewrite orb_false_r.
    destruct (starts_with n "") eqn:Hs; [|done].
    apply starts_with_length in Hs. lia.
  - cbn [contains]. rewrite IH by (cbn [String.length] in Hlen; lia).
    rewrite orb_false_r.
    destruct (starts_with n (String c s)) eqn:Hs; [|done].
    apply starts_with_length in Hs. lia.
Qed.

Lemma hex_not_bracket c : is_hex c = true → not_char "[" c = true.
Proof. destruct c as [[] [] [] [] [] [] [] []]; by vm_compute. Qed.

Lemma hex_lower_not_bracket c :
  is_hex c = true → not_char "[" (lower_char c) = true.
Proof. destruct c as [[] [] [] [] [] [] [] []]; by vm_compute. Qed.

Lemma oct_hex c : is_oct c = true → is_hex c = true.
Proof. destruct c as [[] [] [] [] [] [] [] []]; by vm_compute. Qed.

(** A text of four hexadecimal digits, digit by digit. *)
Lemma hex4_inv s :
  hex4 s = true →
  ∃ c1 c2 c3 c4, s = String c1 (String c2 (String c3 (String c4 "")))
    ∧ is_hex c1 = true ∧ is_hex c2 = true
    ∧ is_hex c3 = true ∧ is_hex c4 = true.
Proof.
  unfold hex4. intros [Hlen Hall]%andb_true_iff.
  apply Nat.eqb_eq in Hlen.
  destruct s as [|c1 [|c2 [|c3 [|c4 [|c5 s]]]]]; try discriminate Hlen.
  cbn [all_chars] in Hall. rewrite !andb_true_iff in Hall.
  exists c1, c2, c3, c4. naive_solver.
Qed.

(** A hexadecimal digit is a given one, in either case, exactly when its
    value is the value of that one. *)
Lemma hex_digit_test c k :
  is_hex c = true → (k < 16)%N →
  Ascii.eqb (hex_char k) (lower_char c) = (hex_digit_value c =? k)%N.
Proof.
  intros Hc Hk.
  assert (Hall : forallb (λ j,
    Bool.eqb (Ascii.eqb (hex_char (N.of_nat j)) (lower_char c))
             (hex_digit_value c =? N.of_nat j)%N) (seq 0 16) = true).
  { destruct c as [[] [] [] [] [] [] [] []]; try discriminate Hc;
      by vm_compute. }
  rewrite forallb_forall in Hall. specialize (Hall (N.to_nat k)).
  rewrite N2Nat.id in Hall. apply Bool.eqb_prop, Hall, in_seq. lia.
Qed.

(** The same for a decimal digit, which has one case. *)
Lemma dec_digit_test c k :
  is_hex c = true → (k < 10)%N →
  Ascii.eqb (hex_char k) c = (hex_digit_value c =? k)%N.
Proof.
  intros Hc Hk.
  assert (Hall : forallb (λ j,
    Bool.eqb (Ascii.eqb (hex_char (N.of_nat j)) c)
             (hex_digit_value c =? N.of_nat j)%N) (seq 0 10) = true).
  { destruct c as [[] [] [] [] [] [] [] []]; try discriminate Hc;
      by vm_compute. }
  rewrite forallb_forall in Hall. specialize (Hall (N.to_nat k)).
  rewrite N2Nat.id in Hall. apply Bool.eqb_prop, Hall, in_seq. lia.
Qed.

Lemma contains_cons n c s :
  contains n (String c s) = starts_with n (String c s) || contains n s.
Proof. reflexivity. Qed.

Lemma contains_starts n s : starts_with n s = true → contains n s = true.
Proof. intros Hs. destruct s; cbn [contains]; by rewrite Hs. Qed.

Lemma hex4_no_bracket s :
  hex4 s = true → all_chars (not_char "[") s = true.
Proof.
  intros (c1 & c2 & c3 & c4 & -> & H1 & H2 & H3 & H4)%hex4_inv.
  cbn [all_chars]. by rewrite !hex_not_bracket.
Qed.

Lemma hex4_lower_no_bracket s :
  hex4 s = true → all_chars (not_char "[") (lower s) = true.
Proof.
  intros (c1 & c2 & c3 & c4 & -> & H1 & H2 & H3 & H4)%hex4_inv.
  cbn [lower all_chars]. by rewrite !hex_lower_not_bracket.
Qed.

Lemma hex4_length s : hex4 s = true → String.length s = 4.
Proof. by intros (c1 & c2 & c3 & c4 & -> & _)%hex4_inv. Qed.

(** Where one of the bracketed texts can be in the text of a line: in the
    class text, at the class code, in the name, at the identifiers, or in
    the tail. *)
Lemma code_in_text n ct cc name ven dev tail :
  all_chars (not_char " ") (String "[" n) = true →
  all_chars (not_char "[") cc = true →
  all_chars (not_char "[") ven = true →
  all_chars (not_char "[") dev = true →
  contains (String "[" n)
    (ct +:+ String " " (String "[" (cc +:+ String "]" (String ":" (String " "
      (name +:+ String " " (String "["
        (ven +:+ String ":" (dev +:+ String "]" tail)))))))))
  = contains (String "[" n) ct
    || starts_with (String "[" n) (String "[" (cc +:+ "]:"))
    || contains (String "[" n) name
    || starts_with (String "[" n)
         (String "[" (ven +:+ String ":" (dev +:+ String "]" tail)))
    || contains (String "[" n) tail.
Proof.
  intros Hn Hcc Hven Hdev.
  set (Z := String "[" (ven +:+ String ":" (dev +:+ String "]" tail))).
  set (Y := name +:+ String " " Z).
  rewrite (contains_sep " " _ ct _ Hn).
  assert (E : String "[" (cc +:+ String "]" (String ":" (String " " Y)))
              = String "[" (cc +:+ "]:") +:+ String " " Y)
    by (rewrite append_cons, append_assoc_str; reflexivity).
  rewrite E, (contains_sep " " _ _ Y Hn). subst Y.
  rewrite (contains_sep " " _ name Z Hn).
  rewrite (contains_cons _ "[" (cc +:+ "]:")).
  rewrite (contains_no_first "[" n cc "]:" Hcc).
  assert (E1 : contains (String "[" n) "]:" = false)
    by (vm_compute; reflexivity).
  rewrite E1. subst Z.
  rewrite (contains_cons _ "[" (ven +:+ _)).
  rewrite (contains_no_first "[" n ven _ Hven).
  rewrite (contains_cons _ ":" (dev +:+ _)).
  rewrite (contains_no_first "[" n dev _ Hdev).
  rewrite (contains_cons _ "]" tail).
  assert (E2 : ∀ X, starts_with (String "[" n) (String ":" X) = false)
    by (intros X; vm_compute; reflexivity).
  assert (E3 : ∀ X, starts_with (String "[" n) (String "]" X) = false)
    by (intros X; vm_compute; reflexivity).
  rewrite E2, E3. cbn [orb]. rewrite !orb_false_r, !orb_assoc. reflexivity.
Qed.

(** Where a class label can be: in the class text, in the name, or in the
    tail. *)
Lemma label_in_text x L y ct cc name ven dev tail :
  let label := String x (L +:+ String y "") in
  x ≠ " "%char → y ≠ " "%char →
  all_chars (not_char "[") label = true →
  all_chars (not_char "]") label = true →
  all_chars (not_char ":") label = true →
  String.length cc < String.length label →
  String.length ven < String.length label →
  String.length dev < String.length label →
  contains label
    (ct +:+ String " " (String "[" (cc +:+ String "]" (String ":" (String " "
      (name +:+ String " " (String "["
        (ven +:+ String ":" (dev +:+ String "]" tail)))))))))
  = contains label ct || contains label name || contains label tail.
Proof.
  intros label Hx Hy Hl1 Hl2 Hl3 Hcc Hven Hdev.
  assert (Hlast : ∀ a, contains label (a +:+ " ") = contains label a)
    by (intros a; exact (contains_last y " " (String x L) a Hy)).
  set (W := ven +:+ String ":" (dev +:+ String "]" tail)).
  set (B := cc +:+ String "]" (String ":" (String " "
              (name +:+ String " " (String "[" W))))).
  assert (E : ct +:+ String " " (String "[" B)
              = (ct +:+ " ") +:+ String "[" B)
    by (rewrite append_assoc_str; reflexivity).
  rewrite E, (contains_sep "[" label _ B Hl1).
  rewrite (Hlast ct).
  subst B. rewrite (contains_sep "]" label cc _ Hl2).
  rewrite (contains_short label cc Hcc). cbn [orb].
  assert (E0 : ∀ X, String ":" X = "" +:+ String ":" X) by done.
  rewrite (E0 (String " " _)), (contains_sep ":" label "" _ Hl3).
  rewrite (contains_short label "") by (cbn; lia). cbn [orb].
  assert (E1 : String " " (name +:+ String " " (String "[" W))
               = (String " " name +:+ " ") +:+ String "[" W)
    by (rewrite !append_cons, append_assoc_str; reflexivity).
  rewrite E1, (contains_sep "[" label _ W Hl1).
  rewrite (Hlast (String " " name)), (contains_cons label " " name).
  assert (E2 : starts_with label (String " " name) = false).
  { unfold label. cbn [starts_with].
    destruct (Ascii.eqb_spec x " "); done. }
  rewrite E2. cbn [orb]. subst W.
  rewrite (contains_sep ":" label ven _ Hl3).
  rewrite (contains_short label ven Hven). cbn [orb].
  rewrite (contains_sep "]" label dev tail Hl2).
  rewrite (contains_short label dev Hdev). cbn [orb].
  by rewrite orb_assoc.
Qed.

Lemma int16_hex4 c1 c2 c3 c4 :
  int16 (String c1 (String c2 (String c3 (String c4 ""))))
  = (((hex_digit_value c1 * 16 + hex_digit_value c2) * 16
      + hex_digit_value c3) * 16 + hex_digit_value c4)%N.
Proof. unfold int16. cbn [int16_go]. lia. Qed.

(** The identifiers start with [10de], in either case, exactly when the
    vendor identifier is that number. *)
Lemma vendor_test v X :
  hex4 v = true →
  starts_with "[10de:" (String "[" (lower v +:+ String ":" X))
  = (int16 v =? 4318)%N.
Proof.
  intros (c1 & c2 & c3 & c4 & -> & H1 & H2 & H3 & H4)%hex4_inv.
  rewrite int16_hex4. cbn [lower]. rewrite !append_cons.
  change ("" +:+ String ":" X) with (String ":" X). cbn [starts_with].
  rewrite !Ascii.eqb_refl.
  assert (E1 : Ascii.eqb "1" (lower_char c1) = (hex_digit_value c1 =? 1)%N)
    by (apply (hex_digit_test c1 1 H1); lia).
  assert (E2 : Ascii.eqb "0" (lower_char c2) = (hex_digit_value c2 =? 0)%N)
    by (apply (hex_digit_test c2 0 H2); lia).
  assert (E3 : Ascii.eqb "d" (lower_char c3) = (hex_digit_value c3 =? 13)%N)
    by (apply (hex_digit_test c3 13 H3); lia).
  assert (E4 : Ascii.eqb "e" (lower_char c4) = (hex_digit_value c4 =? 14)%N)
    by (apply (hex_digit_test c4 14 H4); lia).
  rewrite E1, E2, E3, E4.
  pose proof (hex_digit_value_lt c1). pose proof (hex_digit_value_lt c2).
  pose proof (hex_digit_value_lt c3). pose proof (hex_digit_value_lt c4).
  apply Bool.eq_true_iff_eq. cbn [andb].
  rewrite !andb_true_iff, !N.eqb_eq. lia.
Qed.

(** The class code between its brackets is [0300], or [0302], exactly when
    it is that number. *)
Lemma class_test k cc X :
  hex4 cc = true → (k < 10)%N →
  starts_with (String "[" (String "0" (String "3" (String "0"
                 (String (hex_char k) "]")))))
    (String "[" (cc +:+ String "]" X))
  = (int16 cc =? 768 + k)%N.
Proof.
  intros (c1 & c2 & c3 & c4 & -> & H1 & H2 & H3 & H4)%hex4_inv Hk.
  rewrite int16_hex4. rewrite !append_cons.
  change ("" +:+ String "]" X) with (String "]" X). cbn [starts_with].
  rewrite !Ascii.eqb_refl.
  assert (E1 : Ascii.eqb "0" c1 = (hex_digit_value c1 =? 0)%N)
    by (apply (dec_digit_test c1 0 H1); lia).
  assert (E2 : Ascii.eqb "3" c2 = (hex_digit_value c2 =? 3)%N)
    by (apply (dec_digit_test c2 3 H2); lia).
  assert (E3 : Ascii.eqb "0" c3 = (hex_digit_value c3 =? 0)%N)
    by (apply (dec_digit_test c3 0 H3); lia).
  rewrite E1, E2, E3, (dec_digit_test c4 k H4 Hk).
  pose proof (hex_digit_value_lt c1). pose proof (hex_digit_value_lt c2).
  pose proof (hex_digit_value_lt c3). pose proof (hex_digit_value_lt c4).
  apply Bool.eq_true_iff_eq. cbn [andb].
  rewrite !andb_true_iff, !N.eqb_eq. lia.
Qed.

(** Four characters between brackets are not taken for the start of the
    identifiers, nor the identifiers for a class code. *)
Lemma code_not_vendor cc X :
  hex4 cc = true →
  starts_with "[10de:" (String "[" (cc +:+ String "]" X)) = false.
Proof.
  intros (c1 & c2 & c3 & c4 & -> & _)%hex4_inv. rewrite !append_cons.
  change ("" +:+ String "]" X) with (String "]" X). cbn [starts_with].
  change (Ascii.eqb ":" "]") with false. cbn [andb].
  by rewrite !andb_false_r.
Qed.

Lemma vendor_not_code n5 v X :
  hex4 v = true →
  starts_with (String "[" (String "0" (String "3" (String "0"
                 (String n5 "]")))))
    (String "[" (v +:+ String ":" X)) = false.
Proof.
  intros (c1 & c2 & c3 & c4 & -> & _)%hex4_inv. rewrite !append_cons.
  change ("" +:+ String ":" X) with (String ":" X). cbn [starts_with].
  change (Ascii.eqb "]" ":") with false. cbn [andb].
  by rewrite !andb_false_r.
Qed.

Lemma ld_text_parts d :
  ld_text d
  = ld_class_text d +:+ String " " (String "[" (ld_class_code d
      +:+ String "]" (String ":" (String " " (ld_name d
      +:+ String " " (String "[" (ld_vendor d
      +:+ String ":" (ld_device d +:+ String "]" (ld_tail d))))))))).
Proof. reflexivity. Qed.

Lemma lower_text_parts d :
  lower (ld_text d)
  = lower (ld_class_text d) +:+ String " " (String "[" (lower (ld_class_code d)
      +:+ String "]" (String ":" (String " " (lower (ld_name d)
      +:+ String " " (String "[" (lower (ld_vendor d)
      +:+ String ":" (lower (ld_device d)
      +:+ String "]" (lower (ld_tail d)))))))))).
Proof. unfold ld_text. rewrite !lower_app. reflexivity. Qed.

(** The address of a line has no bracket: the vendor test on the line is
    the test on what follows the address. *)
Lemma vendor_in_line d :
  well_formed_device d →
  contains "[10de:" (lower (listing_line d))
  = contains "[10de:" (lower (ld_text d)).
Proof.
  intros (Hc & _). unfold listing_line.
  apply canonical_fields_inv in Hc
    as (d1 & d2 & d3 & d4 & b1 & b2 & v1 & v2 & f1 & _ & -> & -> & -> & ->
        & H1 & H2 & H3 & H4 & H5 & H6 & H7 & H8 & H9%oct_hex).
  cbv [String.append]; fold String.append. cbn [lower].
  repeat (rewrite contains_cons;
          match goal with
          | |- context [starts_with _ (String (lower_char ?c) _)] =>
              cbn [starts_with];
              let E := fresh in
              assert (E : Ascii.eqb "[" (lower_char c) = false)
                by (rewrite Ascii.eqb_sym; apply negb_true_iff;
                    first [by apply hex_lower_not_bracket
                          | by vm_compute]);
              rewrite E; clear E; cbn [andb orb]
          end).
  reflexivity.
Qed.

(** What the loop does with the line of a well-formed device. *)
Lemma gpu_line_listed d :
  well_formed_device d →
  gpu_line (listing_line d)
  = if line_accepted d then Some (ld_nodom d) else None.
Proof.
  intros (Hc & _ & _ & _ & Htext & Hhead). unfold gpu_line, line_accepted.
  destruct (contains "[10de:" _); [|done]. cbn [negb andb].
  destruct (listing_line_match (ld_domain d) (ld_bus d) (ld_dev d) (ld_fn d)
              " " (ld_text d) Hc) as (m & Hm & Hg2 & Hg3);
    [done|done|done| |].
  { unfold ld_text. destruct (ld_class_text d); [done|by rewrite append_cons]. }
  unfold listing_line. rewrite Hm, Hg2, Hg3. reflexivity.
Qed.

(** The vendor test of the code on a well-formed line, field by field: the
    comparison of the vendor identifier, or a bracketed vendor in one of the
    free texts. *)
Lemma vendor_accepted d :
  well_formed_device d →
  contains "[10de:" (lower (listing_line d))
  = contains "[10de:" (lower (ld_class_text d))
    || contains "[10de:" (lower (ld_name d))
    || (int16 (ld_vendor d) =? 4318)%N
    || contains "[10de:" (lower (ld_tail d)).
Proof.
  intros Hwf. rewrite (vendor_in_line d Hwf).
  destruct Hwf as (_ & Hcc & Hven & Hdev & _).
  rewrite lower_text_parts, code_in_text;
    [|done|by apply hex4_lower_no_bracket..].
  destruct (hex4_inv _ Hcc) as (c1 & c2 & c3 & c4 & Ecc & _).
  assert (E : starts_with "[10de:"
                (String "[" (lower (ld_class_code d) +:+ "]:")) = false).
  { rewrite Ecc. cbn [lower]. rewrite !append_cons. cbn [starts_with].
    change (Ascii.eqb ":" "]") with false. cbn [andb].
    by rewrite !andb_false_r. }
  rewrite E, (vendor_test _ _ Hven), orb_false_r. reflexivity.
Qed.

(** The same for the two class codes. *)
Lemma class_accepted k d :
  well_formed_device d → (k < 10)%N →
  let needle := String "[" (String "0" (String "3" (String "0"
                (String (hex_char k) "]")))) in
  contains needle (ld_text d)
  = contains needle (ld_class_text d)
    || (int16 (ld_class_code d) =? 768 + k)%N
    || contains needle (ld_name d)
    || contains needle (ld_tail d).
Proof.
  intros (_ & Hcc & Hven & Hdev & _) Hk needle.
  assert (Hneedle : all_chars (not_char " ") needle = true).
  { unfold needle. cbn [all_chars]. unfold not_char at 5.
    assert (Hall : forallb (λ j, negb (Ascii.eqb (hex_char (N.of_nat j)) " "))
                     (seq 0 10) = true) by (vm_compute; reflexivity).
    rewrite forallb_forall in Hall. specialize (Hall (N.to_nat k)).
    rewrite N2Nat.id in Hall. rewrite Hall by (apply in_seq; lia).
    reflexivity. }
  rewrite ld_text_parts. unfold needle in *.
  rewrite code_in_text; [|done|by apply hex4_no_bracket..].
  rewrite (class_test k _ ":" Hcc Hk), (vendor_not_code _ _ _ Hven).
  by rewrite orb_false_r.
Qed.

(** And for the two labels. *)
Lemma label_accepted x L y d :
  let label := String x (L +:+ String y "") in
  well_formed_device d →
  x ≠ " "%char → y ≠ " "%char →
  all_chars (not_char "[") label = true →
  all_chars (not_char "]") label = true →
  all_chars (not_char ":") label = true →
  4 < String.length label →
  contains label (ld_text d)
  = contains label (ld_class_text d) || contains label (ld_name d)
    || contains label (ld_tail d).
Proof.
  intros label (_ & Hcc%hex4_length & Hven%hex4_length & Hdev%hex4_length & _)
    Hx Hy Hl1 Hl2 Hl3 Hlen.
  rewrite ld_text_parts. subst label.
  apply label_in_text; try done; lia.
Qed.

(** The two tests of the code on a well-formed line, field by field. *)
Lemma line_accepted_fields d :
  well_formed_device d →
  line_accepted d
  = (contains "[10de:" (lower (ld_class_text d))
     || contains "[10de:" (lower (ld_name d))
     || (int16 (ld_vendor d) =? 4318)%N
     || contains "[10de:" (lower (ld_tail d)))
    && ((contains "[0300]" (ld_class_text d)
         || (int16 (ld_class_code d) =? 768)%N
         || contains "[0300]" (ld_name d) || contains "[0300]" (ld_tail d))
        || (contains "[0302]" (ld_class_text d)
            || (int16 (ld_class_code d) =? 770)%N
            || contains "[0302]" (ld_name d) || contains "[0302]" (ld_tail d))
        || (contains "VGA compatible controller" (ld_class_text d)
            || contains "VGA compatible controller" (ld_name d)
            || contains "VGA compatible controller" (ld_tail d))
        || (contains "3D controller" (ld_class_text d)
            || contains "3D controller" (ld_name d)
            || contains "3D controller" (ld_tail d))).
Proof.
  intros Hwf. unfold line_accepted.
  rewrite (vendor_accepted d Hwf).
  pose proof (class_accepted 0 d Hwf) as E0. cbv zeta in E0.
  change (String "[" (String "0" (String "3" (String "0"
            (String (hex_char 0) "]"))))) with "[0300]" in E0.
  pose proof (class_accepted 2 d Hwf) as E2. cbv zeta in E2.
  change (String "[" (String "0" (String "3" (String "0"
            (String (hex_char 2) "]"))))) with "[0302]" in E2.
  rewrite E0, E2 by lia.
  assert (EV : contains "VGA compatible controller" (ld_text d) = _)
    by (apply (label_accepted "V" "GA compatible controlle" "r" d Hwf);
        first [done | vm_compute; lia]).
  assert (E3 : contains "3D controller" (ld_text d) = _)
    by (apply (label_accepted "3" "D controlle" "r" d Hwf);
        first [done | vm_compute; lia]).
  rewrite EV, E3. reflexivity.
Qed.

(** A device the specification keeps passes the two tests of the code. *)
Lemma target_accepted d :
  well_formed_device d → is_target d = true → line_accepted d = true.
Proof.
  intros Hwf. rewrite (line_accepted_fields d Hwf). unfold is_target.
  change (int16 "10de") with 4318%N. change (int16 "0300") with 768%N.
  change (int16 "0302") with 770%N.
  intros [-> Hclass]%andb_true_iff. rewrite orb_true_r. cbn [orb andb].
  rewrite !orb_true_iff in Hclass. rewrite !orb_true_iff.
  naive_solver.
Qed.

(** When no free text of the line can be taken for a vendor or a class, the
    two tests of the code keep exactly the devices the specification
    keeps. *)
Lemma plain_accepted d :
  well_formed_device d → plain_names d = true →
  line_accepted d = is_target d.
Proof.
  intros Hwf. rewrite (line_accepted_fields d Hwf).
  unfold plain_names, no_code, no_label, is_target.
  change (int16 "10de") with 4318%N. change (int16 "0300") with 768%N.
  change (int16 "0302") with 770%N.
  rewrite !andb_true_iff, !negb_true_iff.
  intros [[[[[[Ha1 Ha2] Ha3] [[Hb1 Hb2] Hb3]] [Hb4 Hb5]]
            [[Hc1 Hc2] Hc3]] [Hc4 Hc5]].
  rewrite Ha1, Ha2, Ha3, Hb1, Hb2, Hb3, Hb4, Hb5, Hc1, Hc2, Hc3, Hc4, Hc5.
  cbn [orb]. by rewrite !orb_false_r.
Qed.

(** What discovery returns on a listing of well-formed devices. *)
Lemma discover_listed h ds :
  lspci_installed h = true →
  splitlines (str_or (lspci_Dnns h) (lspci_Dnn h)) = listing_line <$> ds →
  ds ≠ [] →
  Forall well_formed_device ds →
  ∃ gpus keys,
    discover_gpu_bdfs h = Ret gpus
    ∧ mapM keyfn gpus = Ret keys ∧ Sorted key_le keys ∧ NoDup gpus
    ∧ ∀ x, x ∈ gpus
           ↔ ∃ d, d ∈ ds ∧ ld_nodom d = x ∧ line_accepted d = true.
Proof.
  intros Hinst Hlines Hne Hds.
  pose proof (discover_gpu_bdfs_spec h) as Hspec. cbv zeta in Hspec.
  destruct (discover_gpu_bdfs h) as [gpus|e] eqn:Hd.
  2:{ destruct Hspec as [[Hno | Hno] _]; [congruence|].
      rewrite Hno in Hlines. by destruct ds. }
  destruct Hspec as (_ & _ & Hnd & _ & (keys & Hkeys & Hsorted) & _).
  exists gpus, keys. do 4 (split; [done|]). intros x.
  assert (Hgpus : x ∈ gpus
                  ↔ x ∈ gpu_lines (str_or (lspci_Dnns h) (lspci_Dnn h))).
  { revert Hd. unfold discover_gpu_bdfs. rewrite Hinst. cbn [negb].
    destruct (truthy _); [|discriminate]. cbn [negb]. intros Hsort.
    apply sorted_by_spec in Hsort as [Hperm _]; [|apply _].
    by rewrite Hperm, elem_of_elements, elem_of_list_to_set. }
  rewrite Hgpus. unfold gpu_lines. rewrite Hlines, list_elem_of_omap.
  rewrite Forall_forall in Hds. split.
  - intros (line & (d & -> & Hd')%list_elem_of_fmap & Hline).
    rewrite (gpu_line_listed d (Hds d Hd')) in Hline.
    destruct (line_accepted d) eqn:Hacc; [|discriminate Hline].
    injection Hline as <-. eauto.
  - intros (d & Hd' & <- & Hacc). exists (listing_line d).
    split; [by apply list_elem_of_fmap_2|].
    by rewrite (gpu_line_listed d (Hds d Hd')), Hacc.
Qed.

End ListedDevices.

(** C7, as the specification states it: discovery would return, in
    ascending order of (bus, device, function), exactly the listed devices
    whose vendor identifier is [10de] and whose class code is [0300] or
    [0302], or whose class text has one of the two labels.  On the listing
    of [odd_host] it also returns the audio function [5e:00.1], class
    [0403], whose name contains [3D controller]; the display controller
    [01:00.0] of vendor [1af4], whose name contains [[10DE:], is returned
    as well. *)
Lemma discovery_as_stated_fails :
  ¬ (∀ (h : host) (ds : list listed_device) (gpus : list string),
       lspci_installed h = true →
       splitlines (str_or (lspci_Dnns h) (lspci_Dnn h)) = listing_line <$> ds →
       Forall well_formed_device ds →
       discover_gpu_bdfs h = Ret gpus →
       (∃ keys, mapM keyfn gpus = Ret keys ∧ Sorted key_le keys)
       ∧ ∀ x, x ∈ gpus
              ↔ ∃ d, d ∈ ds ∧ ld_nodom d = x ∧ is_target d = true).
Proof.
  intros Hall.
  destruct (Hall odd_host [odd_audio; odd_display] ["01:00.0"; "5e:00.1"])
    as [_ Hexact].
  - reflexivity.
  - vm_compute. reflexivity.
  - repeat constructor.
  - vm_compute. reflexivity.
  - assert (Hin : "5e:00.1" ∈ ["01:00.0"; "5e:00.1"])
      by (apply list_elem_of_further, list_elem_of_here).
    apply Hexact in Hin as (d & Hd & Hx & Ht).
    rewrite !elem_of_cons, elem_of_nil in Hd.
    destruct Hd as [-> | [-> | []]]; [discriminate Ht|discriminate Hx].
Qed.

(** C7, amended: on a listing of well-formed lines, discovery returns,
    once each and in ascending order of (bus, device, function), addresses
    of listed devices.  Every device whose vendor identifier is [10de] and
    whose class code is [0300] or [0302], or whose class text has one of
    the two labels, is among them; every device among them has [[10de:] on
    its line, in either case, and one of [[0300]], [[0302]] and the two
    labels after its address.  Where no name and no tail of the listing
    holds one of these five texts, and no class text one of the three in
    brackets, the devices returned are exactly those of that vendor and
    those classes. *)
Theorem discover_gpu_bdfs_listing (h : host) (ds : list listed_device) :
  lspci_installed h = true →
  splitlines (str_or (lspci_Dnns h) (lspci_Dnn h)) = listing_line <$> ds →
  ds ≠ [] →
  Forall well_formed_device ds →
  ∃ gpus keys,
    discover_gpu_bdfs h = Ret gpus
    ∧ mapM keyfn gpus = Ret keys ∧ Sorted key_le keys ∧ NoDup gpus
    ∧ (∀ x, x ∈ gpus →
         ∃ a, parse_address ("0000:" +:+ x) = Some a
              ∧ keyfn x = Ret (bus a, device a, function a))
    ∧ (∀ d, d ∈ ds → is_target d = true → ld_nodom d ∈ gpus)
    ∧ (∀ x, x ∈ gpus →
         ∃ d, d ∈ ds ∧ ld_nodom d = x ∧ line_accepted d = true)
    ∧ (Forall (λ d, plain_names d = true) ds →
       ∀ x, x ∈ gpus
            ↔ ∃ d, d ∈ ds ∧ ld_nodom d = x ∧ is_target d = true).
Proof.
  intros Hinst Hlines Hne Hds.
  destruct (discover_listed h ds Hinst Hlines Hne Hds)
    as (gpus & keys & Hd & Hkeys & Hsorted & Hnd & Hmem).
  exists gpus, keys. do 4 (split; [done|]).
  rewrite Forall_forall in Hds. split; [|split; [|split]].
  - pose proof (discover_gpu_bdfs_spec h) as Hspec. cbv zeta in Hspec.
    rewrite Hd in Hspec. by destruct Hspec as (_ & _ & _ & _ & _ & Hkey).
  - intros d Hin Ht. apply Hmem. exists d.
    split; [done|]. split; [done|]. by apply target_accepted; [apply Hds|].
  - intros x Hx. by apply Hmem.
  - intros Hplain x. rewrite Forall_forall in Hplain. rewrite Hmem.
    split; intros (d & Hin & Hx & Hacc); exists d;
      (split; [done|]); (split; [done|]).
    + by rewrite <- (plain_accepted d (Hds d Hin) (Hplain d Hin)).
    + by rewrite (plain_accepted d (Hds d Hin) (Hplain d Hin)).
Qed.

Lemma discover_gpu_bdfs_listing_witness :
  discover_gpu_bdfs listed_host = Ret ["3b:00.0"; "5e:00.0"; "86:00.0"]
  ∧ NoDup ["3b:00.0"; "5e:00.0"; "86:00.0"]
  ∧ ∀ x, x ∈ ["3b:00.0"; "5e:00.0"; "86:00.0"]
         ↔ ∃ d, d ∈ sample_devices ∧ ld_nodom d = x ∧ is_target d = true.
Proof.
  destruct (discover_gpu_bdfs_listing listed_host sample_devices)
    as (gpus & keys & Hd & _ & _ & Hnd & _ & _ & _ & Hexact).
  - reflexivity.
  - vm_compute. reflexivity.
  - discriminate.
  - repeat constructor.
  - assert (Hd' : discover_gpu_bdfs listed_host
                  = Ret ["3b:00.0"; "5e:00.0"; "86:00.0"])
      by (vm_compute; reflexivity).
    rewrite Hd' in Hd. injection Hd as <-.
    split; [reflexivity|]. split; [exact Hnd|].
    apply Hexact. repeat constructor.
Defined.

(** ** The properties of the run on the sample machine *)

Section Samples.

Lemma no_status_line_ok_witness :
  sta_speed (get_link_fields sample_host "86:00.0") = ""
  ∧ sta_width (get_link_fields sample_host "86:00.0") = ""
  ∧ gpu_verdict sample_host "86:00.0" = Ret "OK".
Proof.
  apply (no_status_line_ok sample_host "86:00.0"). vm_compute. constructor.
Defined.

Lemma link_table_report_witness :
  ∃ st before,
    test_body degraded_host = Ret st
    ∧ bdf <$> rows st = ["3b:00.0"; "5e:00.0"]
    ∧ stdout st
      = before ++ link_table_header ++ (link_table_line <$> rows st).
Proof.
  destruct (link_table_report degraded_host ["3b:00.0"; "5e:00.0"; "86:00.0"])
    as (st & before & Hst & Hbdf & _ & Hout & _).
  - vm_compute. reflexivity.
  - discriminate.
  - exists st, before. split; [exact Hst|]. split; [exact Hbdf|exact Hout].
Defined.

Lemma skip_conditions_witness :
  skipped (test_gpu_pcie_topology_and_links
             (Host false "" "" true "" sample_realpath (sample_lnk "16")
                   sample_nn_head)).
Proof. apply skip_conditions. left. reflexivity. Defined.

Lemma unread_links_pass_witness :
  test_gpu_pcie_topology_and_links
    (Host true sample_listing "" true sample_slots sample_realpath
          (λ _, "") sample_nn_head) = Ret ().
Proof.
  apply (unread_links_pass
           (Host true sample_listing "" true sample_slots sample_realpath
                 (λ _, "") sample_nn_head)
           ["3b:00.0"; "5e:00.0"; "86:00.0"]).
  - vm_compute. reflexivity.
  - discriminate.
  - intros g _. constructor.
Defined.

Lemma resolved_slot_row_witness :
  ∃ st r, test_body sample_host = Ret st ∧ r ∈ rows st ∧ bdf r = "3b:00.0"
          ∧ slot_name r = "GPU4 (PCIE_3_PCIE_2)"
          ∧ location r = "Front-Right-Bottom".
Proof.
  destruct (resolved_slot_row sample_host ["3b:00.0"; "5e:00.0"; "86:00.0"]
              "3b:00.0" "0000:3a:00.0" [] "0000:3a:00.0" "0000:3b:00.0"
              "0000" "3a" "00" "0")
    as (st & r & Hst & Hr & Hbdf & Hslot & Hloc & _).
  - vm_compute. reflexivity.
  - apply list_elem_of_here.
  - reflexivity.
  - reflexivity.
  - reflexivity.
  - exists st, r. split; [exact Hst|]. split; [exact Hr|].
    split; [exact Hbdf|]. split; [exact Hslot|exact Hloc].
Defined.

End Samples.
